(** * scalr.py: connection resolution and failure classification

    A shallow embedding of [app/scalr.py] (the Scalr three-tier demo
    application): the two classes [DBConnectionInformation] and
    [ConnectionInfo], the Python built-ins they call, and the external
    collaborators (file system, name resolver, MySQL client) they talk to.

    Python exceptions are results [Raise e]; side effects are threaded
    through an explicit [World]; the MySQL client is an interface
    ([MySQLdb]) so that every statement about the program holds for every
    behaviour of the client. *)

From Stdlib Require Import Ascii.
From stdpp Require Import base strings gmap list sorting pretty.

Local Open Scope string_scope.
Local Open Scope Z_scope.

(** ** Module constants (scalr.py, lines 14-20) *)

Definition CONFIG_PATH : string := "/var/config".
Definition VALUE_LENGTH : Z := 200.

Definition MYSQL_ERROR_CODE_UNKNOWN_DB : Z := 1049.
Definition MYSQL_ERROR_CODE_NO_HOST : Z := 2005.
Definition MYSQL_ERROR_CODE_ACCESS_DENIED : Z := 1045.

(** ** The Python built-ins the program uses *)

(** Values passed as the argument of [cursor.execute]: an [int] or a [str]. *)
Inductive pyval :=
| PyInt (z : Z)
| PyStr (s : string).

(** [str(v)], which is what ["{0}".format(v)] inserts. *)
Definition str (v : pyval) : string :=
  match v with
  | PyInt z => pretty z
  | PyStr s => s
  end.

(** [c.isspace()] for a byte of a Python 2 [str]: space, \t, \n, \v, \f, \r. *)
Definition isspace (c : ascii) : bool :=
  let n := Z.of_N (N_of_ascii c) in
  (n =? 32) || ((9 <=? n) && (n <=? 13)).

Fixpoint lstrip (s : string) : string :=
  match s with
  | EmptyString => EmptyString
  | String c r => if isspace c then lstrip r else s
  end.

Fixpoint rstrip (s : string) : string :=
  match s with
  | EmptyString => EmptyString
  | String c r =>
      match rstrip r with
      | EmptyString => if isspace c then EmptyString else String c EmptyString
      | r' => String c r'
      end
  end.

(** [s.strip()] *)
Definition strip (s : string) : string := rstrip (lstrip s).

(** [s.startswith('/')] and [s.endswith('/')] *)
Definition startswith_slash (s : string) : bool :=
  match s with
  | String "/" _ => true
  | _ => false
  end.

Fixpoint endswith_slash (s : string) : bool :=
  match s with
  | EmptyString => false
  | String c EmptyString => Ascii.eqb c "/"
  | String _ r => endswith_slash r
  end.

(** [os.path.join(a, b)] of posixpath, for one component [b]. *)
Definition os_path_join (a b : string) : string :=
  if startswith_slash b then b
  else if String.eqb a EmptyString || endswith_slash a then a ++ b
  else a ++ "/" ++ b.

(** [s[:n]]: for [n >= 0] the first [n] characters (the whole string when
    it is shorter), for [n < 0] all but the last [-n]. *)
Fixpoint string_take (n : nat) (s : string) : string :=
  match n, s with
  | O, _ => EmptyString
  | S _, EmptyString => EmptyString
  | S n', String c r => String c (string_take n' r)
  end.

Definition slice_to (n : Z) (s : string) : string :=
  if 0 <=? n then string_take (Z.to_nat n) s
  else string_take (Z.to_nat (Z.of_nat (String.length s) + n)) s.

(** [sep.join(l)] *)
Definition join (sep : string) (l : list string) : string := String.concat sep l.

(** [sorted(l)] on a list of [str], whose order is bytewise lexicographic
    ([String.le]). *)
Definition sorted (l : list string) : list string := merge_sort String.le l.

(** ** Objects, exceptions and results *)

(** An instance of class [DBConnectionInformation]: the four attributes set
    by its [__init__], and the identity of the object ([id(self)]), which
    Python's default [==] on instances compares. The attributes are never
    assigned again. *)
Record DBConnectionInformation_t := {
  self_id : nat;
  hostname : string;
  username : string;
  password : string;
  master : bool
}.

(** The exceptions that occur: those of the environment ([IOError] of
    [open], [socket.gaierror], [MySQLdb.OperationalError]), the
    program's own two classes, Python's [AttributeError] and [IndexError],
    and [OtherError] for an exception of any other class (say
    [MySQLdb.ProgrammingError] or [socket.herror]), which no [except]
    clause of the program matches. *)
Inductive exn :=
| IOError (errno : Z)
| gaierror (errno : Z) (strerror : string)
| OperationalError (code : Z) (msg : string)
| NoConnectionInfo
| NoConnectionEstablished (connection_info : DBConnectionInformation_t) (error : string)
| AttributeError (name : string)
| IndexError
| OtherError (cls : string) (code : Z) (msg : string).

Inductive result (A : Type) :=
| Return (a : A)
| Raise (e : exn).
Arguments Return {A} a.
Arguments Raise {A} e.

(** ** The MySQL client

    [MySQLdb.connect(host, user, passwd)] gives a connection (a handle) or
    raises; [cursor.execute(query, args)] returns or raises;
    [cursor.fetchall()] gives the rows of the last result set, each row a
    tuple of columns. What they do is up to the client library and the
    servers behind it, whose state is [St]. *)
Record Cursor := { connection : nat }.

Class MySQLdb (St : Type) := {
  connect : string -> string -> string -> St -> result nat * St;
  execute : Cursor -> string -> option pyval -> St -> result unit * St;
  fetchall : Cursor -> St -> list (list string)
}.

(** A call made to the client, as recorded in the world's log. *)
Inductive call :=
| Connect (host user passwd : string)
| Execute (c : Cursor) (query : string) (args : option pyval).

(** ** The world the program runs in *)

Record World (St : Type) := {
  (** readable files: path to content; [open] of any other path fails *)
  fs : gmap string string;
  (** [socket.gethostbyname_ex]: (hostname, aliaslist, ipaddrlist) or raises *)
  gethostbyname_ex : string -> result (string * list string * list string);
  (** identity given to the next object created *)
  next_id : nat;
  (** calls made to the MySQL client so far, oldest first *)
  log : list call;
  (** the MySQL client and the servers behind it *)
  server : St
}.
Arguments fs {St} _.
Arguments gethostbyname_ex {St} _ _.
Arguments next_id {St} _.
Arguments log {St} _.
Arguments server {St} _.

Definition with_next_id {St} (n : nat) (w : World St) : World St :=
  {| fs := fs w; gethostbyname_ex := gethostbyname_ex w; next_id := n;
     log := log w; server := server w |}.

Definition with_call {St} (c : call) (s : St) (w : World St) : World St :=
  {| fs := fs w; gethostbyname_ex := gethostbyname_ex w; next_id := next_id w;
     log := log w ++ [c]; server := s |}.

(** ** The monad of effects: state that survives an exception *)

Definition M (St A : Type) : Type := World St -> result A * World St.

Definition ret {St A} (a : A) : M St A := fun w => (Return a, w).

Definition raise {St A} (e : exn) : M St A := fun w => (Raise e, w).

Definition bind {St A B} (m : M St A) (k : A -> M St B) : M St B :=
  fun w =>
    match m w with
    | (Return a, w') => k a w'
    | (Raise e, w') => (Raise e, w')
    end.

Notation "x <- m ;; k" := (bind m (fun x => k))
  (at level 100, m at next level, right associativity) : stdpp_scope.
Notation "m ;;; k" := (bind m (fun _ => k))
  (at level 100, right associativity) : stdpp_scope.

(** [try: body / except ...: handler]. [handler e] is [None] when no
    [except] clause matches [e], which then propagates. *)
Definition try_except {St A} (body : M St A) (handler : exn -> option (M St A)) : M St A :=
  fun w =>
    match body w with
    | (Return a, w') => (Return a, w')
    | (Raise e, w') =>
        match handler e with
        | Some h => h w'
        | None => (Raise e, w')
        end
    end.

(** [try: body / except ...: handler / else: orelse]: the [else] suite runs
    after a [body] that raised nothing, outside the reach of the handler. *)
Definition try_except_else {St A B} (body : M St A) (handler : exn -> option (M St B))
    (orelse : A -> M St B) : M St B :=
  fun w =>
    match body w with
    | (Return a, w') => orelse a w'
    | (Raise e, w') =>
        match handler e with
        | Some h => h w'
        | None => (Raise e, w')
        end
    end.

(** ** Primitive effects *)

(** [with open(path) as f: f.read()]; a missing file is [IOError] ENOENT. *)
Definition open_read {St} (path : string) : M St string :=
  fun w =>
    match fs w !! path with
    | Some content => (Return content, w)
    | None => (Raise (IOError 2), w)
    end.

(** Creating an object: it gets an identity no live object has. *)
Definition new_object {St} : M St nat :=
  fun w => (Return (next_id w), with_next_id (S (next_id w)) w).

Definition socket_gethostbyname_ex {St} (name : string)
    : M St (string * list string * list string) :=
  fun w => (gethostbyname_ex w name, w).

Definition MySQLdb_connect {St} `{!MySQLdb St} (host user passwd : string) : M St nat :=
  fun w =>
    let '(r, s) := connect host user passwd (server w) in
    (r, with_call (Connect host user passwd) s w).

(** [connection.cursor()] *)
Definition cursor (conn : nat) : Cursor := {| connection := conn |}.

Definition cursor_execute {St} `{!MySQLdb St} (c : Cursor) (query : string)
    (args : option pyval) : M St unit :=
  fun w =>
    let '(r, s) := execute c query args (server w) in
    (r, with_call (Execute c query args) s w).

Definition cursor_fetchall {St} `{!MySQLdb St} (c : Cursor) : M St (list (list string)) :=
  fun w => (Return (fetchall c (server w)), w).

(** [[f(x) for x in l]], evaluated from left to right. *)
Fixpoint list_comprehension {St A B} (f : A -> M St B) (l : list A) : M St (list B) :=
  match l with
  | [] => ret []
  | x :: l' => y <- f x;; ys <- list_comprehension f l';; ret (y :: ys)
  end.

(** [t[0]] on a tuple. *)
Definition getitem0 {St} (t : list string) : M St string :=
  match t with
  | [] => raise IndexError
  | x :: _ => ret x
  end.

(** A bound method [obj.f], made anew by each attribute access: the
    instance it is bound to and the function. Two bound methods are [==]
    when their functions are the same and their instances are [==], which
    for a class without [__eq__] is identity. *)
Record instancemethod := {
  im_self : DBConnectionInformation_t;
  im_func : string
}.

Definition instancemethod_eq (a b : instancemethod) : bool :=
  String.eqb (im_func a) (im_func b)
  && Nat.eqb (self_id (im_self a)) (self_id (im_self b)).

(** ** class DBConnectionInformation (scalr.py, lines 115-164) *)

Module DBConnectionInformation.
Section methods.
Context {St : Type} `{!MySQLdb St}.

Definition __init__ (hostname username password : string) (master : bool)
    : M St DBConnectionInformation_t :=
  self <- new_object;;
  ret {| self_id := self; hostname := hostname; username := username;
         password := password; master := master |}.

Definition ips (self : DBConnectionInformation_t) : M St string :=
  try_except
    (r <- socket_gethostbyname_ex (hostname self);;
     ret (join "," (sorted (snd r))))
    (fun e =>
       match e with
       | gaierror _ strerror => Some (ret ("Resolution error: " ++ strerror))
       | _ => None
       end).

Definition get_cursor (self : DBConnectionInformation_t) : M St Cursor :=
  connection <-
    try_except
      (MySQLdb_connect (hostname self) (username self) (password self))
      (fun e =>
         match e with
         | OperationalError error_code _ =>
             Some
               (if error_code =? MYSQL_ERROR_CODE_NO_HOST then
                  raise (NoConnectionEstablished self
                           ("The host [" ++ hostname self ++ "] does not exist."))
                else if error_code =? MYSQL_ERROR_CODE_ACCESS_DENIED then
                  raise (NoConnectionEstablished self
                           ("The username [" ++ username self ++ "] or password ["
                            ++ password self ++ "] is incorrect."))
                else
                  raise (NoConnectionEstablished self
                           ("An error occured: Code " ++ str (PyInt error_code))))
         | _ => None
         end);;
  let cursor := cursor connection in
  (if master self then
     cursor_execute cursor "CREATE DATABASE IF NOT EXISTS ScalrTest" None;;;
     cursor_execute cursor "USE ScalrTest" None;;;
     cursor_execute cursor
       "CREATE TABLE IF NOT EXISTS ScalrValues (val CHAR(%s) CHARACTER SET utf8 COLLATE utf8_bin)"
       (Some (PyInt VALUE_LENGTH))
   else
     cursor_execute cursor "USE ScalrTest" None);;;
  ret cursor.

Definition get_values (self : DBConnectionInformation_t) : M St (list string) :=
  try_except_else
    (cursor <- get_cursor self;;
     cursor_execute cursor "SELECT val FROM ScalrValues" None;;;
     ret cursor)
    (fun e =>
       match e with
       | OperationalError code _ =>
           Some (if code =? MYSQL_ERROR_CODE_UNKNOWN_DB then ret [] else raise e)
       | _ => None
       end)
    (fun cursor =>
       rows <- cursor_fetchall cursor;;
       list_comprehension getitem0 rows).

Definition insert (self : DBConnectionInformation_t) (value : string) : M St unit :=
  cursor <- get_cursor self;;
  cursor_execute cursor "INSERT INTO ScalrValues (val) VALUES (%s)"
    (Some (PyStr (slice_to VALUE_LENGTH value)));;;
  cursor_execute cursor "COMMIT" None.

End methods.
End DBConnectionInformation.

(** ** class ConnectionInfo (scalr.py, lines 167-192) *)

(** An instance of [ConnectionInfo] is its attribute dictionary: [__init__]
    sets the attributes one at a time with [setattr]. *)
Abbreviation ConnectionInfo_t := (gmap string string).

Module ConnectionInfo.
Section methods.
Context {St : Type} `{!MySQLdb St}.

(** [self.name] *)
Definition getattr (self : ConnectionInfo_t) (name : string) : M St string :=
  match self !! name with
  | Some v => ret v
  | None => raise (AttributeError name)
  end.

(** The pairs (file name, attribute) the constructor loops over. *)
Definition entries : list (string * string) :=
  [("mysql-username", "username"); ("mysql-password", "password");
   ("mysql-master", "_master"); ("mysql-slave", "_slave")].

(** The [for fname, attr in ...] loop of [__init__]. *)
Fixpoint __init__loop (path : string) (todo : list (string * string))
    (self : ConnectionInfo_t) : M St ConnectionInfo_t :=
  match todo with
  | [] => ret self
  | (fname, attr) :: todo' =>
      self' <-
        try_except
          (content <- open_read (os_path_join path fname);;
           ret (<[attr := strip content]> self))
          (fun e =>
             match e with
             | IOError _ => Some (raise NoConnectionInfo)
             | _ => None
             end);;
      __init__loop path todo' self'
  end.

(** [ConnectionInfo(path)]; the default of [path] is [CONFIG_PATH]. *)
Definition __init__ (path : string) : M St ConnectionInfo_t :=
  __init__loop path entries ∅.

Definition _connection_information (self : ConnectionInfo_t) (master : bool)
    : M St DBConnectionInformation_t :=
  host <- (if master then getattr self "_master" else getattr self "_slave");;
  user <- getattr self "username";;
  passwd <- getattr self "password";;
  DBConnectionInformation.__init__ host user passwd master.

(** property [master] *)
Definition master (self : ConnectionInfo_t) : M St DBConnectionInformation_t :=
  _connection_information self true.

(** property [slave] *)
Definition slave (self : ConnectionInfo_t) : M St DBConnectionInformation_t :=
  _connection_information self false.

(** [self.master.ips != self.slave.ips]: the two bound methods are
    compared, neither is called. *)
Definition replicating (self : ConnectionInfo_t) : M St bool :=
  m <- master self;;
  let master_ips := {| im_self := m; im_func := "ips" |} in
  s <- slave self;;
  let slave_ips := {| im_self := s; im_func := "ips" |} in
  ret (negb (instancemethod_eq master_ips slave_ips)).

End methods.
End ConnectionInfo.

(** ** A reference MySQL deployment

    One instance of the [MySQLdb] interface, used to run the program on
    concrete inputs: the fragment of a MySQL server's behaviour that the six
    statements of the program exercise, with the server's error codes
    (2005 unknown host, 2003 cannot connect, 1045 access denied, 1049
    unknown database, 1046 no database selected, 1146 no such table, which
    MySQLdb raises as [ProgrammingError], as it does 1064). Each host name
    has a server of its own; replication between servers is not part of
    it. A table is the list of its rows' [val] column. *)
Module RefServer.

Record instance := {
  listening : bool;
  accounts : list (string * string);
  databases : gmap string (gmap string (list string))
}.

Record session := {
  peer : string;
  current_db : option string;
  result_set : list (list string)
}.

Record t := {
  hosts : gmap string instance;
  sessions : list session
}.

Definition ref_connect (host user passwd : string) (s : t) : result nat * t :=
  match hosts s !! host with
  | None => (Raise (OperationalError 2005 ("Unknown MySQL server host '" ++ host ++ "'")), s)
  | Some i =>
      if negb (listening i) then
        (Raise (OperationalError 2003 ("Can't connect to MySQL server on '" ++ host ++ "'")), s)
      else if bool_decide ((user, passwd) ∈ accounts i) then
        (Return (length (sessions s)),
         {| hosts := hosts s;
            sessions := sessions s ++ [{| peer := host; current_db := None; result_set := [] |}] |})
      else
        (Raise (OperationalError 1045 ("Access denied for user '" ++ user ++ "'")), s)
  end.

Definition set_databases (host : string) (i : instance)
    (dbs : gmap string (gmap string (list string))) (s : t) : t :=
  {| hosts := <[host := {| listening := listening i; accounts := accounts i;
                           databases := dbs |}]> (hosts s);
     sessions := sessions s |}.

Definition set_session (c : Cursor) (ss : session) (s : t) : t :=
  {| hosts := hosts s; sessions := <[connection c := ss]> (sessions s) |}.

(** [CREATE ... IF NOT EXISTS]: nothing happens to what exists. *)
Definition create_if_not_exists {V} (name : string) (v : V) (m : gmap string V)
    : gmap string V :=
  match m !! name with
  | Some _ => m
  | None => <[name := v]> m
  end.

Definition no_database : exn := OperationalError 1046 "No database selected".
Definition unknown_database (db : string) : exn :=
  OperationalError 1049 ("Unknown database '" ++ db ++ "'").
Definition no_such_table (tbl : string) : exn :=
  OtherError "ProgrammingError" 1146 ("Table '" ++ tbl ++ "' doesn't exist").

(** The table [tbl] of the session's current database, or the error the
    server answers a statement on that table with. *)
Definition table_of (i : instance) (ss : session) (tbl : string)
    : exn + (string * gmap string (list string) * list string) :=
  match current_db ss with
  | None => inl no_database
  | Some db =>
      match databases i !! db with
      | None => inl (unknown_database db)
      | Some tables =>
          match tables !! tbl with
          | None => inl (no_such_table tbl)
          | Some rows => inr (db, tables, rows)
          end
      end
  end.

Definition ref_execute (c : Cursor) (query : string) (args : option pyval) (s : t)
    : result unit * t :=
  match sessions s !! connection c with
  | None => (Raise (OtherError "InterfaceError" 0 "cursor closed"), s)
  | Some ss =>
      match hosts s !! peer ss with
      | None => (Raise (OperationalError 2006 "MySQL server has gone away"), s)
      | Some i =>
          if String.eqb query "CREATE DATABASE IF NOT EXISTS ScalrTest" then
            (Return (),
             set_databases (peer ss) i (create_if_not_exists "ScalrTest" ∅ (databases i)) s)
          else if String.eqb query "USE ScalrTest" then
            match databases i !! "ScalrTest" with
            | None => (Raise (unknown_database "ScalrTest"), s)
            | Some _ =>
                (Return (),
                 set_session c {| peer := peer ss; current_db := Some "ScalrTest";
                                  result_set := result_set ss |} s)
            end
          else if String.eqb query
               "CREATE TABLE IF NOT EXISTS ScalrValues (val CHAR(%s) CHARACTER SET utf8 COLLATE utf8_bin)"
          then
            match current_db ss with
            | None => (Raise no_database, s)
            | Some db =>
                match databases i !! db with
                | None => (Raise (unknown_database db), s)
                | Some tables =>
                    (Return (),
                     set_databases (peer ss) i
                       (<[db := create_if_not_exists "ScalrValues" [] tables]> (databases i)) s)
                end
            end
          else if String.eqb query "SELECT val FROM ScalrValues" then
            match table_of i ss "ScalrValues" with
            | inl e => (Raise e, s)
            | inr (_, _, rows) =>
                (Return (),
                 set_session c {| peer := peer ss; current_db := current_db ss;
                                  result_set := (fun v => [v]) <$> rows |} s)
            end
          else if String.eqb query "INSERT INTO ScalrValues (val) VALUES (%s)" then
            match table_of i ss "ScalrValues", args with
            | inl e, _ => (Raise e, s)
            | inr (db, tables, rows), Some (PyStr v) =>
                (Return (),
                 set_databases (peer ss) i
                   (<[db := <["ScalrValues" := (rows ++ [v])%list]> tables]> (databases i)) s)
            | inr _, _ => (Raise (OtherError "ProgrammingError" 1064 "syntax error"), s)
            end
          else if String.eqb query "COMMIT" then (Return (), s)
          else (Raise (OtherError "ProgrammingError" 1064 "syntax error"), s)
      end
  end.

Definition ref_fetchall (c : Cursor) (s : t) : list (list string) :=
  match sessions s !! connection c with
  | None => []
  | Some ss => result_set ss
  end.

#[global] Instance ref_client : MySQLdb t := {|
  connect := ref_connect;
  execute := ref_execute;
  fetchall := ref_fetchall
|}.

(** A server on which the schema of the program has been set up: the
    database [ScalrTest] with the table [ScalrValues], both kept as they
    are if they exist. *)
Definition provision (i : instance) : instance :=
  {| listening := listening i; accounts := accounts i;
     databases :=
       <["ScalrTest" := create_if_not_exists "ScalrValues" []
                          (default ∅ (databases i !! "ScalrTest"))]> (databases i) |}.

(** The rows of [ScalrTest.ScalrValues] on [host], if the table exists. *)
Definition stored_values (host : string) (s : t) : option (list string) :=
  i ← hosts s !! host;
  tables ← databases i !! "ScalrTest";
  tables !! "ScalrValues".

End RefServer.

(** ** Concrete deployments, to run the program on *)
Module Demo.
Import RefServer.

Definition newline : string := String "010" EmptyString.

(** The four files of [/var/config], each value on a line of its own. *)
Definition config (master slave : string) : gmap string string :=
  <["/var/config/mysql-username" := "scalr" ++ newline]>
  (<["/var/config/mysql-password" := "s3cret" ++ newline]>
  (<["/var/config/mysql-master" := master ++ newline]>
  (<["/var/config/mysql-slave" := slave ++ newline]> ∅))).

(** Host [a] is 10.0.0.1, host [b] is 10.0.0.3 and 10.0.0.2, [b2] is
    another name of [b] whose addresses come in the other order, no other
    name resolves. *)
Definition dns (name : string) : result (string * list string * list string) :=
  if String.eqb name "a" then Return ("a", [], ["10.0.0.1"])
  else if String.eqb name "b" then Return ("b", [], ["10.0.0.3"; "10.0.0.2"])
  else if String.eqb name "b2" then Return ("b", ["b2"], ["10.0.0.2"; "10.0.0.3"])
  else Raise (gaierror (-2) "Name or service not known").

(** A server that has just been installed: one account, no database. *)
Definition fresh_instance : instance :=
  {| listening := true; accounts := [("scalr", "s3cret")]; databases := ∅ |}.

(** A server on which the database exists and the table does not. *)
Definition empty_database_instance : instance :=
  {| listening := true; accounts := [("scalr", "s3cret")];
     databases := <["ScalrTest" := ∅]> ∅ |}.

Definition stopped_instance : instance :=
  {| listening := false; accounts := [("scalr", "s3cret")]; databases := ∅ |}.

(** A server that holds two values. *)
Definition stocked_instance : instance :=
  {| listening := true; accounts := [("scalr", "s3cret")];
     databases := <["ScalrTest" := <["ScalrValues" := ["hello"; "world"]]> ∅]> ∅ |}.

Definition deployment : RefServer.t :=
  {| hosts := <["a" := fresh_instance]> (<["b" := fresh_instance]>
              (<["c" := empty_database_instance]> (<["d" := stopped_instance]>
              (<["s" := stocked_instance]> ∅))));
     sessions := [] |}.

Definition world (master slave : string) : World RefServer.t :=
  {| fs := config master slave; gethostbyname_ex := dns; next_id := 0;
     log := []; server := deployment |}.

(** The resolver [ConnectionInfo] builds from [config master slave]. *)
Definition resolver (master slave : string) : ConnectionInfo_t :=
  <["_slave" := slave]> (<["_master" := master]>
  (<["password" := "s3cret"]> (<["username" := "scalr"]> ∅))).

(** A descriptor as [ConnectionInfo] builds them. *)
Definition descriptor (host : string) (master : bool) : DBConnectionInformation_t :=
  {| self_id := 0; hostname := host; username := "scalr"; password := "s3cret";
     master := master |}.

(** The same, with the file of the replica host missing. *)
Definition world_without_slave : World RefServer.t :=
  {| fs := delete "/var/config/mysql-slave" (config "a" "b"); gethostbyname_ex := dns;
     next_id := 0; log := []; server := deployment |}.

Fixpoint replicate_char (n : nat) (c : ascii) : string :=
  match n with
  | O => EmptyString
  | S n' => String c (replicate_char n' c)
  end.

(** A value of 500 characters: 200 times [x], then 300 times [y]. *)
Definition long_value : string := replicate_char 200 "x" ++ replicate_char 300 "y".

(** A client without a server behind it: every call returns, except that
    the statement [failing] raises [e]. *)
Definition failing_client (failing : string) (e : exn) : MySQLdb unit :=
  {| connect := fun _ _ _ s => (Return O, s);
     execute := fun _ query _ s =>
       if String.eqb query failing then (Raise e, s) else (Return (), s);
     fetchall := fun _ _ => [] |}.

(** The connection is lost during the query: [OperationalError] 2013. *)
Definition lossy_client : MySQLdb unit :=
  failing_client "SELECT val FROM ScalrValues"
    (OperationalError 2013 "Lost connection to MySQL server during query").

(** The database is dropped between [USE] and the query. *)
Definition dropped_client : MySQLdb unit :=
  failing_client "SELECT val FROM ScalrValues"
    (OperationalError 1049 "Unknown database 'ScalrTest'").

Definition lossy_world : World unit :=
  {| fs := config "a" "b"; gethostbyname_ex := dns; next_id := 0; log := [];
     server := () |}.

(** [socket.herror], which [gethostbyname_ex] raises for the empty name. *)
Definition herror : exn := OtherError "herror" 1 "Unknown host".

(** A resolver that refuses the empty name with [herror], and on which
    [localhost] has the address 127.0.0.1 twice (two lines of the hosts
    file) and [loopback] has it once; the other names are those of [dns]. *)
Definition hosts_dns (name : string) : result (string * list string * list string) :=
  if String.eqb name EmptyString then Raise herror
  else if String.eqb name "localhost"
  then Return ("localhost", [], ["127.0.0.1"; "127.0.0.1"])
  else if String.eqb name "loopback" then Return ("loopback", [], ["127.0.0.1"])
  else dns name.

(** The deployment of [world] on a host with that resolver. A blank
    [master] is a file [mysql-master] that holds an empty line. *)
Definition hosts_world (master slave : string) : World RefServer.t :=
  {| fs := config master slave; gethostbyname_ex := hosts_dns; next_id := 0;
     log := []; server := deployment |}.

End Demo.

(** ** Vocabulary of the specification *)

(** The three reasons of a failed connection (specification, section 4.2). *)
Inductive Reason :=
| HostUnreachable
| AuthenticationRejected
| Unknown (code : Z).

(** The classification as the specification words it: a mapping from the raw
    status code to a reason, host-unreachable tested first,
    authentication-rejected second, anything else unknown. It is compared
    with what [get_cursor] does. *)
Definition spec_classify (code : Z) : Reason :=
  if code =? 2005 then HostUnreachable
  else if code =? 1045 then AuthenticationRejected
  else Unknown code.

(** The diagnostic string [get_cursor] puts in [NoConnectionEstablished] for
    each reason (scalr.py, lines 134, 136 and 137). *)
Definition diagnostic (self : DBConnectionInformation_t) (r : Reason) : string :=
  match r with
  | HostUnreachable => "The host [" ++ hostname self ++ "] does not exist."
  | AuthenticationRejected =>
      "The username [" ++ username self ++ "] or password [" ++ password self
      ++ "] is incorrect."
  | Unknown code => "An error occured: Code " ++ pretty code
  end.

(** The statements [get_cursor] executes once connected, in order. *)
Definition setup_statements (master : bool) : list (string * option pyval) :=
  if master then
    [("CREATE DATABASE IF NOT EXISTS ScalrTest", None);
     ("USE ScalrTest", None);
     ("CREATE TABLE IF NOT EXISTS ScalrValues (val CHAR(%s) CHARACTER SET utf8 COLLATE utf8_bin)",
      Some (PyInt VALUE_LENGTH))]
  else
    [("USE ScalrTest", None)].

(** Executing a list of statements on a cursor until one raises. *)
Fixpoint execute_all {St} `{!MySQLdb St} (c : Cursor)
    (l : list (string * option pyval)) : M St unit :=
  match l with
  | [] => ret ()
  | st :: l' => cursor_execute c (fst st) (snd st);;; execute_all c l'
  end.

(** A statement that creates a database or a table, and one that does so
    only if it does not exist yet. *)
Definition is_creation (st : string * option pyval) : bool :=
  String.prefix "CREATE " (fst st).

Definition if_not_exists (st : string * option pyval) : bool :=
  String.prefix "CREATE DATABASE IF NOT EXISTS " (fst st)
  || String.prefix "CREATE TABLE IF NOT EXISTS " (fst st).

(** The property that a connection attempt ends with a query handle or with a
    classified error (a [NoConnectionEstablished], whatever it carries), for
    one descriptor in one world. *)
Definition handle_or_classified {St} `{!MySQLdb St}
    (self : DBConnectionInformation_t) (w : World St) : Prop :=
  (exists c, fst (DBConnectionInformation.get_cursor self w) = Return c)
  \/ (exists connection_info error,
         fst (DBConnectionInformation.get_cursor self w)
         = Raise (NoConnectionEstablished connection_info error)).

(** The replication status as the specification defines it: whether the
    address sets the two host names resolve to differ. *)
Definition spec_replicating (master_ips slave_ips : list string) : bool :=
  negb (bool_decide (list_to_set master_ips =@{gset string} list_to_set slave_ips)).

(** The world after the calls [cs] have been made, which left the client
    in [s]. *)
Definition with_calls {St} (cs : list call) (s : St) (w : World St) : World St :=
  {| fs := fs w; gethostbyname_ex := gethostbyname_ex w; next_id := next_id w;
     log := log w ++ cs; server := s |}.

(** The client after every statement of [l] has returned, each executed in
    the state the one before it left, from [s] on; [None] when one of them
    raises. *)
Fixpoint executed {St} `{!MySQLdb St} (c : Cursor) (l : list (string * option pyval))
    (s : St) : option St :=
  match l with
  | [] => Some s
  | st :: l' =>
      match execute c (fst st) (snd st) s with
      | (Return _, s') => executed c l' s'
      | (Raise _, _) => None
      end
  end.

(** The calls a connection attempt of [self] makes when it executes the
    statements [issued] on the cursor [c]. *)
Definition attempt_calls (self : DBConnectionInformation_t) (c : Cursor)
    (issued : list (string * option pyval)) : list call :=
  Connect (hostname self) (username self) (password self)
  :: ((fun st => Execute c (fst st) (snd st)) <$> issued).


(** ** The statements of the two operations *)

(** What [get_values] executes once connected, in order: the setup of
    [get_cursor], then the query. *)
Definition read_statements (master : bool) : list (string * option pyval) :=
  (setup_statements master ++ [("SELECT val FROM ScalrValues", None)])%list.

(** What [insert] executes once connected, in order: the setup of
    [get_cursor], the [INSERT] with the sliced value as its parameter, the
    [COMMIT]. *)
Definition write_statements (master : bool) (value : string)
    : list (string * option pyval) :=
  (setup_statements master
   ++ [("INSERT INTO ScalrValues (val) VALUES (%s)",
        Some (PyStr (slice_to VALUE_LENGTH value)));
       ("COMMIT", None)])%list.

(** The exceptions a library can raise: any but the two classes that
    scalr.py defines itself. *)
Definition library_exception (e : exn) : Prop :=
  match e with
  | NoConnectionInfo | NoConnectionEstablished _ _ => False
  | _ => True
  end.

(** A client that raises library exceptions only. *)
Definition raises_library_exceptions {St} (client : MySQLdb St) : Prop :=
  (forall host user passwd s e s',
      connect host user passwd s = (Raise e, s') -> library_exception e)
  /\ (forall c query args s e s',
         execute c query args s = (Raise e, s') -> library_exception e).

(** The totality of [ips] as the specification words it: it returns a
    string, whatever the host name and the resolver. *)
Definition ips_returns {St} (self : DBConnectionInformation_t) (w : World St) : Prop :=
  exists s, fst (DBConnectionInformation.ips self w) = Return s.

(** What [ips] ends with, by what the resolver ends with for its host name:
    the addresses sorted and joined, the diagnostic of a [gaierror], or the
    exception of another class. *)
Definition ips_of (r : result (string * list string * list string)) : result string :=
  match r with
  | Return (_, _, addrs) => Return (join "," (sorted addrs))
  | Raise (gaierror _ strerror) => Return ("Resolution error: " ++ strerror)
  | Raise e => Raise e
  end.

(** The resolver answers for [host] with addresses or with a [gaierror]:
    the two outcomes [ips] returns in. *)
Definition answers {St} (w : World St) (host : string) : Prop :=
  match gethostbyname_ex w host with
  | Return _ | Raise (gaierror _ _) => True
  | Raise _ => False
  end.

(** A resolver that raises library exceptions only. *)
Definition library_resolver {St} (w : World St) : Prop :=
  forall host e, gethostbyname_ex w host = Raise e -> library_exception e.

(** A computation that leaves the host as it is: its files, its resolver
    and the identities given out. *)
Definition keeps_host {St A} (m : M St A) : Prop :=
  forall w,
    fs (snd (m w)) = fs w
    /\ gethostbyname_ex (snd (m w)) = gethostbyname_ex w
    /\ next_id (snd (m w)) = next_id w.

(** An operation on [self] in [w] ended in [w'] with the error
    [NoConnectionEstablished connection_info error] because [connect]
    failed: the error carries [self] and the diagnostic of the status code,
    and the call to [connect] is all that happened. *)
Definition connect_failure {St} `{!MySQLdb St} (self : DBConnectionInformation_t)
    (w : World St) (connection_info : DBConnectionInformation_t) (error : string)
    (w' : World St) : Prop :=
  connection_info = self
  /\ exists code msg s1,
      connect (hostname self) (username self) (password self) (server w)
      = (Raise (OperationalError code msg), s1)
      /\ error = diagnostic self (spec_classify code)
      /\ w' = with_call (Connect (hostname self) (username self) (password self)) s1 w.

(** The characters [c.isspace()] holds of, at either end of a string. *)
Definition starts_with_space (s : string) : bool :=
  match s with
  | String c _ => isspace c
  | EmptyString => false
  end.

Fixpoint ends_with_space (s : string) : bool :=
  match s with
  | EmptyString => false
  | String c EmptyString => isspace c
  | String _ r => ends_with_space r
  end.

(** ** The page layer (scalr.py, lines 195-237)

    The five templates are values of [template], and a page is
    [Rendered template ctx]: the template and the context it was rendered
    from. The text Jinja2 makes of them is not modelled; what
    [template.render(ctx)] evaluates on the way is: the templates it
    extends, read from the context, and the expressions of the blocks it
    renders, which call into [ConnectionInfo]. The context [ctx] is a Python
    dictionary that [inner] creates and the page function updates in place,
    so it is state of its own, beside the world, and survives an exception
    of the page. *)

Inductive template :=
| BASE_TEMPLATE
| FORM_TEMPLATE
| CONNECTED_TEMPLATE
| READ_ERROR_TEMPLATE
| WRITE_ERROR_TEMPLATE.

(** The values the context holds. *)
Inductive ctxval :=
| CtxTemplate (t : template)
| CtxStr (s : string)
| CtxConnectionInfo (ci : ConnectionInfo_t)
| CtxValues (l : list string).

Inductive response :=
| Rendered (t : template) (ctx : gmap string ctxval)
| Redirect (location : string).

(** What Flask and the host give a request: the submitted form
    ([request.form]), the routes ([url_for]) and [socket.gethostname()]. *)
Record Flask := {
  request_form : gmap string string;
  url_for : string -> string;
  gethostname : string
}.

(** Computations on the world and the context dictionary. *)
Definition PM (St A : Type) : Type :=
  gmap string ctxval -> World St -> result A * gmap string ctxval * World St.

Definition pret {St A} (a : A) : PM St A := fun ctx w => (Return a, ctx, w).

Definition pbind {St A B} (m : PM St A) (k : A -> PM St B) : PM St B :=
  fun ctx w =>
    match m ctx w with
    | (Return a, ctx', w') => k a ctx' w'
    | (Raise e, ctx', w') => (Raise e, ctx', w')
    end.

Notation "x <~ m ;; k" := (pbind m (fun x => k))
  (at level 100, m at next level, right associativity) : stdpp_scope.
Notation "m ~;; k" := (pbind m (fun _ => k))
  (at level 100, right associativity) : stdpp_scope.

(** A computation that does not touch the context. *)
Definition lift {St A} (m : M St A) : PM St A :=
  fun ctx w => let '(r, w') := m w in (r, ctx, w').

(** [ctx[key]] and [ctx[key] = v] *)
Definition ctx_getitem {St} (key : string) : PM St ctxval :=
  fun ctx w =>
    match ctx !! key with
    | Some v => (Return v, ctx, w)
    | None => (Raise (OtherError "KeyError" 0 key), ctx, w)
    end.

Definition ctx_setitem {St} (key : string) (v : ctxval) : PM St unit :=
  fun ctx w => (Return (), <[key := v]> ctx, w).

(** *** Rendering (scalr.py, lines 22-100)

    [{% extends v %}]: the variable of the context a template takes its
    parent from. [BASE_TEMPLATE] extends nothing. *)
Definition extends (t : template) : option string :=
  match t with
  | BASE_TEMPLATE => None
  | FORM_TEMPLATE | WRITE_ERROR_TEMPLATE => Some "base_template"
  | CONNECTED_TEMPLATE | READ_ERROR_TEMPLATE => Some "form_template"
  end.

(** The templates that have a [{% block body %}] and a [{% block data %}]
    of their own. *)
Definition defines_body (t : template) : bool :=
  match t with
  | BASE_TEMPLATE | FORM_TEMPLATE | WRITE_ERROR_TEMPLATE => true
  | CONNECTED_TEMPLATE | READ_ERROR_TEMPLATE => false
  end.

Definition defines_data (t : template) : bool :=
  match t with
  | FORM_TEMPLATE | CONNECTED_TEMPLATE | READ_ERROR_TEMPLATE => true
  | BASE_TEMPLATE | WRITE_ERROR_TEMPLATE => false
  end.

(** The chain of templates from [t] to the one that extends nothing, each
    parent read from the context. A value that is no [Template] cannot be
    loaded (the templates have no environment with a loader). There are
    five templates, so a chain that is longer than five runs in a circle
    and never ends: Python stops it at its recursion limit. *)
Fixpoint inheritance (fuel : nat) (t : template) (ctx : gmap string ctxval)
    : result (list template) :=
  match extends t with
  | None => Return [t]
  | Some v =>
      match fuel with
      | O => Raise (OtherError "RuntimeError" 0 "maximum recursion depth exceeded")
      | S fuel' =>
          match ctx !! v with
          | Some (CtxTemplate parent) =>
              match inheritance fuel' parent ctx with
              | Return chain => Return (t :: chain)
              | Raise e => Raise e
              end
          | _ => Raise (OtherError "TypeError" 0 "no loader for this environment specified")
          end
      end
  end.

(** A block is rendered from the first template of the chain that defines
    it. *)
Definition block (defines : template -> bool) (chain : list template) : option template :=
  List.find defines chain.

(** [{% for value in values %}] of [CONNECTED_TEMPLATE]: a list or a string
    is iterated, an undefined variable is an empty sequence, another object
    is not iterable. *)
Definition for_values {St} (v : option ctxval) : M St unit :=
  match v with
  | Some (CtxTemplate _) => raise (OtherError "TypeError" 0 "'Template' object is not iterable")
  | Some (CtxConnectionInfo _) =>
      raise (OtherError "TypeError" 0 "'ConnectionInfo' object is not iterable")
  | Some (CtxValues _) | Some (CtxStr _) | None => ret ()
  end.

(** An expression [obj.attr.x] of a template where [attr] is a property:
    Jinja2 takes the [AttributeError] of the property for a missing
    attribute, [obj.attr] is then undefined, and an attribute of an
    undefined value is an [UndefinedError]. *)
Definition jinja_property {St} (property : M St DBConnectionInformation_t) (name : string)
    : M St DBConnectionInformation_t :=
  try_except property
    (fun e =>
       match e with
       | AttributeError _ => Some (raise (OtherError "UndefinedError" 0 name))
       | _ => None
       end).

(** The list [MySQL Status] of [FORM_TEMPLATE] (lines 58-64), its
    expressions evaluated from top to bottom on the value of
    [connection_info]: every [connection_info.master] and
    [connection_info.slave] is an access of the property, which builds a
    descriptor; [ips()] and [replicating()] are called. The result is what
    the list displays. A [connection_info] that is undefined or no
    [ConnectionInfo] has no attribute to take [hostname] of. *)
Definition mysql_status {St} (connection_info : option ctxval) : M St (list string) :=
  match connection_info with
  | Some (CtxConnectionInfo ci) =>
      let username := default EmptyString (ci !! "username") in
      let password := default EmptyString (ci !! "password") in
      m <- jinja_property (ConnectionInfo.master ci) "master";;
      let master_hostname := hostname m in
      m <- jinja_property (ConnectionInfo.master ci) "master";;
      master_ips <- DBConnectionInformation.ips m;;
      s <- jinja_property (ConnectionInfo.slave ci) "slave";;
      let slave_hostname := hostname s in
      s <- jinja_property (ConnectionInfo.slave ci) "slave";;
      slave_ips <- DBConnectionInformation.ips s;;
      replicating <- ConnectionInfo.replicating ci;;
      ret [username; password; master_hostname; master_ips; slave_hostname; slave_ips;
           if replicating then "True" else "False"]
  | _ => raise (OtherError "UndefinedError" 0 "connection_info")
  end.

(** What rendering [t] on [ctx] evaluates: the chain of parents; then, when
    the body rendered is that of [FORM_TEMPLATE], its block [data] (the loop
    over [values] if it is that of [CONNECTED_TEMPLATE]) and its status
    list. The other expressions ([hostname], [mountpoint], [error]) are
    variables of the context, displayed as they are or as nothing. *)
Definition evaluate {St} (t : template) (ctx : gmap string ctxval) : M St unit :=
  match inheritance 5 t ctx with
  | Return chain =>
      match block defines_body chain with
      | Some FORM_TEMPLATE =>
          (match block defines_data chain with
           | Some CONNECTED_TEMPLATE => for_values (ctx !! "values")
           | _ => ret ()
           end);;;
          mysql_status (ctx !! "connection_info");;;
          ret ()
      | _ => ret ()
      end
  | Raise e => raise e
  end.

(** [v.render(ctx)], [v.master] and [v.slave] on a value of the context.
    An exception of the evaluation leaves [render] as it was raised. *)
Definition render {St} (v : ctxval) : PM St response :=
  fun ctx w =>
    match v with
    | CtxTemplate t =>
        match evaluate t ctx w with
        | (Return _, w') => (Return (Rendered t ctx), ctx, w')
        | (Raise e, w') => (Raise e, ctx, w')
        end
    | _ => (Raise (AttributeError "render"), ctx, w)
    end.

Definition master_of {St} (v : ctxval) : PM St DBConnectionInformation_t :=
  match v with
  | CtxConnectionInfo ci => lift (ConnectionInfo.master ci)
  | _ => fun ctx w => (Raise (AttributeError "master"), ctx, w)
  end.

Definition slave_of {St} (v : ctxval) : PM St DBConnectionInformation_t :=
  match v with
  | CtxConnectionInfo ci => lift (ConnectionInfo.slave ci)
  | _ => fun ctx w => (Raise (AttributeError "slave"), ctx, w)
  end.

Definition ptry_except {St A} (body : PM St A) (handler : exn -> option (PM St A))
    : PM St A :=
  fun ctx w =>
    match body ctx w with
    | (Return a, ctx', w') => (Return a, ctx', w')
    | (Raise e, ctx', w') =>
        match handler e with
        | Some h => h ctx' w'
        | None => (Raise e, ctx', w')
        end
    end.

Definition ptry_except_else {St A B} (body : PM St A) (handler : exn -> option (PM St B))
    (orelse : A -> PM St B) : PM St B :=
  fun ctx w =>
    match body ctx w with
    | (Return a, ctx', w') => orelse a ctx' w'
    | (Raise e, ctx', w') =>
        match handler e with
        | Some h => h ctx' w'
        | None => (Raise e, ctx', w')
        end
    end.

(** The dictionary [inner] starts from (scalr.py, lines 198-207). *)
Definition initial_ctx (fl : Flask) : gmap string ctxval :=
  <["error" := CtxStr EmptyString]>
  (<["hostname" := CtxStr (gethostname fl)]>
  (<["mountpoint" := CtxStr (url_for fl "page_post")]>
  (<["connected_template" := CtxTemplate CONNECTED_TEMPLATE]>
  (<["write_error_template" := CtxTemplate WRITE_ERROR_TEMPLATE]>
  (<["read_error_template" := CtxTemplate READ_ERROR_TEMPLATE]>
  (<["form_template" := CtxTemplate FORM_TEMPLATE]>
  (<["base_template" := CtxTemplate BASE_TEMPLATE]> ∅))))))).

Section pages.
Context {St : Type} `{!MySQLdb St}.

(** [self.insert(value)] for the value of a form field, which is [None]
    when the form has no such field: the cursor is obtained first, then
    [value[:VALUE_LENGTH]] raises [TypeError] on [None]. *)
Definition insert_field (self : DBConnectionInformation_t) (value : option string)
    : M St unit :=
  match value with
  | Some v => DBConnectionInformation.insert self v
  | None =>
      cursor <- DBConnectionInformation.get_cursor self;;
      raise (OtherError "TypeError" 0 "'NoneType' object has no attribute '__getitem__'")
  end.

(** The decorator: [prepare_page page] is the function [inner]. *)
Definition prepare_page (fl : Flask) (page : PM St response) : M St response :=
  fun w =>
    let '(r, _, w') :=
      ptry_except_else
        (ci <~ lift (ConnectionInfo.__init__ CONFIG_PATH);;
         ctx_setitem "connection_info" (CtxConnectionInfo ci))
        (fun e =>
           match e with
           | NoConnectionInfo => Some (t <~ ctx_getitem "base_template";; render t)
           | _ => None
           end)
        (fun _ =>
           ptry_except page
             (fun err =>
                match err with
                | NoConnectionEstablished connection_info error =>
                    Some
                      (ctx_setitem "error" (CtxStr error) ~;;
                       template <~
                         (if master connection_info
                          then ctx_getitem "write_error_template"
                          else ctx_getitem "read_error_template");;
                       render template)
                | _ => None
                end))
        (initial_ctx fl) w in
    (r, w').

(** [def page_get(ctx)], before it is decorated. *)
Definition page_get : PM St response :=
  ci <~ ctx_getitem "connection_info";;
  s <~ slave_of ci;;
  values <~ lift (DBConnectionInformation.get_values s);;
  ctx_setitem "values" (CtxValues values) ~;;
  t <~ ctx_getitem "connected_template";;
  render t.

(** [def page_post(ctx)], before it is decorated. *)
Definition page_post (fl : Flask) : PM St response :=
  let value := request_form fl !! "value" in
  ci <~ ctx_getitem "connection_info";;
  m <~ master_of ci;;
  lift (insert_field m value) ~;;
  pret (Redirect (url_for fl "page_get")).

End pages.

(** The four configuration files are there and hold [u], [p], [mh] and
    [sh]; the resolver the constructor then builds, the descriptor a
    property of it then builds in [w], and the context [inner] then hands to
    the page. *)
Definition configured {St} (w : World St) (u p mh sh : string) : Prop :=
  fs w !! os_path_join CONFIG_PATH "mysql-username" = Some u
  /\ fs w !! os_path_join CONFIG_PATH "mysql-password" = Some p
  /\ fs w !! os_path_join CONFIG_PATH "mysql-master" = Some mh
  /\ fs w !! os_path_join CONFIG_PATH "mysql-slave" = Some sh.

Definition resolver_of (u p mh sh : string) : ConnectionInfo_t :=
  <["_slave" := strip sh]> (<["_master" := strip mh]>
  (<["password" := strip p]> (<["username" := strip u]> ∅))).

Definition descriptor_of {St} (w : World St) (u p host : string) (role : bool)
    : DBConnectionInformation_t :=
  {| self_id := next_id w; hostname := strip host; username := strip u;
     password := strip p; master := role |}.

Definition page_ctx (fl : Flask) (u p mh sh : string) : gmap string ctxval :=
  <["connection_info" := CtxConnectionInfo (resolver_of u p mh sh)]> (initial_ctx fl).

(** The template of a response that is a rendered page, and a value of the
    context it was rendered from. *)
Definition rendered_template (r : result response) : option template :=
  match r with
  | Return (Rendered t _) => Some t
  | _ => None
  end.

Definition rendered_ctx (key : string) (r : result response) : option ctxval :=
  match r with
  | Return (Rendered _ ctx) => ctx !! key
  | _ => None
  end.

(** Requests, for the concrete deployments. *)
Module DemoRequest.

(** Both routes are mounted on [/]; the form holds [fields]. *)
Definition flask (fields : gmap string string) : Flask :=
  {| request_form := fields; url_for := fun _ => "/"; gethostname := "web-1" |}.

(** A [GET] request, and a [POST] request that submits [value]. *)
Definition get : Flask := flask ∅.
Definition post (value : string) : Flask := flask (<["value" := value]> ∅).

End DemoRequest.

(** * Properties *)

(** ** Slicing *)

Lemma string_take_length (n : nat) (s : string) :
  String.length (string_take n s) = Nat.min n (String.length s).
Proof.
  revert s; induction n as [|n IH]; intros [|c r]; simpl; try reflexivity.
  by rewrite IH.
Qed.

Lemma string_take_prefix (n : nat) (s : string) :
  exists rest, s = string_take n s ++ rest.
Proof.
  revert s; induction n as [|n IH]; intros s.
  - exists s. reflexivity.
  - destruct s as [|c r]; simpl.
    + exists EmptyString. reflexivity.
    + destruct (IH r) as [rest Hrest]. exists rest.
      change (String c r = String c (string_take n r ++ rest)). by f_equal.
Qed.

Lemma string_take_all (n : nat) (s : string) :
  (String.length s <= n)%nat -> string_take n s = s.
Proof.
  revert s; induction n as [|n IH]; intros [|c r]; simpl; intros Hlen;
    try reflexivity; try lia.
  rewrite IH; [reflexivity | lia].
Qed.

Lemma slice_to_VALUE_LENGTH (value : string) :
  slice_to VALUE_LENGTH value = string_take 200 value.
Proof. reflexivity. Qed.

(** ** The order of strings and [sorted] *)

Lemma sorted_Sorted (l : list string) : StronglySorted String.le (sorted l).
Proof. apply StronglySorted_merge_sort; apply _. Qed.

Lemma sorted_Permutation (l : list string) : sorted l ≡ₚ l.
Proof. apply merge_sort_Permutation. Qed.

(** [sorted] depends on the elements only, not on the order they come in. *)
Lemma sorted_perm_eq (l1 l2 : list string) : l1 ≡ₚ l2 -> sorted l1 = sorted l2.
Proof.
  intros Hperm. apply (StronglySorted_unique String.le); try apply sorted_Sorted.
  by rewrite !sorted_Permutation.
Qed.

(** Two duplicate-free address lists that hold the same set of addresses
    sort to the same list. *)
Lemma sorted_same_set (l1 l2 : list string) :
  NoDup l1 -> NoDup l2 -> (forall x, x ∈ l1 <-> x ∈ l2) -> sorted l1 = sorted l2.
Proof.
  intros H1 H2 Hset. apply sorted_perm_eq. by apply NoDup_Permutation.
Qed.

(** ** Running the monad *)

Lemma bind_Return {St A B} (m : M St A) (k : A -> M St B) (w w' : World St) (a : A) :
  m w = (Return a, w') -> bind m k w = k a w'.
Proof. unfold bind. by intros ->. Qed.

Lemma bind_Raise {St A B} (m : M St A) (k : A -> M St B) (w w' : World St) (e : exn) :
  m w = (Raise e, w') -> bind m k w = (Raise e, w').
Proof. unfold bind. by intros ->. Qed.

Lemma list_comprehension_getitem0 {St} (vals : list string) (w : World St) :
  list_comprehension getitem0 ((fun v => [v]) <$> vals) w = (Return vals, w).
Proof.
  induction vals as [|v vals IH]; [reflexivity|].
  csimpl. unfold bind, getitem0, ret in *. by rewrite IH.
Qed.

Arguments os_path_join : simpl never.

Ltac run_monad :=
  unfold bind, try_except, try_except_else, ret, raise, open_read, new_object,
    socket_gethostbyname_ex; simpl.

(** ** [ConnectionInfo.__init__] *)

(** What the constructor does, by which of the four files exist. *)
Lemma init_outcome {St} (path : string) (w : World St) :
  match fs w !! os_path_join path "mysql-username",
        fs w !! os_path_join path "mysql-password",
        fs w !! os_path_join path "mysql-master",
        fs w !! os_path_join path "mysql-slave" with
  | Some u, Some p, Some mh, Some sh =>
      ConnectionInfo.__init__ path w
      = (Return (<["_slave" := strip sh]> (<["_master" := strip mh]>
                (<["password" := strip p]> (<["username" := strip u]> ∅)))), w)
  | _, _, _, _ => ConnectionInfo.__init__ path w = (Raise NoConnectionInfo, w)
  end.
Proof.
  unfold ConnectionInfo.__init__, ConnectionInfo.entries. simpl. run_monad.
  destruct (fs w !! os_path_join path "mysql-username"); [|reflexivity].
  destruct (fs w !! os_path_join path "mysql-password"); [|reflexivity].
  destruct (fs w !! os_path_join path "mysql-master"); [|reflexivity].
  destruct (fs w !! os_path_join path "mysql-slave"); reflexivity.
Qed.

(** A constructor that returns has read all four files. *)
Lemma init_Return_inv {St} (path : string) (w w' : World St) (self : ConnectionInfo_t) :
  ConnectionInfo.__init__ path w = (Return self, w') ->
  exists u p mh sh,
    fs w !! os_path_join path "mysql-username" = Some u
    /\ fs w !! os_path_join path "mysql-password" = Some p
    /\ fs w !! os_path_join path "mysql-master" = Some mh
    /\ fs w !! os_path_join path "mysql-slave" = Some sh
    /\ w' = w
    /\ self = <["_slave" := strip sh]> (<["_master" := strip mh]>
              (<["password" := strip p]> (<["username" := strip u]> ∅))).
Proof.
  intros Hinit. pose proof (init_outcome path w) as Hout.
  destruct (fs w !! os_path_join path "mysql-username") as [u|];
    [|rewrite Hout in Hinit; discriminate].
  destruct (fs w !! os_path_join path "mysql-password") as [p|];
    [|rewrite Hout in Hinit; discriminate].
  destruct (fs w !! os_path_join path "mysql-master") as [mh|];
    [|rewrite Hout in Hinit; discriminate].
  destruct (fs w !! os_path_join path "mysql-slave") as [sh|];
    [|rewrite Hout in Hinit; discriminate].
  rewrite Hout in Hinit. injection Hinit as <- <-.
  by exists u, p, mh, sh.
Qed.

(** C4. For every configuration source in which at least one of the four
    required entries (username, password, primary host, replica host) is
    absent, constructing the resolver raises [NoConnectionInfo] and yields
    no object, whichever entries are present; with all four present the
    constructor returns an object that holds all four attributes, each the
    stripped content of its file. *)
Theorem init_missing_configuration {St} (path : string) (w : World St) :
  ((exists fname attr,
       (fname, attr) ∈ ConnectionInfo.entries
       /\ fs w !! os_path_join path fname = None) ->
   ConnectionInfo.__init__ path w = (Raise NoConnectionInfo, w))
  /\ ((forall fname attr,
          (fname, attr) ∈ ConnectionInfo.entries ->
          is_Some (fs w !! os_path_join path fname)) ->
      exists u p mh sh,
        fs w !! os_path_join path "mysql-username" = Some u
        /\ fs w !! os_path_join path "mysql-password" = Some p
        /\ fs w !! os_path_join path "mysql-master" = Some mh
        /\ fs w !! os_path_join path "mysql-slave" = Some sh
        /\ ConnectionInfo.__init__ path w
           = (Return (<["_slave" := strip sh]> (<["_master" := strip mh]>
                     (<["password" := strip p]> (<["username" := strip u]> ∅)))), w)).
Proof.
  pose proof (init_outcome path w) as Hout. split.
  - intros (fname & attr & Hin & Hnone).
    unfold ConnectionInfo.entries in Hin.
    repeat (apply elem_of_cons in Hin as [Hin|Hin];
            [injection Hin as -> ->; rewrite Hnone in Hout;
             repeat (destruct (fs w !! _)); exact Hout |]).
    by apply elem_of_nil in Hin.
  - intros Hall.
    destruct (Hall "mysql-username" "username") as [u Hu];
      [unfold ConnectionInfo.entries; set_solver|].
    destruct (Hall "mysql-password" "password") as [p Hp];
      [unfold ConnectionInfo.entries; set_solver|].
    destruct (Hall "mysql-master" "_master") as [mh Hmh];
      [unfold ConnectionInfo.entries; set_solver|].
    destruct (Hall "mysql-slave" "_slave") as [sh Hsh];
      [unfold ConnectionInfo.entries; set_solver|].
    rewrite Hu, Hp, Hmh, Hsh in Hout. by exists u, p, mh, sh.
Qed.

(** ** The two descriptors *)

(** [_connection_information] on an object that has the attributes it
    reads: a new descriptor, with the identity the allocator gives it. *)
Lemma connection_information_spec {St} (self : ConnectionInfo_t) (flag : bool)
    (u p mh sh : string) (w : World St) :
  self !! "username" = Some u -> self !! "password" = Some p ->
  self !! "_master" = Some mh -> self !! "_slave" = Some sh ->
  ConnectionInfo._connection_information self flag w
  = (Return {| self_id := next_id w; hostname := if flag then mh else sh;
               username := u; password := p; master := flag |},
     with_next_id (S (next_id w)) w).
Proof.
  intros Hu Hp Hmh Hsh.
  unfold ConnectionInfo._connection_information, ConnectionInfo.getattr,
    DBConnectionInformation.__init__.
  destruct flag; rewrite ?Hu, ?Hp, ?Hmh, ?Hsh; reflexivity.
Qed.

(** C8. For every fully configured resolver, that is every object the
    constructor returns, [master] gives a descriptor whose role flag is
    primary and whose host name is the configured primary host, [slave] one
    whose role flag is replica and whose host name is the configured replica
    host, and both carry the same user name and the same password (the
    configured ones). *)
Theorem master_slave_descriptors {St} (path : string) (w0 w1 : World St)
    (self : ConnectionInfo_t) :
  ConnectionInfo.__init__ path w0 = (Return self, w1) ->
  exists u p mh sh,
    fs w0 !! os_path_join path "mysql-username" = Some u
    /\ fs w0 !! os_path_join path "mysql-password" = Some p
    /\ fs w0 !! os_path_join path "mysql-master" = Some mh
    /\ fs w0 !! os_path_join path "mysql-slave" = Some sh
    /\ forall w : World St,
        ConnectionInfo.master self w
        = (Return {| self_id := next_id w; hostname := strip mh;
                     username := strip u; password := strip p; master := true |},
           with_next_id (S (next_id w)) w)
        /\ ConnectionInfo.slave self w
           = (Return {| self_id := next_id w; hostname := strip sh;
                        username := strip u; password := strip p; master := false |},
              with_next_id (S (next_id w)) w).
Proof.
  intros Hinit.
  destruct (init_Return_inv _ _ _ _ Hinit) as (u & p & mh & sh & Hu & Hp & Hmh & Hsh & _ & ->).
  exists u, p, mh, sh. repeat split; try assumption;
    unfold ConnectionInfo.master, ConnectionInfo.slave;
    by apply connection_information_spec.
Qed.

(** ** The replication status *)

(** On every object that has its four attributes, [replicating] is [True]:
    the descriptors [master] and [slave] build are two objects, and the
    bound methods compared belong to one each. No name is resolved. *)
Lemma replicating_always_true {St} (self : ConnectionInfo_t) (u p mh sh : string)
    (w : World St) :
  self !! "username" = Some u -> self !! "password" = Some p ->
  self !! "_master" = Some mh -> self !! "_slave" = Some sh ->
  ConnectionInfo.replicating self w
  = (Return true, with_next_id (S (S (next_id w))) w).
Proof.
  intros Hu Hp Hmh Hsh. unfold ConnectionInfo.replicating.
  unfold ConnectionInfo.master, ConnectionInfo.slave.
  erewrite bind_Return; [|by apply connection_information_spec].
  erewrite bind_Return; [|by apply connection_information_spec].
  unfold ret, instancemethod_eq. simpl.
  replace (Nat.eqb (next_id w) (S (next_id w))) with false
    by (symmetry; apply Nat.eqb_neq; lia).
  reflexivity.
Qed.

(** The constructor on the configuration files of [Demo.config]. *)
Lemma demo_init (master slave : string) :
  ConnectionInfo.__init__ CONFIG_PATH (Demo.world master slave)
  = (Return (Demo.resolver (strip (master ++ Demo.newline)) (strip (slave ++ Demo.newline))),
     Demo.world master slave).
Proof.
  pose proof (init_outcome CONFIG_PATH (Demo.world master slave)) as Hout.
  replace (fs (Demo.world master slave) !! os_path_join CONFIG_PATH "mysql-username")
    with (Some ("scalr" ++ Demo.newline)) in Hout by (vm_compute; reflexivity).
  replace (fs (Demo.world master slave) !! os_path_join CONFIG_PATH "mysql-password")
    with (Some ("s3cret" ++ Demo.newline)) in Hout by (vm_compute; reflexivity).
  replace (fs (Demo.world master slave) !! os_path_join CONFIG_PATH "mysql-master")
    with (Some (master ++ Demo.newline)) in Hout by (vm_compute; reflexivity).
  replace (fs (Demo.world master slave) !! os_path_join CONFIG_PATH "mysql-slave")
    with (Some (slave ++ Demo.newline)) in Hout by (vm_compute; reflexivity).
  exact Hout.
Qed.

(** C1. The configuration names host [a] as primary and as replica, so both
    descriptors resolve to the one address set {10.0.0.1} and [ips()] is
    the same string for both; the specification's status is false, and
    [replicating] returns true. *)
Theorem replicating_same_address_set :
  ConnectionInfo.__init__ CONFIG_PATH (Demo.world "a" "a")
  = (Return (Demo.resolver "a" "a"), Demo.world "a" "a")
  /\ fst (ConnectionInfo.master (Demo.resolver "a" "a") (Demo.world "a" "a"))
     = Return (Demo.descriptor "a" true)
  /\ fst (ConnectionInfo.slave (Demo.resolver "a" "a") (Demo.world "a" "a"))
     = Return (Demo.descriptor "a" false)
  /\ fst (DBConnectionInformation.ips (Demo.descriptor "a" true) (Demo.world "a" "a"))
     = Return "10.0.0.1"
  /\ fst (DBConnectionInformation.ips (Demo.descriptor "a" false) (Demo.world "a" "a"))
     = Return "10.0.0.1"
  /\ spec_replicating ["10.0.0.1"] ["10.0.0.1"] = false
  /\ fst (ConnectionInfo.replicating (Demo.resolver "a" "a") (Demo.world "a" "a"))
     = Return true.
Proof.
  split; [exact (demo_init "a" "a")|].
  split; [vm_compute; reflexivity|].
  split; [vm_compute; reflexivity|].
  split; [vm_compute; reflexivity|].
  split; [vm_compute; reflexivity|].
  split; vm_compute; reflexivity.
Qed.

(** ** [ips] *)

(** [ips] by what the resolver answers; the world is as it was. *)
Lemma ips_run {St} (self : DBConnectionInformation_t) (w : World St) :
  DBConnectionInformation.ips self w = (ips_of (gethostbyname_ex w (hostname self)), w).
Proof.
  unfold DBConnectionInformation.ips, try_except, bind, socket_gethostbyname_ex, ret.
  destruct (gethostbyname_ex w (hostname self)) as [[[name aliases] addrs]|e];
    [reflexivity|].
  by destruct e.
Qed.

Lemma ips_of_Return (r : result (string * list string * list string)) (s : string) :
  ips_of r = Return s ->
  (exists name aliases addrs, r = Return (name, aliases, addrs))
  \/ (exists errno strerror, r = Raise (gaierror errno strerror)).
Proof. destruct r as [[[name aliases] addrs]|e]; [eauto 6|]. destruct e; try done. eauto. Qed.

Lemma ips_of_Raise (r : result (string * list string * list string)) (e : exn) :
  ips_of r = Raise e <-> r = Raise e /\ forall errno strerror, e <> gaierror errno strerror.
Proof.
  split.
  - destruct r as [[[name aliases] addrs]|e']; [done|].
    destruct e'; try done; intros [= <-]; by split.
  - intros [-> Hne]. destruct e; try reflexivity. by destruct (Hne errno strerror).
Qed.

Lemma answers_ips_of {St} (w : World St) (host : string) :
  answers w host <-> exists s, ips_of (gethostbyname_ex w host) = Return s.
Proof.
  unfold answers.
  destruct (gethostbyname_ex w host) as [[[name aliases] addrs]|e]; simpl.
  - split; eauto.
  - destruct e; split; try done; eauto; by intros [s Hs].
Qed.

(** C9, as the code has it. [ips] returns in two of the three outcomes of
    the resolution. When the name resolves: the resolved addresses sorted
    and joined with commas, every address as often as the resolver lists
    it, so the string is the same for two lists that are permutations of
    one another, and for two duplicate-free lists with the same elements.
    When the resolution fails with [gaierror]: a diagnostic that begins
    with [Resolution error:]. When the resolver raises an exception of
    another class, [ips] raises it. So [ips] returns a string exactly when
    the resolver answers with addresses or with a [gaierror]. The world is
    as it was in every case. *)
Theorem ips_outcomes {St} (self : DBConnectionInformation_t) (w : World St) :
  (forall name aliases addrs,
      gethostbyname_ex w (hostname self) = Return (name, aliases, addrs) ->
      DBConnectionInformation.ips self w = (Return (join "," (sorted addrs)), w)
      /\ StronglySorted String.le (sorted addrs)
      /\ sorted addrs ≡ₚ addrs
      /\ forall (self' : DBConnectionInformation_t) (w' : World St) name' aliases' addrs',
          gethostbyname_ex w' (hostname self') = Return (name', aliases', addrs') ->
          addrs' ≡ₚ addrs
          \/ (NoDup addrs /\ NoDup addrs' /\ forall x, x ∈ addrs <-> x ∈ addrs') ->
          fst (DBConnectionInformation.ips self' w') = fst (DBConnectionInformation.ips self w))
  /\ (forall errno strerror,
         gethostbyname_ex w (hostname self) = Raise (gaierror errno strerror) ->
         DBConnectionInformation.ips self w = (Return ("Resolution error: " ++ strerror), w)
         /\ String.prefix "Resolution error:" ("Resolution error: " ++ strerror) = true)
  /\ (forall e,
         gethostbyname_ex w (hostname self) = Raise e ->
         (forall errno strerror, e <> gaierror errno strerror) ->
         DBConnectionInformation.ips self w = (Raise e, w))
  /\ (ips_returns self w <-> answers w (hostname self)).
Proof.
  split; [|split; [|split]].
  - intros name aliases addrs Hres.
    split; [by rewrite ips_run, Hres|].
    split; [apply sorted_Sorted|].
    split; [apply sorted_Permutation|].
    intros self' w' name' aliases' addrs' Hres' Hsame.
    rewrite !ips_run, Hres, Hres'. simpl. do 2 f_equal.
    destruct Hsame as [Hperm|(Hnd & Hnd' & Hset)].
    + by apply sorted_perm_eq.
    + symmetry. by apply sorted_same_set.
  - intros errno strerror Hres. split; [|reflexivity]. by rewrite ips_run, Hres.
  - intros e Hres Hne. rewrite ips_run. f_equal. by apply ips_of_Raise.
  - unfold ips_returns. rewrite ips_run. simpl. by rewrite answers_ips_of.
Qed.

(** C9, as stated, fails. On a host whose file [mysql-master] holds an
    empty line, the constructor builds a resolver whose primary host name
    is empty, for which the resolver raises [socket.herror]: [ips] of the
    primary descriptor raises it, it does not return a string. And the
    string is not determined by the set of addresses: [localhost], listed
    twice, and [loopback] resolve to the same set and are displayed
    differently. *)
Lemma ips_raises_herror :
  fst (ConnectionInfo.__init__ CONFIG_PATH (Demo.hosts_world EmptyString "b"))
  = Return (Demo.resolver EmptyString "b")
  /\ fst (ConnectionInfo.master (Demo.resolver EmptyString "b")
            (Demo.hosts_world EmptyString "b"))
     = Return (Demo.descriptor EmptyString true)
  /\ fst (DBConnectionInformation.ips (Demo.descriptor EmptyString true)
            (Demo.hosts_world EmptyString "b"))
     = Raise Demo.herror
  /\ ~ ips_returns (Demo.descriptor EmptyString true) (Demo.hosts_world EmptyString "b")
  /\ ~ (forall (self : DBConnectionInformation_t) (w : World RefServer.t), ips_returns self w)
  /\ list_to_set ["127.0.0.1"; "127.0.0.1"] =@{gset string} list_to_set ["127.0.0.1"]
  /\ fst (DBConnectionInformation.ips (Demo.descriptor "localhost" false)
            (Demo.hosts_world "a" "b"))
     = Return "127.0.0.1,127.0.0.1"
  /\ fst (DBConnectionInformation.ips (Demo.descriptor "loopback" false)
            (Demo.hosts_world "a" "b"))
     = Return "127.0.0.1".
Proof.
  assert (Heval : fst (DBConnectionInformation.ips (Demo.descriptor EmptyString true)
                         (Demo.hosts_world EmptyString "b"))
                  = Raise Demo.herror) by (vm_compute; reflexivity).
  assert (Hnot : ~ ips_returns (Demo.descriptor EmptyString true)
                     (Demo.hosts_world EmptyString "b")).
  { unfold ips_returns. rewrite Heval. by intros [s Hs]. }
  split; [vm_compute; reflexivity|].
  split; [vm_compute; reflexivity|].
  split; [exact Heval|]. split; [exact Hnot|].
  split; [intros Hall; apply Hnot, Hall|].
  split; [set_solver|].
  split; vm_compute; reflexivity.
Qed.

(** ** Connecting: [get_cursor] *)

Section client.
Context {St : Type} `{!MySQLdb St}.
Implicit Types (self : DBConnectionInformation_t) (w : World St) (c : Cursor).

Lemma cursor_execute_Return c q args w s :
  execute c q args (server w) = (Return (), s) ->
  cursor_execute c q args w = (Return (), with_call (Execute c q args) s w).
Proof. unfold cursor_execute. by intros ->. Qed.

Lemma cursor_execute_Raise c q args w e s :
  execute c q args (server w) = (Raise e, s) ->
  cursor_execute c q args w = (Raise e, with_call (Execute c q args) s w).
Proof. unfold cursor_execute. by intros ->. Qed.

(** The setup of [get_cursor] is [execute_all] on [setup_statements]. *)
Lemma get_cursor_connected self w conn s1 :
  connect (hostname self) (username self) (password self) (server w) = (Return conn, s1) ->
  DBConnectionInformation.get_cursor self w
  = (execute_all (cursor conn) (setup_statements (master self));;; ret (cursor conn))
      (with_call (Connect (hostname self) (username self) (password self)) s1 w).
Proof.
  intros Hconn. unfold DBConnectionInformation.get_cursor.
  unfold bind at 1. unfold try_except, MySQLdb_connect. rewrite Hconn.
  unfold setup_statements. destruct (master self); simpl; unfold bind.
  - repeat (destruct (cursor_execute _ _ _ _) as [[[]|?] ?]; try reflexivity).
  - repeat (destruct (cursor_execute _ _ _ _) as [[[]|?] ?]; try reflexivity).
Qed.

(** A connect that raises [OperationalError]: one classified error, and
    no statement is executed. *)
Lemma get_cursor_connect_operational self w code msg s1 :
  connect (hostname self) (username self) (password self) (server w)
  = (Raise (OperationalError code msg), s1) ->
  DBConnectionInformation.get_cursor self w
  = (Raise (NoConnectionEstablished self (diagnostic self (spec_classify code))),
     with_call (Connect (hostname self) (username self) (password self)) s1 w).
Proof.
  intros Hconn. unfold DBConnectionInformation.get_cursor.
  unfold bind at 1. unfold try_except, MySQLdb_connect. rewrite Hconn.
  unfold spec_classify, MYSQL_ERROR_CODE_NO_HOST, MYSQL_ERROR_CODE_ACCESS_DENIED.
  destruct (code =? 2005); [reflexivity|].
  destruct (code =? 1045); reflexivity.
Qed.

(** A connect that raises an exception of another class: it propagates. *)
Lemma get_cursor_connect_other self w e s1 :
  connect (hostname self) (username self) (password self) (server w) = (Raise e, s1) ->
  (forall code msg, e <> OperationalError code msg) ->
  DBConnectionInformation.get_cursor self w
  = (Raise e, with_call (Connect (hostname self) (username self) (password self)) s1 w).
Proof.
  intros Hconn Hne. unfold DBConnectionInformation.get_cursor.
  unfold bind at 1. unfold try_except, MySQLdb_connect. rewrite Hconn.
  destruct e; try reflexivity. by destruct (Hne code msg).
Qed.

(** What [execute_all] leaves in the log, and how it ends: the statements
    issued are a prefix of the list, all of it when nothing raised, up to
    the statement that raised otherwise. *)
Lemma execute_all_outcome c (l : list (string * option pyval)) w :
  exists issued,
    issued `prefix_of` l
    /\ log (snd (execute_all c l w))
       = (log w ++ ((fun st => Execute c (fst st) (snd st)) <$> issued))%list
    /\ match fst (execute_all c l w) with
       | Return _ => issued = l
       | Raise e =>
           exists pre st s s',
             issued = (pre ++ [st])%list
             /\ execute c (fst st) (snd st) s = (Raise e, s')
       end.
Proof.
  revert w. induction l as [|st l IH]; intros w.
  - exists []. simpl. by rewrite app_nil_r.
  - simpl. unfold bind.
    destruct (execute c (fst st) (snd st) (server w)) as [[[]|e] s] eqn:Hexec.
    + rewrite (cursor_execute_Return _ _ _ _ _ Hexec).
      destruct (IH (with_call (Execute c (fst st) (snd st)) s w))
        as (issued & Hpre & Hlog & Hend).
      exists (st :: issued). split; [by apply prefix_cons|].
      split.
      * rewrite Hlog. simpl. by rewrite <- app_assoc.
      * destruct (fst (execute_all c l _)); [by subst|].
        destruct Hend as (pre & st' & s0 & s' & -> & Hraise).
        by exists (st :: pre), st', s0, s'.
    + rewrite (cursor_execute_Raise _ _ _ _ _ _ Hexec).
      exists [st]. split; [apply prefix_cons, prefix_nil|].
      split; [reflexivity|]. simpl. by exists [], st, (server w), s.
Qed.

(** How [execute_all] ends, by what the client answers: with the world
    after all the statements, each executed in the state the one before it
    left; or with the exception of the first statement that raises, in the
    world after that statement, none of the later ones being executed. *)
Lemma execute_all_run c (l : list (string * option pyval)) w :
  match execute_all c l w with
  | (Return _, w') =>
      exists s',
        executed c l (server w) = Some s'
        /\ w' = with_calls ((fun st => Execute c (fst st) (snd st)) <$> l) s' w
  | (Raise e, w') =>
      exists pre st post s s',
        l = (pre ++ st :: post)%list
        /\ executed c pre (server w) = Some s
        /\ execute c (fst st) (snd st) s = (Raise e, s')
        /\ w' = with_calls ((fun st => Execute c (fst st) (snd st)) <$> (pre ++ [st])%list) s' w
  end.
Proof.
  revert w. induction l as [|st l IH]; intros w.
  - simpl. exists (server w). split; [reflexivity|].
    destruct w. unfold with_calls. simpl. by rewrite app_nil_r.
  - simpl. unfold bind.
    destruct (execute c (fst st) (snd st) (server w)) as [[[]|e] s] eqn:Hexec.
    + rewrite (cursor_execute_Return _ _ _ _ _ Hexec).
      specialize (IH (with_call (Execute c (fst st) (snd st)) s w)).
      destruct (execute_all c l _) as [[[]|e] w'].
      * destruct IH as (s' & Hrun & ->). exists s'. split; [exact Hrun|].
        unfold with_calls, with_call. simpl. by rewrite <- app_assoc.
      * destruct IH as (pre & st' & post & s0 & s' & -> & Hrun & Hraise & ->).
        exists (st :: pre), st', post, s0, s'. simpl. rewrite Hexec.
        split; [reflexivity|]. split; [exact Hrun|]. split; [exact Hraise|].
        unfold with_calls, with_call. simpl. by rewrite <- app_assoc.
    + rewrite (cursor_execute_Raise _ _ _ _ _ _ Hexec).
      by exists [], st, l, (server w), s.
Qed.

End client.

(** C3. For every low-level connection failure (an [OperationalError] of
    [MySQLdb.connect]), [get_cursor] raises [NoConnectionEstablished] with
    the diagnostic of the reason the status code classifies to, and the
    classification has exactly three outcomes tested in order:
    host-unreachable for code 2005, else authentication-rejected for code
    1045, else unknown, whose diagnostic carries the raw code in decimal (two
    codes never give the same diagnostic). *)
Theorem connection_failure_classified {St} `{!MySQLdb St}
    (self : DBConnectionInformation_t) (w : World St) (code : Z) (msg : string) (s1 : St) :
  connect (hostname self) (username self) (password self) (server w)
  = (Raise (OperationalError code msg), s1) ->
  DBConnectionInformation.get_cursor self w
  = (Raise (NoConnectionEstablished self (diagnostic self (spec_classify code))),
     with_call (Connect (hostname self) (username self) (password self)) s1 w)
  /\ (code = MYSQL_ERROR_CODE_NO_HOST ->
      spec_classify code = HostUnreachable
      /\ diagnostic self (spec_classify code)
         = "The host [" ++ hostname self ++ "] does not exist.")
  /\ (code <> MYSQL_ERROR_CODE_NO_HOST -> code = MYSQL_ERROR_CODE_ACCESS_DENIED ->
      spec_classify code = AuthenticationRejected
      /\ diagnostic self (spec_classify code)
         = "The username [" ++ username self ++ "] or password [" ++ password self
           ++ "] is incorrect.")
  /\ (code <> MYSQL_ERROR_CODE_NO_HOST -> code <> MYSQL_ERROR_CODE_ACCESS_DENIED ->
      spec_classify code = Unknown code
      /\ diagnostic self (spec_classify code) = "An error occured: Code " ++ pretty code)
  /\ (forall c1 c2, diagnostic self (Unknown c1) = diagnostic self (Unknown c2) -> c1 = c2).
Proof.
  intros Hconn. split; [by eapply get_cursor_connect_operational|].
  unfold MYSQL_ERROR_CODE_NO_HOST, MYSQL_ERROR_CODE_ACCESS_DENIED, spec_classify.
  repeat split.
  - by subst.
  - by subst.
  - subst. by destruct (1045 =? 2005) eqn:E.
  - subst. reflexivity.
  - destruct (Z.eqb_spec code 2005); [done|]. by destruct (Z.eqb_spec code 1045).
  - destruct (Z.eqb_spec code 2005); [done|]. by destruct (Z.eqb_spec code 1045).
  - intros c1 c2 Heq. simpl in Heq.
    apply (inj (String.app "An error occured: Code ")) in Heq.
    by apply (inj pretty) in Heq.
Qed.

(** C2, as the code has it. For every descriptor and every outcome of the
    client, a connection attempt ends in exactly one of these ways, and its
    calls are the [connect] followed by the setup statements it executed.
    [connect] raised an [OperationalError]: [get_cursor] raises one
    [NoConnectionEstablished] classified host-unreachable,
    authentication-rejected or unknown, and no statement is executed.
    [connect] raised an exception of another class: it propagates as it is.
    [connect] returned: [get_cursor] returns a cursor only if every setup
    statement of the role returned, each executed in the state the one
    before it left, and the cursor is that of the new connection; it raises
    only if a setup statement raised after those before it had returned,
    and then it raises the exception of that statement, unclassified, and
    executes none of the later ones. *)
Theorem get_cursor_outcomes {St} `{!MySQLdb St}
    (self : DBConnectionInformation_t) (w : World St) :
  match connect (hostname self) (username self) (password self) (server w) with
  | (Return conn, s1) =>
      match DBConnectionInformation.get_cursor self w with
      | (Return c, w') =>
          c = cursor conn
          /\ exists s',
              executed (cursor conn) (setup_statements (master self)) s1 = Some s'
              /\ w' = with_calls
                        (attempt_calls self (cursor conn) (setup_statements (master self)))
                        s' w
      | (Raise e, w') =>
          exists pre st post s s',
            setup_statements (master self) = (pre ++ st :: post)%list
            /\ executed (cursor conn) pre s1 = Some s
            /\ execute (cursor conn) (fst st) (snd st) s = (Raise e, s')
            /\ w' = with_calls (attempt_calls self (cursor conn) (pre ++ [st])%list) s' w
      end
  | (Raise (OperationalError code _), s1) =>
      DBConnectionInformation.get_cursor self w
      = (Raise (NoConnectionEstablished self (diagnostic self (spec_classify code))),
         with_call (Connect (hostname self) (username self) (password self)) s1 w)
  | (Raise e, s1) =>
      DBConnectionInformation.get_cursor self w
      = (Raise e, with_call (Connect (hostname self) (username self) (password self)) s1 w)
  end.
Proof.
  destruct (connect _ _ _ _) as [[conn|e] s1] eqn:Hconn.
  - rewrite (get_cursor_connected _ _ _ _ Hconn). unfold bind.
    set (w1 := with_call (Connect (hostname self) (username self) (password self)) s1 w).
    pose proof (execute_all_run (cursor conn) (setup_statements (master self)) w1) as Hrun.
    destruct (execute_all (cursor conn) (setup_statements (master self)) w1)
      as [[[]|e] w2]; simpl.
    + split; [reflexivity|]. destruct Hrun as (s' & Hexec & ->).
      exists s'. split; [exact Hexec|].
      unfold with_calls, attempt_calls, w1, with_call. simpl. by rewrite <- app_assoc.
    + destruct Hrun as (pre & st & post & s & s' & Hsetup & Hexec & Hraise & ->).
      exists pre, st, post, s, s'. split; [exact Hsetup|]. split; [exact Hexec|].
      split; [exact Hraise|].
      unfold with_calls, attempt_calls, w1, with_call. simpl. by rewrite <- app_assoc.
  - destruct e; try (by rewrite (get_cursor_connect_other _ _ _ _ Hconn)).
    by rewrite (get_cursor_connect_operational _ _ _ _ _ Hconn).
Qed.

(** C2, as stated, fails. A replica descriptor for host [b], whose server
    accepts the connection and has no database [ScalrTest]: [USE ScalrTest]
    raises [OperationalError] 1049 and [get_cursor] ends with that error,
    neither a query handle nor a classified error. *)
Lemma get_cursor_unclassified :
  fst (DBConnectionInformation.get_cursor (Demo.descriptor "b" false) (Demo.world "a" "b"))
  = Raise (OperationalError 1049 "Unknown database 'ScalrTest'")
  /\ ~ handle_or_classified (Demo.descriptor "b" false) (Demo.world "a" "b")
  /\ ~ (forall (self : DBConnectionInformation_t) (w : World RefServer.t),
           handle_or_classified self w).
Proof.
  assert (Heval : fst (DBConnectionInformation.get_cursor (Demo.descriptor "b" false)
                         (Demo.world "a" "b"))
                  = Raise (OperationalError 1049 "Unknown database 'ScalrTest'"))
    by (vm_compute; reflexivity).
  assert (Hnot : ~ handle_or_classified (Demo.descriptor "b" false) (Demo.world "a" "b")).
  { unfold handle_or_classified. rewrite Heval. intros [[c Hc]|(ci & err & Hr)]; discriminate. }
  split; [exact Heval|]. split; [exact Hnot|].
  intros Hall. apply Hnot, Hall.
Qed.

(** ** Reading: [get_values] *)

Section reading.
Context {St : Type} `{!MySQLdb St}.
Implicit Types (self : DBConnectionInformation_t) (w : World St) (c : Cursor).

(** [get_values] when [get_cursor] raises: the handler sees the exception. *)
Lemma get_values_cursor_Raise self w e w' :
  DBConnectionInformation.get_cursor self w = (Raise e, w') ->
  DBConnectionInformation.get_values self w
  = match e with
    | OperationalError code _ =>
        if code =? MYSQL_ERROR_CODE_UNKNOWN_DB then (Return [], w') else (Raise e, w')
    | _ => (Raise e, w')
    end.
Proof.
  intros Hcur. unfold DBConnectionInformation.get_values, try_except_else.
  rewrite (bind_Raise _ _ _ _ _ Hcur).
  destruct e; try reflexivity. by destruct (code =? _).
Qed.

(** [get_values] when the query raises. *)
Lemma get_values_select_Raise self w c w1 e s2 :
  DBConnectionInformation.get_cursor self w = (Return c, w1) ->
  execute c "SELECT val FROM ScalrValues" None (server w1) = (Raise e, s2) ->
  DBConnectionInformation.get_values self w
  = match e with
    | OperationalError code _ =>
        if code =? MYSQL_ERROR_CODE_UNKNOWN_DB
        then (Return [], with_call (Execute c "SELECT val FROM ScalrValues" None) s2 w1)
        else (Raise e, with_call (Execute c "SELECT val FROM ScalrValues" None) s2 w1)
    | _ => (Raise e, with_call (Execute c "SELECT val FROM ScalrValues" None) s2 w1)
    end.
Proof.
  intros Hcur Hsel. unfold DBConnectionInformation.get_values, try_except_else.
  rewrite (bind_Return _ _ _ _ _ Hcur).
  rewrite (bind_Raise _ _ _ _ _ (cursor_execute_Raise _ _ _ _ _ _ Hsel)).
  destruct e; try reflexivity. by destruct (code =? _).
Qed.

(** [get_values] when nothing raises: the first column of every row. *)
Lemma get_values_select_Return self w c w1 s2 :
  DBConnectionInformation.get_cursor self w = (Return c, w1) ->
  execute c "SELECT val FROM ScalrValues" None (server w1) = (Return (), s2) ->
  DBConnectionInformation.get_values self w
  = list_comprehension getitem0 (fetchall c s2)
      (with_call (Execute c "SELECT val FROM ScalrValues" None) s2 w1).
Proof.
  intros Hcur Hsel. unfold DBConnectionInformation.get_values, try_except_else.
  rewrite (bind_Return _ _ _ _ _ Hcur).
  rewrite (bind_Return _ _ _ _ _ (cursor_execute_Return _ _ _ _ _ Hsel)).
  reflexivity.
Qed.

End reading.

(** C5. For every descriptor, when an unknown-database failure
    ([OperationalError] 1049) is raised while [get_values] sets up the
    connection ([USE ScalrTest] on a server that has no such database) or
    runs its query, [get_values] returns the empty list instead of raising;
    when the connection, the setup and the query succeed, it returns the
    stored values, that is the [val] column of every row of the result, in
    the order of the rows. *)
Theorem get_values_unknown_database {St} `{!MySQLdb St}
    (self : DBConnectionInformation_t) (w : World St) :
  (forall msg w',
      DBConnectionInformation.get_cursor self w
      = (Raise (OperationalError MYSQL_ERROR_CODE_UNKNOWN_DB msg), w') ->
      DBConnectionInformation.get_values self w = (Return [], w'))
  /\ (forall c w1 msg s2,
         DBConnectionInformation.get_cursor self w = (Return c, w1) ->
         execute c "SELECT val FROM ScalrValues" None (server w1)
         = (Raise (OperationalError MYSQL_ERROR_CODE_UNKNOWN_DB msg), s2) ->
         DBConnectionInformation.get_values self w
         = (Return [], with_call (Execute c "SELECT val FROM ScalrValues" None) s2 w1))
  /\ (forall c w1 s2 vals,
         DBConnectionInformation.get_cursor self w = (Return c, w1) ->
         execute c "SELECT val FROM ScalrValues" None (server w1) = (Return (), s2) ->
         fetchall c s2 = (fun v => [v]) <$> vals ->
         DBConnectionInformation.get_values self w
         = (Return vals, with_call (Execute c "SELECT val FROM ScalrValues" None) s2 w1)).
Proof.
  repeat split.
  - intros msg w' Hcur. by rewrite (get_values_cursor_Raise _ _ _ _ Hcur).
  - intros c w1 msg s2 Hcur Hsel. by rewrite (get_values_select_Raise _ _ _ _ _ _ Hcur Hsel).
  - intros c w1 s2 vals Hcur Hsel Hrows.
    rewrite (get_values_select_Return _ _ _ _ _ Hcur Hsel), Hrows.
    apply list_comprehension_getitem0.
Qed.

(** C10. [get_values] swallows the unknown-database status code 1049 and
    nothing else: every other exception raised while it connects or runs
    its query, in particular an [OperationalError] with another code raised
    by the query, reaches the caller as it was raised, neither turned into
    an empty result nor into a classified connection error; and a call that
    returns although something was raised has swallowed an
    [OperationalError] 1049 and returns the empty list. *)
Theorem get_values_reraises {St} `{!MySQLdb St}
    (self : DBConnectionInformation_t) (w : World St) :
  (forall e w',
      DBConnectionInformation.get_cursor self w = (Raise e, w') ->
      (forall msg, e <> OperationalError MYSQL_ERROR_CODE_UNKNOWN_DB msg) ->
      DBConnectionInformation.get_values self w = (Raise e, w'))
  /\ (forall c w1 e s2,
         DBConnectionInformation.get_cursor self w = (Return c, w1) ->
         execute c "SELECT val FROM ScalrValues" None (server w1) = (Raise e, s2) ->
         (forall msg, e <> OperationalError MYSQL_ERROR_CODE_UNKNOWN_DB msg) ->
         DBConnectionInformation.get_values self w
         = (Raise e, with_call (Execute c "SELECT val FROM ScalrValues" None) s2 w1))
  /\ (forall c w1 code msg s2,
         DBConnectionInformation.get_cursor self w = (Return c, w1) ->
         execute c "SELECT val FROM ScalrValues" None (server w1)
         = (Raise (OperationalError code msg), s2) ->
         code <> MYSQL_ERROR_CODE_UNKNOWN_DB ->
         DBConnectionInformation.get_values self w
         = (Raise (OperationalError code msg),
            with_call (Execute c "SELECT val FROM ScalrValues" None) s2 w1))
  /\ (forall e w' l w'',
         DBConnectionInformation.get_cursor self w = (Raise e, w') ->
         DBConnectionInformation.get_values self w = (Return l, w'') ->
         l = [] /\ exists msg, e = OperationalError MYSQL_ERROR_CODE_UNKNOWN_DB msg)
  /\ (forall c w1 e s2 l w'',
         DBConnectionInformation.get_cursor self w = (Return c, w1) ->
         execute c "SELECT val FROM ScalrValues" None (server w1) = (Raise e, s2) ->
         DBConnectionInformation.get_values self w = (Return l, w'') ->
         l = [] /\ exists msg, e = OperationalError MYSQL_ERROR_CODE_UNKNOWN_DB msg).
Proof.
  assert (Hcase : forall (e : exn) (a b : result (list string) * World St),
             (forall msg, e <> OperationalError MYSQL_ERROR_CODE_UNKNOWN_DB msg) ->
             match e with
             | OperationalError code _ =>
                 if code =? MYSQL_ERROR_CODE_UNKNOWN_DB then a else b
             | _ => b
             end = b).
  { intros e a b Hne. destruct e; try reflexivity.
    destruct (Z.eqb_spec code MYSQL_ERROR_CODE_UNKNOWN_DB); [|reflexivity].
    subst. by destruct (Hne msg). }
  assert (Hinv : forall (e : exn) (wa wb w'' : World St) (l : list string),
             match e with
             | OperationalError code _ =>
                 if code =? MYSQL_ERROR_CODE_UNKNOWN_DB then (Return [], wa) else (Raise e, wb)
             | _ => (Raise e, wb)
             end = (Return l, w'') ->
             l = [] /\ exists msg, e = OperationalError MYSQL_ERROR_CODE_UNKNOWN_DB msg).
  { intros e wa wb w'' l Heq. destruct e; try discriminate.
    destruct (Z.eqb_spec code MYSQL_ERROR_CODE_UNKNOWN_DB); [|discriminate].
    injection Heq as <- _. subst. eauto. }
  split; [|split; [|split; [|split]]].
  - intros e w' Hcur Hne. rewrite (get_values_cursor_Raise _ _ _ _ Hcur). by apply Hcase.
  - intros c w1 e s2 Hcur Hsel Hne.
    rewrite (get_values_select_Raise _ _ _ _ _ _ Hcur Hsel). by apply Hcase.
  - intros c w1 code msg s2 Hcur Hsel Hne.
    rewrite (get_values_select_Raise _ _ _ _ _ _ Hcur Hsel).
    apply (Hcase (OperationalError code msg)). congruence.
  - intros e w' l w'' Hcur Hret.
    rewrite (get_values_cursor_Raise _ _ _ _ Hcur) in Hret. by eapply Hinv.
  - intros c w1 e s2 l w'' Hcur Hsel Hret.
    rewrite (get_values_select_Raise _ _ _ _ _ _ Hcur Hsel) in Hret. by eapply Hinv.
Qed.

(** ** Writing: [insert] *)

(** C6. For every input string [value], the value [insert] hands to the
    [INSERT] statement is the prefix of [value] of at most 200 characters:
    exactly the first 200 characters when [value] is longer, [value] itself
    when it has at most 200; once the cursor is there, [insert] executes
    that [INSERT] and, when it returns, [COMMIT] right after it and nothing
    else; an [INSERT] that raises ends [insert] with its exception. *)
Theorem insert_truncates_and_commits {St} `{!MySQLdb St}
    (self : DBConnectionInformation_t) (value : string) (w : World St)
    (c : Cursor) (w1 : World St) :
  DBConnectionInformation.get_cursor self w = (Return c, w1) ->
  let stored := slice_to VALUE_LENGTH value in
  let INSERT := Execute c "INSERT INTO ScalrValues (val) VALUES (%s)" (Some (PyStr stored)) in
  let COMMIT := Execute c "COMMIT" None in
  (String.length stored <= 200)%nat
  /\ (exists rest, value = stored ++ rest)
  /\ ((200 < String.length value)%nat ->
      String.length stored = 200%nat /\ stored = string_take 200 value)
  /\ ((String.length value <= 200)%nat -> stored = value)
  /\ (forall s2,
         execute c "INSERT INTO ScalrValues (val) VALUES (%s)" (Some (PyStr stored)) (server w1)
         = (Return (), s2) ->
         fst (DBConnectionInformation.insert self value w) = fst (execute c "COMMIT" None s2)
         /\ log (snd (DBConnectionInformation.insert self value w))
            = (log w1 ++ [INSERT; COMMIT])%list
         /\ server (snd (DBConnectionInformation.insert self value w))
            = snd (execute c "COMMIT" None s2))
  /\ (forall e s2,
         execute c "INSERT INTO ScalrValues (val) VALUES (%s)" (Some (PyStr stored)) (server w1)
         = (Raise e, s2) ->
         DBConnectionInformation.insert self value w = (Raise e, with_call INSERT s2 w1)).
Proof.
  intros Hcur stored INSERT COMMIT. subst stored INSERT COMMIT.
  rewrite slice_to_VALUE_LENGTH.
  split; [rewrite string_take_length; lia|].
  split; [apply string_take_prefix|].
  split; [intros Hlen; split; [rewrite string_take_length; lia|reflexivity]|].
  split; [intros Hlen; by apply string_take_all|].
  split.
  - intros s2 Hins. unfold DBConnectionInformation.insert.
    rewrite (bind_Return _ _ _ _ _ Hcur).
    rewrite slice_to_VALUE_LENGTH.
    rewrite (bind_Return _ _ _ _ _ (cursor_execute_Return _ _ _ _ _ Hins)).
    unfold cursor_execute. simpl.
    destruct (execute c "COMMIT" None s2) as [r s3]. simpl.
    repeat split. by rewrite <- app_assoc.
  - intros e s2 Hins. unfold DBConnectionInformation.insert.
    rewrite (bind_Return _ _ _ _ _ Hcur).
    rewrite slice_to_VALUE_LENGTH.
    by rewrite (bind_Raise _ _ _ _ _ (cursor_execute_Raise _ _ _ _ _ _ Hins)).
Qed.

(** ** Schema setup *)

(** The statements [get_cursor] issues on a connection that was opened. *)
Lemma setup_issued {St} `{!MySQLdb St} (self : DBConnectionInformation_t) (w : World St)
    (conn : nat) (s1 : St) :
  connect (hostname self) (username self) (password self) (server w) = (Return conn, s1) ->
  exists issued,
    log (snd (DBConnectionInformation.get_cursor self w))
    = (log w ++ Connect (hostname self) (username self) (password self)
         :: ((fun st => Execute (cursor conn) (fst st) (snd st)) <$> issued))%list
    /\ issued `prefix_of` setup_statements (master self)
    /\ issued <> []
    /\ (forall c, fst (DBConnectionInformation.get_cursor self w) = Return c ->
                  c = cursor conn /\ issued = setup_statements (master self)).
Proof.
  intros Hconn. rewrite (get_cursor_connected _ _ _ _ Hconn). unfold bind.
  set (w1 := with_call _ s1 w).
  destruct (execute_all_outcome (cursor conn) (setup_statements (master self)) w1)
    as (issued & Hpre & Hlog & Hend).
  exists issued.
  destruct (execute_all (cursor conn) (setup_statements (master self)) w1)
    as [[[]|e] w2]; simpl in *.
  - subst issued. rewrite Hlog. split; [by rewrite <- app_assoc|].
    split; [done|]. split; [by destruct (master self)|].
    intros c [= <-]. done.
  - rewrite Hlog. split; [by rewrite <- app_assoc|].
    split; [done|]. split; [|intros c; discriminate].
    destruct Hend as (pre & st & _ & _ & -> & _). by destruct pre.
Qed.

Section reference_server.
Import RefServer.
Implicit Types (s : RefServer.t) (i : instance) (ss : session) (c : Cursor).

Lemma create_if_not_exists_lookup {V} (name : string) (v : V) (m : gmap string V) :
  create_if_not_exists name v m !! name = Some (default v (m !! name)).
Proof.
  unfold create_if_not_exists. destruct (m !! name) eqn:E; [done|].
  by rewrite lookup_insert_eq.
Qed.

Lemma create_if_not_exists_idem {V} (name : string) (v v' : V) (m : gmap string V) :
  create_if_not_exists name v' (create_if_not_exists name v m)
  = create_if_not_exists name v m.
Proof.
  unfold create_if_not_exists at 1. by rewrite create_if_not_exists_lookup.
Qed.

Lemma ref_create_database c s ss i :
  sessions s !! connection c = Some ss -> hosts s !! peer ss = Some i ->
  execute c "CREATE DATABASE IF NOT EXISTS ScalrTest" None s
  = (Return (),
     set_databases (peer ss) i (create_if_not_exists "ScalrTest" ∅ (databases i)) s).
Proof.
  intros Hss Hi. change execute with ref_execute. unfold ref_execute.
  by rewrite Hss, Hi.
Qed.

Lemma ref_use c s ss i tables :
  sessions s !! connection c = Some ss -> hosts s !! peer ss = Some i ->
  databases i !! "ScalrTest" = Some tables ->
  execute c "USE ScalrTest" None s
  = (Return (),
     set_session c {| peer := peer ss; current_db := Some "ScalrTest";
                      result_set := result_set ss |} s).
Proof.
  intros Hss Hi Hdb. change execute with ref_execute. unfold ref_execute.
  rewrite Hss, Hi. simpl. by rewrite Hdb.
Qed.

Lemma ref_create_table c s ss i db tables args :
  sessions s !! connection c = Some ss -> hosts s !! peer ss = Some i ->
  current_db ss = Some db -> databases i !! db = Some tables ->
  execute c
    "CREATE TABLE IF NOT EXISTS ScalrValues (val CHAR(%s) CHARACTER SET utf8 COLLATE utf8_bin)"
    args s
  = (Return (),
     set_databases (peer ss) i
       (<[db := create_if_not_exists "ScalrValues" [] tables]> (databases i)) s).
Proof.
  intros Hss Hi Hcur Hdb. change execute with ref_execute. unfold ref_execute.
  rewrite Hss, Hi. simpl. by rewrite Hcur, Hdb.
Qed.

Lemma provision_idem i : provision (provision i) = provision i.
Proof.
  unfold provision. simpl. f_equal.
  rewrite lookup_insert_eq. simpl.
  unfold create_if_not_exists at 1. rewrite create_if_not_exists_lookup.
  by rewrite insert_insert_eq.
Qed.

End reference_server.


Section setup_twice.
Import RefServer.
Implicit Types (w : World RefServer.t) (self : DBConnectionInformation_t) (i : instance).

(** [get_cursor] of a primary descriptor on a server that accepts the
    connection: it returns, the server of the host is provisioned, and the
    session of the new connection has [ScalrTest] selected. *)
Lemma ref_get_cursor_master self w i :
  master self = true ->
  hosts (server w) !! hostname self = Some i ->
  listening i = true ->
  (username self, password self) ∈ accounts i ->
  exists w',
    DBConnectionInformation.get_cursor self w
    = (Return (cursor (length (sessions (server w)))), w')
    /\ hosts (server w') = <[hostname self := provision i]> (hosts (server w))
    /\ sessions (server w')
       = (sessions (server w)
          ++ [{| peer := hostname self; current_db := Some "ScalrTest";
                 result_set := [] |}])%list.
Proof.
  intros Hmaster Hhost Hlisten Hacc.
  set (h := hostname self) in *.
  set (new := {| peer := h; current_db := None; result_set := [] |}).
  set (c := cursor (length (sessions (server w)))).
  set (s1 := {| hosts := hosts (server w); sessions := (sessions (server w) ++ [new])%list |}).
  assert (Hconn : connect h (username self) (password self) (server w)
                  = (Return (length (sessions (server w))), s1)).
  { change connect with ref_connect. unfold ref_connect. rewrite Hhost, Hlisten. simpl.
    by rewrite bool_decide_eq_true_2. }
  rewrite (get_cursor_connected _ _ _ _ Hconn). rewrite Hmaster.
  set (i1 := {| listening := listening i; accounts := accounts i;
                databases := create_if_not_exists "ScalrTest" ∅ (databases i) |}).
  set (new' := {| peer := h; current_db := Some "ScalrTest"; result_set := [] |}).
  assert (Hss1 : sessions s1 !! connection c = Some new)
    by (simpl; by apply list_lookup_middle).
  (* CREATE DATABASE *)
  pose proof (ref_create_database c s1 new i Hss1 Hhost) as E1.
  set (s2 := set_databases (peer new) i (create_if_not_exists "ScalrTest" ∅ (databases i)) s1)
    in E1.
  assert (Hi2 : hosts s2 !! peer new = Some i1) by (simpl; apply lookup_insert_eq).
  (* USE *)
  pose proof (ref_use c s2 new i1 _ Hss1 Hi2
                (create_if_not_exists_lookup "ScalrTest" ∅ (databases i))) as E2.
  set (s3 := set_session c _ s2) in E2.
  assert (Hss3 : sessions s3 !! connection c = Some new').
  { simpl. apply list_lookup_insert_eq. rewrite length_app. simpl. lia. }
  (* CREATE TABLE *)
  pose proof (ref_create_table c s3 new' i1 "ScalrTest" _ (Some (PyInt VALUE_LENGTH))
                Hss3 Hi2 eq_refl
                (create_if_not_exists_lookup "ScalrTest" ∅ (databases i))) as E3.
  set (s4 := set_databases _ _ _ s3) in E3.
  set (w1 := with_call (Connect h (username self) (password self)) s1 w).
  set (w2 := with_call (Execute c "CREATE DATABASE IF NOT EXISTS ScalrTest" None) s2 w1).
  set (w3 := with_call (Execute c "USE ScalrTest" None) s3 w2).
  unfold setup_statements. cbn [execute_all fst snd]. unfold bind.
  pose proof (cursor_execute_Return c _ None w1 s2 E1) as R1.
  pose proof (cursor_execute_Return c _ None w2 s3 E2) as R2.
  pose proof (cursor_execute_Return c _ (Some (PyInt VALUE_LENGTH)) w3 s4 E3) as R3.
  subst c w1 w2 w3 h. rewrite R1, R2, R3.
  eexists. split; [reflexivity|]. simpl. split.
  - rewrite insert_insert_eq. f_equal. unfold provision. f_equal.
    unfold create_if_not_exists at 2.
    destruct (databases i !! "ScalrTest") as [tables|] eqn:Hdb; simpl.
    + reflexivity.
    + by rewrite insert_insert_eq.
  - rewrite insert_app_r_alt by lia. by rewrite Nat.sub_diag.
Qed.

(** A [get_cursor] that returns was let in by the server of its host. *)
Lemma ref_get_cursor_Return_inv self w c w1 :
  DBConnectionInformation.get_cursor self w = (Return c, w1) ->
  exists i,
    hosts (server w) !! hostname self = Some i
    /\ listening i = true
    /\ (username self, password self) ∈ accounts i.
Proof.
  intros Hcur.
  destruct (hosts (server w) !! hostname self) as [i|] eqn:Hh.
  2: { erewrite get_cursor_connect_operational in Hcur; [discriminate|].
       change connect with ref_connect. unfold ref_connect. rewrite Hh. reflexivity. }
  exists i. split; [done|].
  destruct (listening i) eqn:Hl.
  2: { erewrite get_cursor_connect_operational in Hcur; [discriminate|].
       change connect with ref_connect. unfold ref_connect. rewrite Hh, Hl. reflexivity. }
  split; [done|].
  destruct (bool_decide ((username self, password self) ∈ accounts i)) eqn:Hacc.
  - by apply bool_decide_eq_true in Hacc.
  - erewrite get_cursor_connect_operational in Hcur; [discriminate|].
    change connect with ref_connect. unfold ref_connect. rewrite Hh, Hl. simpl.
    rewrite Hacc. reflexivity.
Qed.

(** Running the setup twice: on the reference server, a primary
    [get_cursor] that has returned once returns again, and the second run
    leaves every server, its databases, tables and rows, as the first
    left them. *)
Lemma setup_twice_idempotent self w c1 w1 :
  master self = true ->
  DBConnectionInformation.get_cursor self w = (Return c1, w1) ->
  exists c2 w2,
    DBConnectionInformation.get_cursor self w1 = (Return c2, w2)
    /\ hosts (server w2) = hosts (server w1).
Proof.
  intros Hmaster Hcur.
  destruct (ref_get_cursor_Return_inv _ _ _ _ Hcur) as (i & Hh & Hl & Hacc).
  destruct (ref_get_cursor_master self w i Hmaster Hh Hl Hacc) as (w1' & Hcur' & Hhosts & _).
  rewrite Hcur in Hcur'. injection Hcur' as _ <-.
  assert (Hh1 : hosts (server w1) !! hostname self = Some (provision i))
    by (rewrite Hhosts; apply lookup_insert_eq).
  destruct (ref_get_cursor_master self w1 (provision i) Hmaster Hh1 Hl Hacc)
    as (w2 & Hcur2 & Hhosts2 & _).
  eexists _, w2. split; [exact Hcur2|].
  rewrite Hhosts2, provision_idem. by apply insert_id.
Qed.

End setup_twice.

(** C7. For every successful connection, schema-provisioning statements
    (create database, create table) are among the statements [get_cursor]
    issues if and only if the descriptor's role is primary; every creation
    statement issued is of the create-if-not-exists kind, so that on the
    reference server running the setup a second time succeeds and changes
    nothing; a replica descriptor issues [USE ScalrTest] and no other
    statement. *)
Theorem schema_setup_only_on_primary :
  (forall (St : Type) (client : MySQLdb St) (self : DBConnectionInformation_t)
          (w : World St) (conn : nat) (s1 : St),
      connect (hostname self) (username self) (password self) (server w) = (Return conn, s1) ->
      exists issued,
        log (snd (DBConnectionInformation.get_cursor self w))
        = (log w ++ Connect (hostname self) (username self) (password self)
             :: ((fun st => Execute (cursor conn) (fst st) (snd st)) <$> issued))%list
        /\ issued `prefix_of` setup_statements (master self)
        /\ (forall c, fst (DBConnectionInformation.get_cursor self w) = Return c ->
                      issued = setup_statements (master self))
        /\ ((exists st, st ∈ issued /\ is_creation st = true) <-> master self = true)
        /\ (forall st, st ∈ issued -> is_creation st = true -> if_not_exists st = true)
        /\ (master self = false -> issued = [("USE ScalrTest", None)]))
  /\ (forall (self : DBConnectionInformation_t) (w w1 : World RefServer.t) (c1 : Cursor),
         master self = true ->
         DBConnectionInformation.get_cursor self w = (Return c1, w1) ->
         exists c2 w2,
           DBConnectionInformation.get_cursor self w1 = (Return c2, w2)
           /\ RefServer.hosts (server w2) = RefServer.hosts (server w1)).
Proof.
  split.
  - intros St client self w conn s1 Hconn.
    destruct (setup_issued self w conn s1 Hconn) as (issued & Hlog & Hpre & Hne & Hret).
    exists issued. split; [exact Hlog|]. split; [exact Hpre|].
    split; [intros c Hc; by destruct (Hret c Hc)|].
    assert (Hsub : forall st, st ∈ issued -> st ∈ setup_statements (master self)).
    { intros st Hst. destruct Hpre as [k ->]. apply elem_of_app. by left. }
    assert (Hhead : exists tl, issued = hd (EmptyString, None) (setup_statements (master self)) :: tl).
    { destruct Hpre as [k Hk]. destruct issued as [|x tl]; [done|].
      exists tl. rewrite Hk. reflexivity. }
    destruct Hhead as [tl Hhead].
    split; [|split].
    + split.
      * intros (st & Hst & Hcreate). apply Hsub in Hst.
        destruct (master self); [done|].
        apply list_elem_of_singleton in Hst. subst st. discriminate.
      * intros Hmaster. rewrite Hmaster in Hhead.
        eexists. split; [rewrite Hhead; by left|]. reflexivity.
    + intros st Hst Hcreate. apply Hsub in Hst.
      destruct (master self); simpl in Hst;
        repeat (apply elem_of_cons in Hst as [->|Hst]; [try reflexivity; try discriminate|]);
        by apply elem_of_nil in Hst.
    + intros Hrole. rewrite Hrole in Hpre, Hhead. simpl in *.
      destruct Hpre as [k Hk]. subst issued. injection Hk as Hk.
      symmetry in Hk. apply app_eq_nil in Hk as [-> _]. reflexivity.
  - intros self w w1 c1 Hmaster Hcur. by eapply setup_twice_idempotent.
Qed.

(** * The theorems at concrete inputs *)

(** The run of a computation, from its result alone. *)
Lemma run_eq {A B} (p : A * B) (a : A) : fst p = a -> p = (a, snd p).
Proof. intros <-. by destruct p. Qed.

(** C4 on two configurations: the one without the file of the replica
    host, and the complete one. *)
Lemma init_missing_configuration_witness :
  ConnectionInfo.__init__ CONFIG_PATH Demo.world_without_slave
  = (Raise NoConnectionInfo, Demo.world_without_slave)
  /\ exists u p mh sh,
      ConnectionInfo.__init__ CONFIG_PATH (Demo.world "a" "b")
      = (Return (<["_slave" := strip sh]> (<["_master" := strip mh]>
                (<["password" := strip p]> (<["username" := strip u]> ∅)))),
         Demo.world "a" "b").
Proof.
  split.
  - apply (proj1 (init_missing_configuration CONFIG_PATH Demo.world_without_slave)).
    exists "mysql-slave", "_slave".
    split; [unfold ConnectionInfo.entries; repeat constructor | vm_compute; reflexivity].
  - destruct (proj2 (init_missing_configuration CONFIG_PATH (Demo.world "a" "b")))
      as (u & p & mh & sh & _ & _ & _ & _ & Hinit).
    + intros fname attr Hin. unfold ConnectionInfo.entries in Hin.
      repeat (apply elem_of_cons in Hin as [Hin|Hin];
              [injection Hin as -> ->; eexists; vm_compute; reflexivity|]).
      by apply elem_of_nil in Hin.
    + exists u, p, mh, sh. exact Hinit.
Defined.

(** C8 on the configuration that names [a] as primary and [b] as replica. *)
Lemma master_slave_descriptors_witness :
  fst (ConnectionInfo.master (Demo.resolver "a" "b") (Demo.world "a" "b"))
  = Return {| self_id := 0; hostname := "a"; username := "scalr";
              password := "s3cret"; master := true |}
  /\ fst (ConnectionInfo.slave (Demo.resolver "a" "b") (Demo.world "a" "b"))
     = Return {| self_id := 0; hostname := "b"; username := "scalr";
                 password := "s3cret"; master := false |}.
Proof.
  destruct (master_slave_descriptors CONFIG_PATH (Demo.world "a" "b") (Demo.world "a" "b")
              (Demo.resolver "a" "b") (demo_init "a" "b"))
    as (u & p & mh & sh & Hu & Hp & Hmh & Hsh & Hdesc).
  vm_compute in Hu, Hp, Hmh, Hsh.
  injection Hu as <-. injection Hp as <-. injection Hmh as <-. injection Hsh as <-.
  destruct (Hdesc (Demo.world "a" "b")) as [Hm Hs].
  rewrite Hm, Hs. split; reflexivity.
Defined.

(** C9 on a name with two addresses, on a second name for the same
    addresses in another order, on a name that does not resolve, and on the
    empty name, for which the resolver raises [socket.herror]. *)
Lemma ips_outcomes_witness :
  DBConnectionInformation.ips (Demo.descriptor "b" false) (Demo.hosts_world "a" "b")
  = (Return "10.0.0.2,10.0.0.3", Demo.hosts_world "a" "b")
  /\ fst (DBConnectionInformation.ips (Demo.descriptor "b2" false) (Demo.hosts_world "a" "b"))
     = fst (DBConnectionInformation.ips (Demo.descriptor "b" false) (Demo.hosts_world "a" "b"))
  /\ DBConnectionInformation.ips (Demo.descriptor "nowhere" false) (Demo.hosts_world "a" "b")
     = (Return "Resolution error: Name or service not known", Demo.hosts_world "a" "b")
  /\ DBConnectionInformation.ips (Demo.descriptor EmptyString false) (Demo.hosts_world "a" "b")
     = (Raise Demo.herror, Demo.hosts_world "a" "b")
  /\ ips_returns (Demo.descriptor "nowhere" false) (Demo.hosts_world "a" "b").
Proof.
  destruct (proj1 (ips_outcomes (Demo.descriptor "b" false) (Demo.hosts_world "a" "b"))
              "b" [] ["10.0.0.3"; "10.0.0.2"]) as (Hips & _ & _ & Hset); [reflexivity|].
  split; [rewrite Hips; reflexivity|]. split; [|split; [|split]].
  - apply (Hset (Demo.descriptor "b2" false) (Demo.hosts_world "a" "b")
             "b" ["b2"] ["10.0.0.2"; "10.0.0.3"]); [reflexivity|].
    left. apply Permutation_swap.
  - destruct (proj1 (proj2 (ips_outcomes (Demo.descriptor "nowhere" false)
                              (Demo.hosts_world "a" "b")))
                (-2) "Name or service not known") as [Hres _]; [reflexivity|].
    rewrite Hres. reflexivity.
  - apply (proj1 (proj2 (proj2 (ips_outcomes (Demo.descriptor EmptyString false)
                                  (Demo.hosts_world "a" "b"))))).
    + reflexivity.
    + intros errno strerror. discriminate.
  - apply (proj2 (proj2 (proj2 (ips_outcomes (Demo.descriptor "nowhere" false)
                                  (Demo.hosts_world "a" "b"))))).
    vm_compute. exact I.
Defined.

(** C3 on the three kinds of failure: a host that does not exist, a wrong
    password, a server that is not running (code 2003). *)
Lemma connection_failure_classified_witness :
  fst (DBConnectionInformation.get_cursor (Demo.descriptor "nowhere" true) (Demo.world "a" "b"))
  = Raise (NoConnectionEstablished (Demo.descriptor "nowhere" true)
             "The host [nowhere] does not exist.")
  /\ fst (DBConnectionInformation.get_cursor
            {| self_id := 0; hostname := "a"; username := "scalr"; password := "guess";
               master := false |} (Demo.world "a" "b"))
     = Raise (NoConnectionEstablished
                {| self_id := 0; hostname := "a"; username := "scalr"; password := "guess";
                   master := false |}
                "The username [scalr] or password [guess] is incorrect.")
  /\ fst (DBConnectionInformation.get_cursor (Demo.descriptor "d" true) (Demo.world "a" "b"))
     = Raise (NoConnectionEstablished (Demo.descriptor "d" true)
                "An error occured: Code 2003").
Proof.
  split; [|split].
  - destruct (connection_failure_classified (Demo.descriptor "nowhere" true)
                (Demo.world "a" "b") 2005 "Unknown MySQL server host 'nowhere'"
                Demo.deployment) as [Hcur _]; [vm_compute; reflexivity|].
    rewrite Hcur. reflexivity.
  - destruct (connection_failure_classified
                {| self_id := 0; hostname := "a"; username := "scalr"; password := "guess";
                   master := false |}
                (Demo.world "a" "b") 1045 "Access denied for user 'scalr'"
                Demo.deployment) as [Hcur _]; [vm_compute; reflexivity|].
    rewrite Hcur. reflexivity.
  - destruct (connection_failure_classified (Demo.descriptor "d" true)
                (Demo.world "a" "b") 2003 "Can't connect to MySQL server on 'd'"
                Demo.deployment) as [Hcur _]; [vm_compute; reflexivity|].
    rewrite Hcur. reflexivity.
Defined.

(** C5 on a replica whose server has no database [ScalrTest], on a client
    whose query finds the database gone, and on a replica whose table holds
    two values. *)
Lemma get_values_unknown_database_witness :
  fst (DBConnectionInformation.get_values (Demo.descriptor "b" false) (Demo.world "a" "b"))
  = Return []
  /\ fst (DBConnectionInformation.get_values (MySQLdb0 := Demo.dropped_client)
            (Demo.descriptor "a" false) Demo.lossy_world)
     = Return []
  /\ fst (DBConnectionInformation.get_values (Demo.descriptor "s" false) (Demo.world "a" "b"))
     = Return ["hello"; "world"].
Proof.
  split; [|split].
  - destruct (get_values_unknown_database (Demo.descriptor "b" false) (Demo.world "a" "b"))
      as [Hdb _].
    rewrite (Hdb "Unknown database 'ScalrTest'"
               (snd (DBConnectionInformation.get_cursor (Demo.descriptor "b" false)
                       (Demo.world "a" "b")))); [reflexivity|].
    apply run_eq. vm_compute. reflexivity.
  - destruct (get_values_unknown_database (MySQLdb0 := Demo.dropped_client)
                (Demo.descriptor "a" false) Demo.lossy_world)
      as (_ & Hsel & _).
    set (w1 := snd (DBConnectionInformation.get_cursor (MySQLdb0 := Demo.dropped_client)
                      (Demo.descriptor "a" false) Demo.lossy_world)).
    rewrite (Hsel (cursor 0) w1 "Unknown database 'ScalrTest'" ()).
    + reflexivity.
    + apply run_eq. vm_compute. reflexivity.
    + vm_compute. reflexivity.
  - destruct (get_values_unknown_database (Demo.descriptor "s" false) (Demo.world "a" "b"))
      as (_ & _ & Hvals).
    set (w1 := snd (DBConnectionInformation.get_cursor (Demo.descriptor "s" false)
                      (Demo.world "a" "b"))).
    rewrite (Hvals (cursor 0) w1
               (snd (execute (cursor 0) "SELECT val FROM ScalrValues" None (server w1)))
               ["hello"; "world"]).
    + reflexivity.
    + apply run_eq. vm_compute. reflexivity.
    + apply run_eq. vm_compute. reflexivity.
    + vm_compute. reflexivity.
Defined.

(** C10 on a server that is not running (the classified error of
    [get_cursor] passes through), on a server whose database has no table
    (error 1146 of the query passes through), on a client that loses the
    connection during the query ([OperationalError] 2013 passes through),
    and on the replica without a database, where the error swallowed is the
    1049. *)
Lemma get_values_reraises_witness :
  fst (DBConnectionInformation.get_values (Demo.descriptor "d" false) (Demo.world "a" "b"))
  = Raise (NoConnectionEstablished (Demo.descriptor "d" false) "An error occured: Code 2003")
  /\ fst (DBConnectionInformation.get_values (Demo.descriptor "c" false) (Demo.world "a" "b"))
     = Raise (OtherError "ProgrammingError" 1146 "Table 'ScalrValues' doesn't exist")
  /\ fst (DBConnectionInformation.get_values (MySQLdb0 := Demo.lossy_client)
            (Demo.descriptor "a" false) Demo.lossy_world)
     = Raise (OperationalError 2013 "Lost connection to MySQL server during query")
  /\ exists msg,
      OperationalError 1049 "Unknown database 'ScalrTest'"
      = OperationalError MYSQL_ERROR_CODE_UNKNOWN_DB msg.
Proof.
  split; [|split; [|split]].
  - destruct (get_values_reraises (Demo.descriptor "d" false) (Demo.world "a" "b"))
      as [Hcur _].
    rewrite (Hcur (NoConnectionEstablished (Demo.descriptor "d" false)
                     "An error occured: Code 2003")
               (snd (DBConnectionInformation.get_cursor (Demo.descriptor "d" false)
                       (Demo.world "a" "b")))).
    + reflexivity.
    + apply run_eq. vm_compute. reflexivity.
    + intros msg. discriminate.
  - destruct (get_values_reraises (Demo.descriptor "c" false) (Demo.world "a" "b"))
      as (_ & Hsel & _).
    set (w1 := snd (DBConnectionInformation.get_cursor (Demo.descriptor "c" false)
                      (Demo.world "a" "b"))).
    rewrite (Hsel (cursor 0) w1
               (OtherError "ProgrammingError" 1146 "Table 'ScalrValues' doesn't exist")
               (snd (execute (cursor 0) "SELECT val FROM ScalrValues" None (server w1)))).
    + reflexivity.
    + apply run_eq. vm_compute. reflexivity.
    + apply run_eq. vm_compute. reflexivity.
    + intros msg. discriminate.
  - destruct (get_values_reraises (MySQLdb0 := Demo.lossy_client)
                (Demo.descriptor "a" false) Demo.lossy_world)
      as (_ & _ & Hop & _).
    set (w1 := snd (DBConnectionInformation.get_cursor (MySQLdb0 := Demo.lossy_client)
                      (Demo.descriptor "a" false) Demo.lossy_world)).
    rewrite (Hop (cursor 0) w1 2013 "Lost connection to MySQL server during query" ()).
    + reflexivity.
    + apply run_eq. vm_compute. reflexivity.
    + vm_compute. reflexivity.
    + discriminate.
  - destruct (get_values_reraises (Demo.descriptor "b" false) (Demo.world "a" "b"))
      as (_ & _ & _ & Hswallowed & _).
    apply (Hswallowed (OperationalError 1049 "Unknown database 'ScalrTest'")
             (snd (DBConnectionInformation.get_cursor (Demo.descriptor "b" false)
                     (Demo.world "a" "b")))
             []
             (snd (DBConnectionInformation.get_values (Demo.descriptor "b" false)
                     (Demo.world "a" "b")))).
    + apply run_eq. vm_compute. reflexivity.
    + apply run_eq. vm_compute. reflexivity.
Defined.

(** C6 on a value of 500 characters, inserted on the primary [a]: the
    first 200 are what the [INSERT] carries and what the table holds. *)
Lemma insert_truncates_and_commits_witness :
  String.length Demo.long_value = 500%nat
  /\ String.length (slice_to VALUE_LENGTH Demo.long_value) = 200%nat
  /\ slice_to VALUE_LENGTH Demo.long_value = Demo.replicate_char 200 "x"
  /\ log (snd (DBConnectionInformation.insert (Demo.descriptor "a" true) Demo.long_value
                 (Demo.world "a" "b")))
     = [Connect "a" "scalr" "s3cret";
        Execute (cursor 0) "CREATE DATABASE IF NOT EXISTS ScalrTest" None;
        Execute (cursor 0) "USE ScalrTest" None;
        Execute (cursor 0)
          "CREATE TABLE IF NOT EXISTS ScalrValues (val CHAR(%s) CHARACTER SET utf8 COLLATE utf8_bin)"
          (Some (PyInt 200));
        Execute (cursor 0) "INSERT INTO ScalrValues (val) VALUES (%s)"
          (Some (PyStr (Demo.replicate_char 200 "x")));
        Execute (cursor 0) "COMMIT" None]
  /\ RefServer.stored_values "a"
       (server (snd (DBConnectionInformation.insert (Demo.descriptor "a" true)
                       Demo.long_value (Demo.world "a" "b"))))
     = Some [Demo.replicate_char 200 "x"].
Proof.
  set (w1 := snd (DBConnectionInformation.get_cursor (Demo.descriptor "a" true)
                    (Demo.world "a" "b"))).
  destruct (insert_truncates_and_commits (Demo.descriptor "a" true) Demo.long_value
              (Demo.world "a" "b") (cursor 0) w1)
    as (_ & _ & Hlong & _ & Hok & _); [apply run_eq; vm_compute; reflexivity|].
  destruct Hlong as [Hlen Htake]; [apply Nat.ltb_lt; vm_compute; reflexivity|].
  destruct (Hok (snd (execute (cursor 0) "INSERT INTO ScalrValues (val) VALUES (%s)"
                        (Some (PyStr (slice_to VALUE_LENGTH Demo.long_value))) (server w1))))
    as (_ & Hlog & _); [apply run_eq; vm_compute; reflexivity|].
  split; [vm_compute; reflexivity|].
  split; [exact Hlen|].
  split; [rewrite Htake; vm_compute; reflexivity|].
  split; [rewrite Hlog; vm_compute; reflexivity|].
  vm_compute. reflexivity.
Defined.

(** C7 on a replica connection, which issues [USE ScalrTest] alone, and on
    the primary [a], where the setup is run twice. *)
Lemma schema_setup_only_on_primary_witness :
  (exists issued,
      log (snd (DBConnectionInformation.get_cursor (Demo.descriptor "s" false)
                  (Demo.world "a" "b")))
      = (Connect "s" "scalr" "s3cret"
           :: ((fun st => Execute (cursor 0) (fst st) (snd st)) <$> issued))%list
      /\ issued = [("USE ScalrTest", None)])
  /\ (exists c2 w2,
         DBConnectionInformation.get_cursor (Demo.descriptor "a" true)
           (snd (DBConnectionInformation.get_cursor (Demo.descriptor "a" true)
                   (Demo.world "a" "b")))
         = (Return c2, w2)
         /\ RefServer.hosts (server w2)
            = RefServer.hosts
                (server (snd (DBConnectionInformation.get_cursor (Demo.descriptor "a" true)
                                (Demo.world "a" "b"))))).
Proof.
  destruct schema_setup_only_on_primary as [Hgen Hidem]. split.
  - destruct (Hgen RefServer.t _ (Demo.descriptor "s" false) (Demo.world "a" "b") 0%nat
                (snd (connect "s" "scalr" "s3cret" (server (Demo.world "a" "b")))))
      as (issued & Hlog & _ & _ & _ & _ & Hrep); [apply run_eq; vm_compute; reflexivity|].
    exists issued. split; [exact Hlog | by apply Hrep].
  - apply (Hidem (Demo.descriptor "a" true) (Demo.world "a" "b") _ (cursor 0));
      [reflexivity|].
    apply run_eq. vm_compute. reflexivity.
Defined.

(** * Beyond the claims: the operations as a whole *)

(** ** What reaches the server *)

Section traces.
Context {St : Type} `{!MySQLdb St}.
Implicit Types (self : DBConnectionInformation_t) (w : World St) (c : Cursor).

Lemma execute_all_app c (l1 l2 : list (string * option pyval)) w :
  execute_all c (l1 ++ l2) w = (execute_all c l1;;; execute_all c l2) w.
Proof.
  revert w. induction l1 as [|st l1 IH]; intros w; [reflexivity|].
  simpl. unfold bind in *.
  destruct (cursor_execute c (fst st) (snd st) w) as [[[]|e] w1]; [|reflexivity].
  apply IH.
Qed.

(** Once connected, [insert] is the run of its statements. *)
Lemma insert_connected self (value : string) w conn s1 :
  connect (hostname self) (username self) (password self) (server w) = (Return conn, s1) ->
  DBConnectionInformation.insert self value w
  = execute_all (cursor conn) (write_statements (master self) value)
      (with_call (Connect (hostname self) (username self) (password self)) s1 w).
Proof.
  intros Hconn. unfold DBConnectionInformation.insert, write_statements.
  unfold bind at 1. rewrite (get_cursor_connected _ _ _ _ Hconn).
  rewrite execute_all_app. unfold bind.
  destruct (execute_all (cursor conn) (setup_statements (master self)) _)
    as [[[]|e] w2]; [|reflexivity].
  simpl. unfold bind.
  destruct (cursor_execute (cursor conn) _ _ w2) as [[[]|e] w3]; [|reflexivity].
  by destruct (cursor_execute (cursor conn) "COMMIT" None w3) as [[[]|e] w4].
Qed.

Lemma list_comprehension_getitem0_world (rows : list (list string)) w :
  snd (list_comprehension (St := St) getitem0 rows w) = w.
Proof.
  induction rows as [|row rows IH]; [reflexivity|].
  simpl. unfold bind at 1.
  destruct row as [|x row]; [reflexivity|]. simpl. unfold bind at 1.
  destruct (list_comprehension getitem0 rows w) as [[ys|e] w'] eqn:E; simpl in *;
    by subst.
Qed.

(** Once connected, [get_values] is the run of its statements, followed by
    the handler or by the [else] suite. *)
Lemma get_values_connected self w conn s1 :
  connect (hostname self) (username self) (password self) (server w) = (Return conn, s1) ->
  DBConnectionInformation.get_values self w
  = match execute_all (cursor conn) (read_statements (master self))
            (with_call (Connect (hostname self) (username self) (password self)) s1 w) with
    | (Return _, w2) =>
        list_comprehension getitem0 (fetchall (cursor conn) (server w2)) w2
    | (Raise e, w2) =>
        match e with
        | OperationalError code _ =>
            if code =? MYSQL_ERROR_CODE_UNKNOWN_DB then (Return [], w2) else (Raise e, w2)
        | _ => (Raise e, w2)
        end
    end.
Proof.
  intros Hconn. unfold DBConnectionInformation.get_values, try_except_else, read_statements.
  unfold bind at 1. rewrite (get_cursor_connected _ _ _ _ Hconn).
  rewrite execute_all_app. unfold bind.
  destruct (execute_all (cursor conn) (setup_statements (master self)) _)
    as [[[]|e] w2].
  - simpl. unfold bind.
    destruct (cursor_execute (cursor conn) _ None w2) as [[[]|e] w3]; [reflexivity|].
    destruct e; try reflexivity. by destruct (code =? _).
  - destruct e; try reflexivity. by destruct (code =? _).
Qed.

Lemma get_values_connected_world self w conn s1 :
  connect (hostname self) (username self) (password self) (server w) = (Return conn, s1) ->
  snd (DBConnectionInformation.get_values self w)
  = snd (execute_all (cursor conn) (read_statements (master self))
           (with_call (Connect (hostname self) (username self) (password self)) s1 w)).
Proof.
  intros Hconn. rewrite (get_values_connected _ _ _ _ Hconn).
  destruct (execute_all _ _ _) as [[[]|e] w2]; simpl.
  - apply list_comprehension_getitem0_world.
  - destruct e; try reflexivity. by destruct (code =? _).
Qed.

(** A connect that raises: the three operations end with what [get_cursor]
    raises, and the call to [connect] is all the log gains. *)
Lemma operations_connect_Raise self (value : string) w e s1 :
  connect (hostname self) (username self) (password self) (server w) = (Raise e, s1) ->
  exists e',
    DBConnectionInformation.get_cursor self w
    = (Raise e', with_call (Connect (hostname self) (username self) (password self)) s1 w)
    /\ (forall code msg, e = OperationalError code msg ->
                         e' = NoConnectionEstablished self (diagnostic self (spec_classify code)))
    /\ ((forall code msg, e <> OperationalError code msg) -> e' = e)
    /\ (library_exception e ->
        DBConnectionInformation.get_values self w
        = (Raise e', with_call (Connect (hostname self) (username self) (password self)) s1 w)
        /\ DBConnectionInformation.insert self value w
           = (Raise e', with_call (Connect (hostname self) (username self) (password self)) s1 w)).
Proof.
  intros Hconn.
  assert (Hops : forall e',
             DBConnectionInformation.get_cursor self w
             = (Raise e', with_call (Connect (hostname self) (username self) (password self))
                            s1 w) ->
             (forall code msg, e' <> OperationalError code msg) ->
             DBConnectionInformation.get_values self w
             = (Raise e', with_call (Connect (hostname self) (username self) (password self))
                            s1 w)
             /\ DBConnectionInformation.insert self value w
                = (Raise e', with_call (Connect (hostname self) (username self)
                                          (password self)) s1 w)).
  { intros e' Hcur Hne. split.
    - rewrite (get_values_cursor_Raise _ _ _ _ Hcur).
      destruct e'; try reflexivity. by destruct (Hne code msg).
    - unfold DBConnectionInformation.insert. by rewrite (bind_Raise _ _ _ _ _ Hcur). }
  destruct e.
  3: { exists (NoConnectionEstablished self (diagnostic self (spec_classify code))).
       pose proof (get_cursor_connect_operational _ _ _ _ _ Hconn) as Hcur.
       split; [exact Hcur|]. split; [by intros ? ? [= <- _]|].
       split; [intros Hne; by destruct (Hne code msg)|].
       intros _. by apply Hops. }
  all: eexists; split; [by apply (get_cursor_connect_other _ _ _ _ Hconn)|];
    split; [discriminate|]; split; [done|]; intros Hlib; try by destruct Hlib.
  all: by apply Hops; [apply (get_cursor_connect_other _ _ _ _ Hconn)|].
Qed.

End traces.

(** The statements a run of [execute_all] on a non-empty list issues: a
    non-empty prefix of the list, the whole list if nothing raised. *)
Lemma execute_all_issued {St} `{!MySQLdb St} (c : Cursor)
    (l : list (string * option pyval)) (w : World St) :
  l <> [] ->
  exists issued,
    issued `prefix_of` l
    /\ issued <> []
    /\ log (snd (execute_all c l w))
       = (log w ++ ((fun st => Execute c (fst st) (snd st)) <$> issued))%list
    /\ (forall u, fst (execute_all c l w) = Return u -> issued = l).
Proof.
  intros Hl. destruct (execute_all_outcome c l w) as (issued & Hpre & Hlog & Hend).
  exists issued. split; [done|]. split; [|split; [done|]].
  - destruct (fst (execute_all c l w)); [by subst|].
    destruct Hend as (pre & st & _ & _ & -> & _). by destruct pre.
  - intros u Hu. by rewrite Hu in Hend.
Qed.

Lemma prefix_of_elem_of {A} (l1 l2 : list A) (x : A) :
  l1 `prefix_of` l2 -> x ∈ l1 -> x ∈ l2.
Proof. intros [k ->] Hx. apply elem_of_app. by left. Qed.

(** X1. Whatever the status code, a connection failure surfaces through
    [get_values] and through [insert] as the classified error of
    [get_cursor], carrying the descriptor: code 1049 at connection time is
    not swallowed by [get_values], no statement is executed and nothing is
    inserted; the call to [connect] is the only one made. *)
Theorem connection_failure_surfaces {St} `{!MySQLdb St}
    (self : DBConnectionInformation_t) (value : string) (w : World St)
    (code : Z) (msg : string) (s1 : St) :
  connect (hostname self) (username self) (password self) (server w)
  = (Raise (OperationalError code msg), s1) ->
  DBConnectionInformation.get_values self w
  = (Raise (NoConnectionEstablished self (diagnostic self (spec_classify code))),
     with_call (Connect (hostname self) (username self) (password self)) s1 w)
  /\ DBConnectionInformation.insert self value w
     = (Raise (NoConnectionEstablished self (diagnostic self (spec_classify code))),
        with_call (Connect (hostname self) (username self) (password self)) s1 w)
  /\ log (snd (DBConnectionInformation.get_values self w))
     = (log w ++ [Connect (hostname self) (username self) (password self)])%list
  /\ log (snd (DBConnectionInformation.insert self value w))
     = (log w ++ [Connect (hostname self) (username self) (password self)])%list.
Proof.
  intros Hconn.
  destruct (operations_connect_Raise self value w _ s1 Hconn)
    as (e' & _ & Hop & _ & Hops).
  rewrite (Hop code msg eq_refl) in Hops.
  destruct (Hops I) as [Hget Hins]. rewrite Hget, Hins. done.
Qed.

(** X2. Once connected, the calls [get_values] makes are the [connect]
    followed by a non-empty prefix of its statements in order, all on the
    cursor of the new connection: the setup of the role, then the [SELECT].
    It never issues an [INSERT] or a [COMMIT]; on a replica descriptor it
    issues nothing but [USE ScalrTest] and the [SELECT], so the read path
    creates nothing there; and a non-empty result means all of them ran. *)
Theorem get_values_statements {St} `{!MySQLdb St}
    (self : DBConnectionInformation_t) (w : World St) (conn : nat) (s1 : St) :
  connect (hostname self) (username self) (password self) (server w) = (Return conn, s1) ->
  exists issued,
    issued `prefix_of` read_statements (master self)
    /\ issued <> []
    /\ log (snd (DBConnectionInformation.get_values self w))
       = (log w ++ Connect (hostname self) (username self) (password self)
            :: ((fun st => Execute (cursor conn) (fst st) (snd st)) <$> issued))%list
    /\ (forall st, st ∈ issued ->
                   fst st <> "INSERT INTO ScalrValues (val) VALUES (%s)"
                   /\ fst st <> "COMMIT")
    /\ (master self = false ->
        forall st, st ∈ issued ->
                   st = ("USE ScalrTest", None) \/ st = ("SELECT val FROM ScalrValues", None))
    /\ (forall vals,
           fst (DBConnectionInformation.get_values self w) = Return vals ->
           vals <> [] -> issued = read_statements (master self)).
Proof.
  intros Hconn.
  set (w1 := with_call (Connect (hostname self) (username self) (password self)) s1 w).
  destruct (execute_all_issued (cursor conn) (read_statements (master self)) w1)
    as (issued & Hpre & Hne & Hlog & Hall).
  { unfold read_statements. by destruct (setup_statements (master self)). }
  exists issued. split; [done|]. split; [done|]. split; [|split; [|split]].
  - rewrite (get_values_connected_world _ _ _ _ Hconn). fold w1. rewrite Hlog.
    simpl. by rewrite <- app_assoc.
  - intros st Hst. apply (prefix_of_elem_of _ _ _ Hpre) in Hst.
    unfold read_statements, setup_statements in Hst.
    destruct (master self); simpl in Hst;
      repeat (apply elem_of_cons in Hst as [->|Hst]; [by split|]);
      by apply elem_of_nil in Hst.
  - intros Hrole st Hst. apply (prefix_of_elem_of _ _ _ Hpre) in Hst.
    rewrite Hrole in Hst. unfold read_statements in Hst. simpl in Hst.
    apply elem_of_cons in Hst as [->|Hst]; [by left|].
    apply elem_of_cons in Hst as [->|Hst]; [by right|].
    by apply elem_of_nil in Hst.
  - intros vals Hvals Hnonempty.
    rewrite (get_values_connected _ _ _ _ Hconn) in Hvals. fold w1 in Hvals.
    destruct (execute_all (cursor conn) (read_statements (master self)) w1)
      as [[u|e] w2] eqn:Hrun.
    + by apply (Hall u).
    + destruct e; try discriminate.
      destruct (code =? MYSQL_ERROR_CODE_UNKNOWN_DB); [|discriminate].
      injection Hvals as <-. done.
Qed.

#[local] Instance Execute_inj (c : Cursor) :
  Inj (=) (=) (fun st : string * option pyval => Execute c (fst st) (snd st)).
Proof. intros [q1 a1] [q2 a2] [= -> ->]. reflexivity. Qed.

(** X3. Once connected, the calls [insert] makes are the [connect]
    followed by a non-empty prefix of: the setup of the role, the [INSERT],
    the [COMMIT], all of them when [insert] returns. The value reaches the
    server in one place only, as the parameter of the [INSERT], cut to 200
    characters; the role is not checked: on a replica descriptor the
    [INSERT] is sent as soon as [USE ScalrTest] has returned, and no
    creation statement comes before it. *)
Theorem insert_statements {St} `{!MySQLdb St}
    (self : DBConnectionInformation_t) (value : string) (w : World St)
    (conn : nat) (s1 : St) :
  connect (hostname self) (username self) (password self) (server w) = (Return conn, s1) ->
  exists issued,
    issued `prefix_of` write_statements (master self) value
    /\ issued <> []
    /\ log (snd (DBConnectionInformation.insert self value w))
       = (log w ++ Connect (hostname self) (username self) (password self)
            :: ((fun st => Execute (cursor conn) (fst st) (snd st)) <$> issued))%list
    /\ (fst (DBConnectionInformation.insert self value w) = Return () ->
        issued = write_statements (master self) value)
    /\ (forall st x, st ∈ issued -> snd st = Some (PyStr x) ->
                     fst st = "INSERT INTO ScalrValues (val) VALUES (%s)"
                     /\ x = slice_to VALUE_LENGTH value
                     /\ (String.length x <= 200)%nat)
    /\ (master self = false ->
        (forall st, st ∈ issued -> is_creation st = false)
        /\ forall s2,
            execute (cursor conn) "USE ScalrTest" None s1 = (Return (), s2) ->
            ("INSERT INTO ScalrValues (val) VALUES (%s)",
             Some (PyStr (slice_to VALUE_LENGTH value))) ∈ issued).
Proof.
  intros Hconn.
  set (w1 := with_call (Connect (hostname self) (username self) (password self)) s1 w).
  destruct (execute_all_issued (cursor conn) (write_statements (master self) value) w1)
    as (issued & Hpre & Hne & Hlog & Hall).
  { unfold write_statements. by destruct (setup_statements (master self)). }
  exists issued. split; [done|]. split; [done|].
  rewrite (insert_connected _ _ _ _ _ Hconn). fold w1.
  split; [|split; [|split]].
  - rewrite Hlog. simpl. by rewrite <- app_assoc.
  - apply Hall.
  - intros st x Hst Hx. apply (prefix_of_elem_of _ _ _ Hpre) in Hst.
    unfold write_statements, setup_statements in Hst.
    destruct (master self); simpl in Hst;
      repeat (apply elem_of_cons in Hst as [->|Hst];
              [try discriminate;
               injection Hx as <-; rewrite slice_to_VALUE_LENGTH, string_take_length;
               repeat split; lia|]);
      by apply elem_of_nil in Hst.
  - intros Hrole. rewrite Hrole in *. split.
    + intros st Hst. apply (prefix_of_elem_of _ _ _ Hpre) in Hst.
      unfold write_statements in Hst. simpl in Hst.
      repeat (apply elem_of_cons in Hst as [->|Hst]; [reflexivity|]).
      by apply elem_of_nil in Hst.
    + intros s2 Huse.
      change (write_statements false value)
        with (("USE ScalrTest", None : option pyval)
                :: [("INSERT INTO ScalrValues (val) VALUES (%s)",
                     Some (PyStr (slice_to VALUE_LENGTH value)));
                    ("COMMIT", None)]) in Hlog.
      remember [("INSERT INTO ScalrValues (val) VALUES (%s)",
                 Some (PyStr (slice_to VALUE_LENGTH value)));
                ("COMMIT", None : option pyval)] as rest eqn:Hrest.
      set (w2 := with_call (Execute (cursor conn) "USE ScalrTest" None) s2 w1).
      assert (Hrun : execute_all (cursor conn) (("USE ScalrTest", None) :: rest) w1
                     = execute_all (cursor conn) rest w2).
      { cbn [execute_all fst snd]. unfold bind.
        by rewrite (cursor_execute_Return _ _ _ w1 s2 Huse). }
      destruct (execute_all_issued (cursor conn) rest w2)
        as (issued2 & Hpre2 & Hne2 & Hlog2 & _); [by subst rest|].
      rewrite Hrun, Hlog2 in Hlog. simpl in Hlog.
      rewrite <- app_assoc in Hlog. apply app_inv_head in Hlog.
      apply (list_elem_of_fmap_inj_2 (fun st => Execute (cursor conn) (fst st) (snd st))).
      rewrite <- Hlog. apply elem_of_app. right.
      destruct Hpre2 as [k Hk]. destruct issued2 as [|st tl]; [done|].
      subst rest. injection Hk as <- _. by left.
Qed.

(** ** Where a [NoConnectionEstablished] comes from *)

Section provenance.
Context {St : Type} `{!MySQLdb St}.
Implicit Types (self : DBConnectionInformation_t) (w : World St) (c : Cursor).

Lemma execute_all_Raise_library c (l : list (string * option pyval)) w e w' :
  raises_library_exceptions _ ->
  execute_all c l w = (Raise e, w') -> library_exception e.
Proof.
  intros [_ Hexec] Hrun.
  destruct (execute_all_outcome c l w) as (issued & _ & _ & Hend).
  rewrite Hrun in Hend. simpl in Hend.
  destruct Hend as (pre & st & s & s' & _ & Hraise). by eapply Hexec.
Qed.

Lemma list_comprehension_getitem0_Raise (rows : list (list string)) w e w' :
  list_comprehension getitem0 rows w = (Raise e, w') -> e = IndexError.
Proof.
  revert w'. induction rows as [|row rows IH]; intros w'; [discriminate|].
  simpl. unfold bind at 1. destruct row as [|x row]; simpl.
  - by intros [= <- _].
  - unfold bind at 1.
    destruct (list_comprehension getitem0 rows w) as [[ys|e'] w''] eqn:E.
    + discriminate.
    + intros [= <- <-]. by eapply IH.
Qed.

(** The three operations on one descriptor, when [connect] returned and the
    client raises library exceptions only: none ends with a
    [NoConnectionEstablished]. *)
Lemma connected_never_classified self (value : string) w conn s1 ci err :
  raises_library_exceptions _ ->
  connect (hostname self) (username self) (password self) (server w) = (Return conn, s1) ->
  (forall w', DBConnectionInformation.get_cursor self w
              <> (Raise (NoConnectionEstablished ci err), w'))
  /\ (forall w', DBConnectionInformation.get_values self w
                 <> (Raise (NoConnectionEstablished ci err), w'))
  /\ (forall w', DBConnectionInformation.insert self value w
                 <> (Raise (NoConnectionEstablished ci err), w')).
Proof.
  intros Hlib Hconn. split; [|split]; intros w' Hop.
  - rewrite (get_cursor_connected _ _ _ _ Hconn) in Hop. unfold bind in Hop.
    destruct (execute_all (cursor conn) (setup_statements (master self)) _)
      as [[[]|e] w2] eqn:Hrun; [discriminate|].
    injection Hop as -> _. by apply (execute_all_Raise_library _ _ _ _ _ Hlib) in Hrun.
  - rewrite (get_values_connected _ _ _ _ Hconn) in Hop.
    destruct (execute_all (cursor conn) (read_statements (master self)) _)
      as [[[]|e] w2] eqn:Hrun.
    + by apply list_comprehension_getitem0_Raise in Hop.
    + apply (execute_all_Raise_library _ _ _ _ _ Hlib) in Hrun.
      destruct e; try done; try discriminate.
      destruct (code =? MYSQL_ERROR_CODE_UNKNOWN_DB); discriminate.
  - rewrite (insert_connected _ _ _ _ _ Hconn) in Hop.
    by apply (execute_all_Raise_library _ _ _ _ _ Hlib) in Hop.
Qed.

End provenance.

(** X4. With a client that raises library exceptions only, a
    [NoConnectionEstablished] that [get_cursor], [get_values] or [insert]
    ends with always comes from a failed [connect]: it carries the
    descriptor the operation was called on (hence its role flag) and the
    diagnostic of the status code, and no statement was executed. *)
Theorem connection_error_carries_descriptor {St} (client : MySQLdb St)
    (self : DBConnectionInformation_t) (value : string) (w w' : World St)
    (ci : DBConnectionInformation_t) (err : string) :
  raises_library_exceptions client ->
  (DBConnectionInformation.get_cursor self w = (Raise (NoConnectionEstablished ci err), w') ->
   connect_failure self w ci err w')
  /\ (DBConnectionInformation.get_values self w
      = (Raise (NoConnectionEstablished ci err), w') ->
      connect_failure self w ci err w')
  /\ (DBConnectionInformation.insert self value w
      = (Raise (NoConnectionEstablished ci err), w') ->
      connect_failure self w ci err w').
Proof.
  intros Hlib.
  destruct (connect (hostname self) (username self) (password self) (server w))
    as [[conn|e] s1] eqn:Hconn.
  - destruct (connected_never_classified self value w conn s1 ci err Hlib Hconn)
      as (Hcur & Hget & Hins).
    split; [|split]; intros Hop; exfalso;
      [by apply (Hcur w')|by apply (Hget w')|by apply (Hins w')].
  - destruct (operations_connect_Raise self value w e s1 Hconn)
      as (e' & Hcur & Hop & Hother & Hops).
    destruct (Hops (proj1 Hlib _ _ _ _ _ _ Hconn)) as [Hget Hins].
    assert (Hfail : forall w'', e' = NoConnectionEstablished ci err ->
                w'' = with_call (Connect (hostname self) (username self) (password self))
                        s1 w ->
                connect_failure self w ci err w'').
    { intros w'' He' ->. pose proof (proj1 Hlib _ _ _ _ _ _ Hconn) as Hle.
      destruct e; try done.
      3: { rewrite (Hop code msg eq_refl) in He'. injection He' as <- <-.
           split; [done|]. by exists code, msg, s1. }
      all: rewrite Hother in He' by (intros; discriminate); discriminate. }
    split; [|split]; intros Hraise.
    + rewrite Hcur in Hraise. injection Hraise as He' <-. by apply Hfail.
    + rewrite Hget in Hraise. injection Hraise as He' <-. by apply Hfail.
    + rewrite Hins in Hraise. injection Hraise as He' <-. by apply Hfail.
Qed.

(** ** The resolver and its descriptors *)

Lemma lstrip_no_leading_space (s : string) : starts_with_space (lstrip s) = false.
Proof.
  induction s as [|c r IH]; [reflexivity|]. simpl.
  destruct (isspace c) eqn:Hc; [exact IH|]. simpl. exact Hc.
Qed.

Lemma rstrip_no_trailing_space (s : string) : ends_with_space (rstrip s) = false.
Proof.
  induction s as [|c r IH]; [reflexivity|]. simpl.
  destruct (rstrip r) as [|c' r'] eqn:Hr.
  - destruct (isspace c) eqn:Hc; [reflexivity|]. simpl. exact Hc.
  - exact IH.
Qed.

Lemma rstrip_no_leading_space (s : string) :
  starts_with_space s = false -> starts_with_space (rstrip s) = false.
Proof.
  destruct s as [|c r]; [reflexivity|]. simpl. intros Hc.
  destruct (rstrip r); [by rewrite Hc|exact Hc].
Qed.

Lemma lstrip_id (s : string) : starts_with_space s = false -> lstrip s = s.
Proof. destruct s as [|c r]; [reflexivity|]. simpl. by intros ->. Qed.

Lemma rstrip_id (s : string) : ends_with_space s = false -> rstrip s = s.
Proof.
  induction s as [|c r IH]; [reflexivity|]. intros Hend.
  destruct r as [|c' r'].
  - simpl in *. by rewrite Hend.
  - change (ends_with_space (String c' r') = false) in Hend.
    change (rstrip (String c (String c' r')))
      with (match rstrip (String c' r') with
            | EmptyString => if isspace c then EmptyString else String c EmptyString
            | r'' => String c r''
            end).
    by rewrite (IH Hend).
Qed.

(** What [strip] returns has no whitespace at either end, and [strip]
    leaves it as it is. *)
Lemma strip_trimmed (s : string) :
  starts_with_space (strip s) = false
  /\ ends_with_space (strip s) = false
  /\ strip (strip s) = strip s.
Proof.
  assert (Hstart : starts_with_space (strip s) = false)
    by apply rstrip_no_leading_space, lstrip_no_leading_space.
  assert (Hend : ends_with_space (strip s) = false) by apply rstrip_no_trailing_space.
  repeat split; try done.
  unfold strip at 1. rewrite (lstrip_id _ Hstart). by apply rstrip_id.
Qed.

(** X5. Every attribute of a resolver that the constructor returned is one
    of the four it sets, and its value is trimmed: it neither starts nor ends
    with whitespace (the newline that ends a configuration file is not part
    of the host name), and stripping it again changes nothing. *)
Theorem init_attributes_trimmed {St} (path : string) (w w' : World St)
    (self : ConnectionInfo_t) (attr value : string) :
  ConnectionInfo.__init__ path w = (Return self, w') ->
  self !! attr = Some value ->
  attr ∈ ["username"; "password"; "_master"; "_slave"]
  /\ starts_with_space value = false
  /\ ends_with_space value = false
  /\ strip value = value.
Proof.
  intros Hinit Hattr.
  destruct (init_Return_inv _ _ _ _ Hinit) as (u & p & mh & sh & _ & _ & _ & _ & _ & ->).
  assert (Hcases : (attr = "_slave" /\ value = strip sh)
                   \/ (attr = "_master" /\ value = strip mh)
                   \/ (attr = "password" /\ value = strip p)
                   \/ (attr = "username" /\ value = strip u)).
  { repeat (apply lookup_insert_Some in Hattr as [[<- <-]|[_ Hattr]]; [by eauto|]).
    by rewrite lookup_empty in Hattr. }
  split.
  - destruct Hcases as [[-> _]|[[-> _]|[[-> _]|[-> _]]]];
      repeat first [by left | right].
  - destruct Hcases as [[_ ->]|[[_ ->]|[[_ ->]|[_ ->]]]]; apply strip_trimmed.
Qed.

(** X6. The two properties build a descriptor at each access: two
    accesses in a row, of [master] or of [slave], give two objects with
    consecutive identities, so never the same object, whose attributes are
    the same whenever the role asked for is the same. Nothing is cached. *)
Theorem descriptors_built_at_each_access {St} (path : string) (w0 w0' : World St)
    (self : ConnectionInfo_t) (role1 role2 : bool) (w : World St) :
  ConnectionInfo.__init__ path w0 = (Return self, w0') ->
  exists d1 d2 w1 w2,
    ConnectionInfo._connection_information self role1 w = (Return d1, w1)
    /\ ConnectionInfo._connection_information self role2 w1 = (Return d2, w2)
    /\ self_id d1 = next_id w
    /\ self_id d2 = S (self_id d1)
    /\ next_id w2 = S (S (next_id w))
    /\ username d1 = username d2
    /\ password d1 = password d2
    /\ master d1 = role1
    /\ master d2 = role2
    /\ (role1 = role2 -> hostname d1 = hostname d2)
    /\ instancemethod_eq {| im_self := d1; im_func := "ips" |}
                         {| im_self := d2; im_func := "ips" |} = false.
Proof.
  intros Hinit.
  destruct (init_Return_inv _ _ _ _ Hinit) as (u & p & mh & sh & _ & _ & _ & _ & _ & ->).
  do 4 eexists.
  split; [by apply connection_information_spec|].
  split; [by apply connection_information_spec|].
  simpl. repeat split; try done.
  - by intros ->.
  - unfold instancemethod_eq. simpl. apply Nat.eqb_neq. lia.
Qed.

(** ** The pages *)

Lemma initial_ctx_templates (fl : Flask) :
  initial_ctx fl !! "base_template" = Some (CtxTemplate BASE_TEMPLATE)
  /\ initial_ctx fl !! "connected_template" = Some (CtxTemplate CONNECTED_TEMPLATE)
  /\ initial_ctx fl !! "read_error_template" = Some (CtxTemplate READ_ERROR_TEMPLATE)
  /\ initial_ctx fl !! "write_error_template" = Some (CtxTemplate WRITE_ERROR_TEMPLATE).
Proof.
  split; [vm_compute; reflexivity|].
  split; [vm_compute; reflexivity|].
  split; vm_compute; reflexivity.
Qed.

Lemma initial_ctx_no_connection (fl : Flask) :
  initial_ctx fl !! "connection_info" = None
  /\ initial_ctx fl !! "values" = None
  /\ initial_ctx fl !! "error" = Some (CtxStr EmptyString).
Proof.
  split; [vm_compute; reflexivity|].
  split; vm_compute; reflexivity.
Qed.

Lemma init_missing_Raise {St} (path : string) (w : World St) :
  (exists fname attr,
      (fname, attr) ∈ ConnectionInfo.entries
      /\ fs w !! os_path_join path fname = None) ->
  ConnectionInfo.__init__ path w = (Raise NoConnectionInfo, w).
Proof.
  pose proof (init_outcome path w) as Hout.
  intros (fname & attr & Hin & Hnone).
  unfold ConnectionInfo.entries in Hin.
  repeat (apply elem_of_cons in Hin as [Hin|Hin];
          [injection Hin as -> ->; rewrite Hnone in Hout;
           repeat (destruct (fs w !! _)); exact Hout |]).
  by apply elem_of_nil in Hin.
Qed.

Lemma configured_init {St} (w : World St) (u p mh sh : string) :
  configured w u p mh sh ->
  ConnectionInfo.__init__ CONFIG_PATH w = (Return (resolver_of u p mh sh), w).
Proof.
  intros (Hu & Hp & Hmh & Hsh). pose proof (init_outcome CONFIG_PATH w) as Hout.
  by rewrite Hu, Hp, Hmh, Hsh in Hout.
Qed.

Lemma resolver_of_descriptor {St} (w : World St) (u p mh sh : string) (role : bool) :
  ConnectionInfo._connection_information (resolver_of u p mh sh) role w
  = (Return (descriptor_of w u p (if role then mh else sh) role),
     with_next_id (S (next_id w)) w).
Proof.
  rewrite (connection_information_spec _ role (strip u) (strip p) (strip mh) (strip sh));
    try (unfold resolver_of; by simplify_map_eq).
  unfold descriptor_of. by destruct role.
Qed.

(** What the database operations leave alone: the files, the resolver and
    the identities of the host. *)
Section host.
Context {St : Type} `{!MySQLdb St}.
Implicit Types (self : DBConnectionInformation_t) (w : World St) (c : Cursor).

Lemma keeps_host_ret {A} (a : A) : keeps_host (ret (St := St) a).
Proof. by intros w. Qed.

Lemma keeps_host_raise {A} (e : exn) : keeps_host (raise (St := St) (A := A) e).
Proof. by intros w. Qed.

Lemma keeps_host_bind {A B} (m : M St A) (k : A -> M St B) :
  keeps_host m -> (forall a, keeps_host (k a)) -> keeps_host (bind m k).
Proof.
  intros Hm Hk w. unfold bind. specialize (Hm w).
  destruct (m w) as [[a|e] w1]; simpl in *; [|exact Hm].
  destruct Hm as (Hfs & Hdns & Hid), (Hk a w1) as (Hfs' & Hdns' & Hid').
  split; [congruence|]. split; congruence.
Qed.

Lemma keeps_host_try_except_else {A B} (body : M St A) (handler : exn -> option (M St B))
    (orelse : A -> M St B) :
  keeps_host body -> (forall e h, handler e = Some h -> keeps_host h) ->
  (forall a, keeps_host (orelse a)) ->
  keeps_host (try_except_else body handler orelse).
Proof.
  intros Hbody Hhandler Helse w. unfold try_except_else. specialize (Hbody w).
  destruct (body w) as [[a|e] w1]; simpl in *.
  - destruct Hbody as (Hfs & Hdns & Hid), (Helse a w1) as (Hfs' & Hdns' & Hid').
    split; [congruence|]. split; congruence.
  - destruct (handler e) as [h|] eqn:Hh; [|exact Hbody].
    destruct Hbody as (Hfs & Hdns & Hid), (Hhandler e h Hh w1) as (Hfs' & Hdns' & Hid').
    split; [congruence|]. split; congruence.
Qed.

Lemma keeps_host_try_except {A} (body : M St A) (handler : exn -> option (M St A)) :
  keeps_host body -> (forall e h, handler e = Some h -> keeps_host h) ->
  keeps_host (try_except body handler).
Proof.
  intros Hbody Hhandler.
  by apply (keeps_host_try_except_else body handler ret); [..|apply keeps_host_ret].
Qed.

Lemma keeps_host_connect (host user passwd : string) :
  keeps_host (MySQLdb_connect host user passwd).
Proof. intros w. unfold MySQLdb_connect. by destruct (connect _ _ _ _). Qed.

Lemma keeps_host_execute c (query : string) (args : option pyval) :
  keeps_host (cursor_execute c query args).
Proof. intros w. unfold cursor_execute. by destruct (execute _ _ _ _). Qed.

Lemma get_cursor_keeps_host self : keeps_host (DBConnectionInformation.get_cursor self).
Proof.
  unfold DBConnectionInformation.get_cursor. apply keeps_host_bind.
  - apply keeps_host_try_except; [apply keeps_host_connect|].
    intros e h Hh. destruct e; try discriminate. injection Hh as <-.
    repeat case_match; apply keeps_host_raise.
  - intros conn. apply keeps_host_bind; [|intros; apply keeps_host_ret].
    destruct (master self);
      repeat (apply keeps_host_bind; [apply keeps_host_execute|intros _]);
      apply keeps_host_execute.
Qed.

Lemma get_values_keeps_host self : keeps_host (DBConnectionInformation.get_values self).
Proof.
  unfold DBConnectionInformation.get_values. apply keeps_host_try_except_else.
  - apply keeps_host_bind; [apply get_cursor_keeps_host|]. intros c.
    apply keeps_host_bind; [apply keeps_host_execute|]. intros; apply keeps_host_ret.
  - intros e h Hh. destruct e; try discriminate. injection Hh as <-.
    case_match; [apply keeps_host_ret|apply keeps_host_raise].
  - intros c w. unfold bind, cursor_fetchall.
    by rewrite list_comprehension_getitem0_world.
Qed.

End host.

(** ** Rendering *)

Section rendering.
Context {St : Type}.
Implicit Types (w : World St) (fl : Flask) (ctx : gmap string ctxval).

(** The chain of a template, one parent at a time. *)
Lemma inheritance_root (fuel : nat) ctx :
  inheritance fuel BASE_TEMPLATE ctx = Return [BASE_TEMPLATE].
Proof. by destruct fuel. Qed.

Lemma inheritance_extends (fuel : nat) (t parent : template) ctx (v : string) :
  extends t = Some v -> ctx !! v = Some (CtxTemplate parent) ->
  inheritance (S fuel) t ctx
  = match inheritance fuel parent ctx with
    | Return chain => Return (t :: chain)
    | Raise e => Raise e
    end.
Proof. intros Hextends Hparent. simpl. by rewrite Hextends, Hparent. Qed.

(** A template that renders the body of [BASE_TEMPLATE] or of
    [WRITE_ERROR_TEMPLATE] evaluates variables only. *)
Lemma render_base ctx w :
  render (CtxTemplate BASE_TEMPLATE) ctx w = (Return (Rendered BASE_TEMPLATE ctx), ctx, w).
Proof. reflexivity. Qed.

Lemma render_write_error ctx w :
  ctx !! "base_template" = Some (CtxTemplate BASE_TEMPLATE) ->
  render (CtxTemplate WRITE_ERROR_TEMPLATE) ctx w
  = (Return (Rendered WRITE_ERROR_TEMPLATE ctx), ctx, w).
Proof.
  intros Hbase. unfold render, evaluate.
  by rewrite (inheritance_extends 4 _ BASE_TEMPLATE ctx "base_template"), inheritance_root.
Qed.

(** The two templates that extend [FORM_TEMPLATE] evaluate its status
    list. *)
Lemma render_form_child (t : template) ctx w (v : ctxval) :
  (t = CONNECTED_TEMPLATE /\ exists values, ctx !! "values" = Some (CtxValues values))
  \/ t = READ_ERROR_TEMPLATE ->
  ctx !! "form_template" = Some (CtxTemplate FORM_TEMPLATE) ->
  ctx !! "base_template" = Some (CtxTemplate BASE_TEMPLATE) ->
  ctx !! "connection_info" = Some v ->
  render (CtxTemplate t) ctx w
  = match mysql_status (Some v) w with
    | (Return _, w') => (Return (Rendered t ctx), ctx, w')
    | (Raise e, w') => (Raise e, ctx, w')
    end.
Proof.
  intros Ht Hform Hbase Hci. unfold render, evaluate.
  assert (Hchain : inheritance 5 t ctx = Return [t; FORM_TEMPLATE; BASE_TEMPLATE]).
  { rewrite (inheritance_extends 4 t FORM_TEMPLATE ctx "form_template");
      [|by destruct Ht as [[-> _]| ->]|exact Hform].
    by rewrite (inheritance_extends 3 _ BASE_TEMPLATE ctx "base_template"), inheritance_root. }
  rewrite Hchain, Hci.
  destruct Ht as [[-> [values Hvalues]]| ->];
    cbn [block List.find defines_body defines_data];
    try rewrite Hvalues; cbn [for_values]; unfold bind, ret;
    by destruct (mysql_status (Some v) w) as [[l|e] w'].
Qed.

(** A response [render] returns is a page of its template and context. *)
Lemma render_Return (v : ctxval) ctx w (r : response) ctx' w' :
  render v ctx w = (Return r, ctx', w') -> exists t, v = CtxTemplate t /\ r = Rendered t ctx.
Proof.
  unfold render. destruct v as [t| | |]; try discriminate.
  destruct (evaluate t ctx w) as [[[]|e] w1]; [|discriminate].
  intros [= <- _ _]. by exists t.
Qed.

Lemma jinja_property_resolver w (u p mh sh : string) (role : bool) (name : string) :
  jinja_property (ConnectionInfo._connection_information (resolver_of u p mh sh) role) name w
  = (Return (descriptor_of w u p (if role then mh else sh) role),
     with_next_id (S (next_id w)) w).
Proof. unfold jinja_property, try_except. by rewrite resolver_of_descriptor. Qed.

(** The status list on the resolver of a configured host: six descriptors
    are built, the two host names are resolved, the primary first, and an
    exception [ips] lets through ends the evaluation there. *)
Lemma mysql_status_run w (u p mh sh : string) :
  mysql_status (Some (CtxConnectionInfo (resolver_of u p mh sh))) w
  = match ips_of (gethostbyname_ex w (strip mh)) with
    | Raise e => (Raise e, with_next_id (2 + next_id w)%nat w)
    | Return master_ips =>
        match ips_of (gethostbyname_ex w (strip sh)) with
        | Raise e => (Raise e, with_next_id (4 + next_id w)%nat w)
        | Return slave_ips =>
            (Return [strip u; strip p; strip mh; master_ips; strip sh; slave_ips; "True"],
             with_next_id (6 + next_id w)%nat w)
        end
    end.
Proof.
  unfold mysql_status, ConnectionInfo.master, ConnectionInfo.slave.
  rewrite (bind_Return _ _ _ _ _ (jinja_property_resolver w u p mh sh true "master")).
  rewrite (bind_Return _ _ _ _ _
             (jinja_property_resolver (with_next_id (S (next_id w)) w) u p mh sh true
                "master")).
  unfold bind at 1. rewrite ips_run.
  change (gethostbyname_ex (with_next_id _ _) ?h) with (gethostbyname_ex w h).
  change (hostname (descriptor_of _ u p mh true)) with (strip mh).
  destruct (ips_of (gethostbyname_ex w (strip mh))) as [master_ips|e]; [|reflexivity].
  set (w2 := with_next_id _ (with_next_id _ w)).
  rewrite (bind_Return _ _ _ _ _ (jinja_property_resolver w2 u p mh sh false "slave")).
  rewrite (bind_Return _ _ _ _ _
             (jinja_property_resolver (with_next_id (S (next_id w2)) w2) u p mh sh false
                "slave")).
  unfold bind at 1. rewrite ips_run.
  change (gethostbyname_ex (with_next_id _ _) ?h) with (gethostbyname_ex w h).
  change (hostname (descriptor_of _ u p sh false)) with (strip sh).
  destruct (ips_of (gethostbyname_ex w (strip sh))) as [slave_ips|e]; [|reflexivity].
  set (w4 := with_next_id _ (with_next_id _ w2)).
  unfold bind.
  rewrite (replicating_always_true (resolver_of u p mh sh) (strip u) (strip p) (strip mh)
             (strip sh) w4); [reflexivity|unfold resolver_of; by simplify_map_eq..].
Qed.

(** How the status list ends on a configured host, by what the resolver
    answers for the two host names. *)
Lemma mysql_status_answers w (u p mh sh : string) :
  answers w (strip mh) -> answers w (strip sh) ->
  exists l,
    mysql_status (Some (CtxConnectionInfo (resolver_of u p mh sh))) w
    = (Return l, with_next_id (6 + next_id w)%nat w).
Proof.
  intros [mips Hm]%answers_ips_of [sips Hs]%answers_ips_of.
  rewrite mysql_status_run, Hm, Hs. eauto.
Qed.

Lemma mysql_status_master_Raise w (u p mh sh : string) (e : exn) :
  gethostbyname_ex w (strip mh) = Raise e ->
  (forall errno strerror, e <> gaierror errno strerror) ->
  mysql_status (Some (CtxConnectionInfo (resolver_of u p mh sh))) w
  = (Raise e, with_next_id (2 + next_id w)%nat w).
Proof.
  intros Hres Hne. rewrite mysql_status_run.
  by rewrite (proj2 (ips_of_Raise _ e) (conj Hres Hne)).
Qed.

Lemma mysql_status_slave_Raise w (u p mh sh : string) (e : exn) :
  answers w (strip mh) ->
  gethostbyname_ex w (strip sh) = Raise e ->
  (forall errno strerror, e <> gaierror errno strerror) ->
  mysql_status (Some (CtxConnectionInfo (resolver_of u p mh sh))) w
  = (Raise e, with_next_id (4 + next_id w)%nat w).
Proof.
  intros [mips Hm]%answers_ips_of Hres Hne. rewrite mysql_status_run, Hm.
  by rewrite (proj2 (ips_of_Raise _ e) (conj Hres Hne)).
Qed.

(** An exception of the status list on a configured host is one the
    resolver raised. *)
Lemma mysql_status_Raise w (u p mh sh : string) (e : exn) w' :
  mysql_status (Some (CtxConnectionInfo (resolver_of u p mh sh))) w = (Raise e, w') ->
  exists host, gethostbyname_ex w host = Raise e.
Proof.
  rewrite mysql_status_run.
  destruct (ips_of (gethostbyname_ex w (strip mh))) as [mips|e1] eqn:Hm.
  - destruct (ips_of (gethostbyname_ex w (strip sh))) as [sips|e2] eqn:Hs; [discriminate|].
    intros [= <- _]. exists (strip sh). by apply ips_of_Raise in Hs as [Hs _].
  - intros [= <- _]. exists (strip mh). by apply ips_of_Raise in Hm as [Hm _].
Qed.

(** The contexts of a configured request hold the templates and the
    resolver. *)
Lemma page_ctx_lookup fl (u p mh sh : string) :
  page_ctx fl u p mh sh !! "connection_info" = Some (CtxConnectionInfo (resolver_of u p mh sh))
  /\ page_ctx fl u p mh sh !! "form_template" = Some (CtxTemplate FORM_TEMPLATE)
  /\ page_ctx fl u p mh sh !! "base_template" = Some (CtxTemplate BASE_TEMPLATE)
  /\ page_ctx fl u p mh sh !! "connected_template" = Some (CtxTemplate CONNECTED_TEMPLATE).
Proof.
  unfold page_ctx. split; [by rewrite lookup_insert_eq|].
  rewrite !lookup_insert_ne by done.
  split; [vm_compute; reflexivity|].
  split; [exact (proj1 (initial_ctx_templates fl))|].
  exact (proj1 (proj2 (initial_ctx_templates fl))).
Qed.

(** The page of connected values, rendered on the context [page_get] has
    put the values in. *)
Lemma render_connected fl (u p mh sh : string) (values : list string) w :
  render (CtxTemplate CONNECTED_TEMPLATE)
    (<["values" := CtxValues values]> (page_ctx fl u p mh sh)) w
  = match mysql_status (Some (CtxConnectionInfo (resolver_of u p mh sh))) w with
    | (Return _, w') =>
        (Return (Rendered CONNECTED_TEMPLATE
                   (<["values" := CtxValues values]> (page_ctx fl u p mh sh))),
         <["values" := CtxValues values]> (page_ctx fl u p mh sh), w')
    | (Raise e, w') => (Raise e, <["values" := CtxValues values]> (page_ctx fl u p mh sh), w')
    end.
Proof.
  destruct (page_ctx_lookup fl u p mh sh) as (Hci & Hform & Hbase & _).
  apply render_form_child.
  - left. split; [reflexivity|]. exists values. by rewrite lookup_insert_eq.
  - by rewrite lookup_insert_ne.
  - by rewrite lookup_insert_ne.
  - by rewrite lookup_insert_ne.
Qed.

(** The error page of the role [role], rendered by the handler of [inner]
    on the context of a configured request whose page has raised: the
    write-error page evaluates variables only, the read-error page
    evaluates the status list. *)
Lemma error_page fl (u p mh sh err : string) (role : bool) w :
  (template <~ ctx_getitem (if role then "write_error_template" else "read_error_template");;
   render template) (<["error" := CtxStr err]> (page_ctx fl u p mh sh)) w
  = if role then
      (Return (Rendered WRITE_ERROR_TEMPLATE
                 (<["error" := CtxStr err]> (page_ctx fl u p mh sh))),
       <["error" := CtxStr err]> (page_ctx fl u p mh sh), w)
    else
      match mysql_status (Some (CtxConnectionInfo (resolver_of u p mh sh))) w with
      | (Return _, w') =>
          (Return (Rendered READ_ERROR_TEMPLATE
                     (<["error" := CtxStr err]> (page_ctx fl u p mh sh))),
           <["error" := CtxStr err]> (page_ctx fl u p mh sh), w')
      | (Raise e, w') => (Raise e, <["error" := CtxStr err]> (page_ctx fl u p mh sh), w')
      end.
Proof.
  destruct (page_ctx_lookup fl u p mh sh) as (Hci & Hform & Hbase & _).
  unfold pbind, ctx_getitem.
  assert (Htemplate : forall key : string,
             key <> "error" -> key <> "connection_info" ->
             <["error" := CtxStr err]> (page_ctx fl u p mh sh) !! key = initial_ctx fl !! key).
  { intros key Herr Hconn. unfold page_ctx. by rewrite !lookup_insert_ne. }
  destruct role; rewrite Htemplate by done.
  - rewrite (proj2 (proj2 (proj2 (initial_ctx_templates fl)))).
    apply render_write_error. by rewrite lookup_insert_ne.
  - rewrite (proj1 (proj2 (proj2 (initial_ctx_templates fl)))).
    apply render_form_child; [by right|by rewrite lookup_insert_ne..].
Qed.

End rendering.

Section page_runs.
Context {St : Type} `{!MySQLdb St}.
Implicit Types (w : World St) (fl : Flask).

(** [inner] when the configuration is incomplete. *)
Lemma prepare_page_unconfigured fl (page : PM St response) w :
  ConnectionInfo.__init__ CONFIG_PATH w = (Raise NoConnectionInfo, w) ->
  prepare_page fl page w = (Return (Rendered BASE_TEMPLATE (initial_ctx fl)), w).
Proof.
  intros Hinit. unfold prepare_page, ptry_except_else, pbind, lift. rewrite Hinit.
  unfold ctx_getitem.
  by rewrite (proj1 (initial_ctx_templates fl)), render_base.
Qed.

(** [page_get] on the context of a configured request. *)
Lemma page_get_run fl w (u p mh sh : string) :
  page_get (page_ctx fl u p mh sh) w
  = match DBConnectionInformation.get_values (descriptor_of w u p sh false)
            (with_next_id (S (next_id w)) w) with
    | (Return values, w2) =>
        render (CtxTemplate CONNECTED_TEMPLATE)
          (<["values" := CtxValues values]> (page_ctx fl u p mh sh)) w2
    | (Raise e, w2) => (Raise e, page_ctx fl u p mh sh, w2)
    end.
Proof.
  unfold page_get, pbind, ctx_getitem. unfold page_ctx at 1.
  rewrite lookup_insert_eq. unfold slave_of, lift, ConnectionInfo.slave.
  rewrite resolver_of_descriptor.
  destruct (DBConnectionInformation.get_values _ _) as [[values|e] w2]; [|reflexivity].
  unfold ctx_setitem.
  rewrite lookup_insert_ne by done.
  by rewrite (proj2 (proj2 (proj2 (page_ctx_lookup fl u p mh sh)))).
Qed.

(** [page_post] on the context of a configured request. *)
Lemma page_post_run fl w (u p mh sh : string) :
  page_post fl (page_ctx fl u p mh sh) w
  = match insert_field (descriptor_of w u p mh true) (request_form fl !! "value")
            (with_next_id (S (next_id w)) w) with
    | (Return _, w2) => (Return (Redirect (url_for fl "page_get")), page_ctx fl u p mh sh, w2)
    | (Raise e, w2) => (Raise e, page_ctx fl u p mh sh, w2)
    end.
Proof.
  unfold page_post, pbind, ctx_getitem. unfold page_ctx at 1.
  rewrite lookup_insert_eq. unfold master_of, lift, ConnectionInfo.master.
  rewrite resolver_of_descriptor.
  by destruct (insert_field _ _ _) as [[[]|e] w2].
Qed.

(** [inner] on a configured request, by how the page ends. *)
Lemma prepare_page_configured fl (page : PM St response) w (u p mh sh : string) :
  configured w u p mh sh ->
  prepare_page fl page w
  = match page (page_ctx fl u p mh sh) w with
    | (Return r, _, w') => (Return r, w')
    | (Raise (NoConnectionEstablished d err), ctx', w') =>
        let '(r, _, w'') :=
          (template <~
             ctx_getitem (if master d then "write_error_template" else "read_error_template");;
           render template) (<["error" := CtxStr err]> ctx') w' in
        (r, w'')
    | (Raise e, _, w') => (Raise e, w')
    end.
Proof.
  intros Hconf. unfold prepare_page, ptry_except_else, pbind, lift.
  rewrite (configured_init _ _ _ _ _ Hconf).
  unfold ctx_setitem, ptry_except. fold (page_ctx fl u p mh sh).
  destruct (page (page_ctx fl u p mh sh) w) as [[[r|e] ctx'] w']; [reflexivity|].
  destruct e; try reflexivity.
  unfold ctx_setitem, pbind. by destruct (master connection_info).
Qed.

End page_runs.

Section page_operations.
Context {St : Type} `{!MySQLdb St}.
Implicit Types (self : DBConnectionInformation_t) (w : World St) (fl : Flask).

Lemma insert_field_cursor_Raise self (field : option string) w e w' :
  DBConnectionInformation.get_cursor self w = (Raise e, w') ->
  insert_field self field w = (Raise e, w').
Proof.
  intros Hcur. destruct field as [v|]; simpl.
  - unfold DBConnectionInformation.insert. by rewrite (bind_Raise _ _ _ _ _ Hcur).
  - by rewrite (bind_Raise _ _ _ _ _ Hcur).
Qed.

(** With a client that raises library exceptions only, the classified
    error of a read or of a write carries the descriptor it was called on. *)
Lemma classified_is_own self (field : option string) w ci err w' :
  raises_library_exceptions _ ->
  (DBConnectionInformation.get_values self w = (Raise (NoConnectionEstablished ci err), w') ->
   ci = self)
  /\ (insert_field self field w = (Raise (NoConnectionEstablished ci err), w') ->
      ci = self).
Proof.
  intros Hlib.
  destruct (connect (hostname self) (username self) (password self) (server w))
    as [[conn|e] s1] eqn:Hconn.
  - destruct (connected_never_classified self (default EmptyString field) w conn s1 ci err
                Hlib Hconn) as (Hcur & Hget & Hins).
    split; intros Hop; exfalso; [by apply (Hget w')|].
    destruct field as [v|]; simpl in Hop; [by apply (Hins w')|].
    unfold bind in Hop.
    destruct (DBConnectionInformation.get_cursor self w) as [[c|e] w2] eqn:Hc;
      [discriminate|].
    injection Hop as -> ->. by apply (Hcur w').
  - destruct (operations_connect_Raise self (default EmptyString field) w e s1 Hconn)
      as (e' & Hcur & Hop & Hother & Hops).
    pose proof (proj1 Hlib _ _ _ _ _ _ Hconn) as Hle.
    destruct (Hops Hle) as [Hget _].
    assert (Hown : e' = NoConnectionEstablished ci err -> ci = self).
    { intros He'. destruct e; try done.
      3: { rewrite (Hop code msg eq_refl) in He'. by injection He' as <- _. }
      all: rewrite Hother in He' by (intros; discriminate); discriminate. }
    split; intros Hraise.
    + rewrite Hget in Hraise. injection Hraise as He' _. by apply Hown.
    + rewrite (insert_field_cursor_Raise _ _ _ _ _ Hcur) in Hraise.
      injection Hraise as He' _. by apply Hown.
Qed.

(** The decorated [GET] view on a configured host when the read returns:
    the connected page, unless its status list raises. *)
Lemma view_get_values fl w (u p mh sh : string) (values : list string) w2 :
  configured w u p mh sh ->
  DBConnectionInformation.get_values (descriptor_of w u p sh false)
    (with_next_id (S (next_id w)) w) = (Return values, w2) ->
  match mysql_status (Some (CtxConnectionInfo (resolver_of u p mh sh))) w2 with
  | (Return _, w3) =>
      prepare_page fl page_get w
      = (Return (Rendered CONNECTED_TEMPLATE
                   (<["values" := CtxValues values]> (page_ctx fl u p mh sh))), w3)
  | (Raise e, w3) => library_exception e -> prepare_page fl page_get w = (Raise e, w3)
  end.
Proof.
  intros Hconf Hget.
  rewrite (prepare_page_configured _ _ _ _ _ _ _ Hconf), page_get_run, Hget, render_connected.
  destruct (mysql_status _ w2) as [[l|e] w3]; [reflexivity|].
  intros Hlib. by destruct e.
Qed.

(** The decorated [GET] view on a configured host when the read raises. *)
Lemma view_get_Raise fl w (u p mh sh : string) (e : exn) w2 :
  configured w u p mh sh ->
  DBConnectionInformation.get_values (descriptor_of w u p sh false)
    (with_next_id (S (next_id w)) w) = (Raise e, w2) ->
  prepare_page fl page_get w
  = match e with
    | NoConnectionEstablished ci err =>
        if master ci then
          (Return (Rendered WRITE_ERROR_TEMPLATE
                     (<["error" := CtxStr err]> (page_ctx fl u p mh sh))), w2)
        else
          match mysql_status (Some (CtxConnectionInfo (resolver_of u p mh sh))) w2 with
          | (Return _, w3) =>
              (Return (Rendered READ_ERROR_TEMPLATE
                         (<["error" := CtxStr err]> (page_ctx fl u p mh sh))), w3)
          | (Raise e', w3) => (Raise e', w3)
          end
    | _ => (Raise e, w2)
    end.
Proof.
  intros Hconf Hget.
  rewrite (prepare_page_configured _ _ _ _ _ _ _ Hconf), page_get_run, Hget.
  destruct e; try reflexivity. rewrite error_page.
  destruct (master connection_info); [reflexivity|].
  by destruct (mysql_status _ w2) as [[l|e'] w3].
Qed.

(** The decorated [POST] view on a configured host, by how the write ends. *)
Lemma view_post fl w (u p mh sh : string) :
  configured w u p mh sh ->
  prepare_page fl (page_post fl) w
  = match insert_field (descriptor_of w u p mh true) (request_form fl !! "value")
            (with_next_id (S (next_id w)) w) with
    | (Return _, w2) => (Return (Redirect (url_for fl "page_get")), w2)
    | (Raise (NoConnectionEstablished ci err), w2) =>
        if master ci then
          (Return (Rendered WRITE_ERROR_TEMPLATE
                     (<["error" := CtxStr err]> (page_ctx fl u p mh sh))), w2)
        else
          match mysql_status (Some (CtxConnectionInfo (resolver_of u p mh sh))) w2 with
          | (Return _, w3) =>
              (Return (Rendered READ_ERROR_TEMPLATE
                         (<["error" := CtxStr err]> (page_ctx fl u p mh sh))), w3)
          | (Raise e', w3) => (Raise e', w3)
          end
    | (Raise e, w2) => (Raise e, w2)
    end.
Proof.
  intros Hconf. rewrite (prepare_page_configured _ _ _ _ _ _ _ Hconf), page_post_run.
  destruct (insert_field _ _ _) as [[[]|e] w2]; [reflexivity|].
  destruct e; try reflexivity. rewrite error_page.
  destruct (master connection_info); [reflexivity|].
  by destruct (mysql_status _ w2) as [[l|e'] w3].
Qed.

(** What the [GET] view returns is a page: [page_get] and the handler of
    [inner] return what [render] returns. *)
Lemma view_get_Return fl w (u p mh sh : string) (r : response) :
  configured w u p mh sh ->
  fst (prepare_page fl page_get w) = Return r -> exists t ctx, r = Rendered t ctx.
Proof.
  intros Hconf. rewrite (prepare_page_configured _ _ _ _ _ _ _ Hconf), page_get_run.
  assert (Hhandler : forall (key : string) (ctx : gmap string ctxval) w1,
             fst (let '(r', _, w'') := (template <~ ctx_getitem key;; render template) ctx w1 in
                  (r', w'')) = Return r ->
             exists t ctx, r = Rendered t ctx).
  { intros key ctx w1. unfold pbind, ctx_getitem.
    destruct (ctx !! key) as [v|]; [|discriminate].
    destruct (render v ctx w1) as [[[r'|e] ctx'] w2] eqn:Hrender; [|discriminate].
    simpl. intros [= ->].
    apply render_Return in Hrender as (t & _ & ->). eauto. }
  destruct (DBConnectionInformation.get_values _ _) as [[values|e] w2].
  - destruct (render _ _ w2) as [[[r'|e] ctx'] w3] eqn:Hrender.
    + simpl. intros [= ->]. apply render_Return in Hrender as (t & _ & ->). eauto.
    + destruct e; try discriminate. apply Hhandler.
  - destruct e; try discriminate. apply Hhandler.
Qed.

End page_operations.

(** X7. A request on a host where one of the four configuration files is
    missing is answered with the base template (the page that tells to run
    SetMySQLParams), rendered from the initial context, which holds no
    connection information; this holds for every page function, which is
    never called, and the database is not contacted: the world is as it
    was. *)
Theorem unconfigured_request_renders_base {St} `{!MySQLdb St} (fl : Flask)
    (page : PM St response) (w : World St) :
  (exists fname attr,
      (fname, attr) ∈ ConnectionInfo.entries
      /\ fs w !! os_path_join CONFIG_PATH fname = None) ->
  prepare_page fl page w = (Return (Rendered BASE_TEMPLATE (initial_ctx fl)), w)
  /\ initial_ctx fl !! "connection_info" = None
  /\ initial_ctx fl !! "error" = Some (CtxStr EmptyString).
Proof.
  intros Hmissing. split.
  - apply prepare_page_unconfigured. by apply init_missing_Raise.
  - split; apply initial_ctx_no_connection.
Qed.

(** X8. On a configured host, when the connection to the replica fails
    with an [OperationalError], the handler of [inner] renders the
    read-error template with the diagnostic of the status code for the
    replica descriptor as [error], and the failed [connect] is the only
    call made to the client. Rendering that template evaluates the status
    list of the form template, which builds six more descriptors and
    resolves the two host names. So the response is the read-error page
    when the resolver answers for both names with addresses or with a
    [gaierror]; when it raises an exception of another class for the
    primary host name, or for the replica host name after it has answered
    for the primary, the request ends with that exception and no page. *)
Theorem page_get_connection_failure {St} `{!MySQLdb St} (fl : Flask) (w : World St)
    (u p mh sh : string) (code : Z) (msg : string) (s1 : St) :
  configured w u p mh sh ->
  connect (strip sh) (strip u) (strip p) (server w) = (Raise (OperationalError code msg), s1) ->
  log (snd (prepare_page fl page_get w))
  = (log w ++ [Connect (strip sh) (strip u) (strip p)])%list
  /\ (answers w (strip mh) -> answers w (strip sh) ->
      prepare_page fl page_get w
      = (Return (Rendered READ_ERROR_TEMPLATE
                   (<["error" := CtxStr (diagnostic (descriptor_of w u p sh false)
                                           (spec_classify code))]>
                      (page_ctx fl u p mh sh))),
         with_call (Connect (strip sh) (strip u) (strip p)) s1
           (with_next_id (7 + next_id w)%nat w)))
  /\ (forall e,
         gethostbyname_ex w (strip mh) = Raise e ->
         (forall errno strerror, e <> gaierror errno strerror) ->
         prepare_page fl page_get w
         = (Raise e, with_call (Connect (strip sh) (strip u) (strip p)) s1
                       (with_next_id (3 + next_id w)%nat w)))
  /\ (forall e,
         answers w (strip mh) ->
         gethostbyname_ex w (strip sh) = Raise e ->
         (forall errno strerror, e <> gaierror errno strerror) ->
         prepare_page fl page_get w
         = (Raise e, with_call (Connect (strip sh) (strip u) (strip p)) s1
                       (with_next_id (5 + next_id w)%nat w))).
Proof.
  intros Hconf Hconn.
  set (d := descriptor_of w u p sh false).
  set (w1 := with_call (Connect (strip sh) (strip u) (strip p)) s1
               (with_next_id (S (next_id w)) w)).
  assert (Hget : DBConnectionInformation.get_values d (with_next_id (S (next_id w)) w)
                 = (Raise (NoConnectionEstablished d (diagnostic d (spec_classify code))),
                    w1)).
  { pose proof (get_cursor_connect_operational d (with_next_id (S (next_id w)) w)
                  code msg s1 Hconn) as Hcur.
    by rewrite (get_values_cursor_Raise _ _ _ _ Hcur). }
  pose proof (view_get_Raise fl w u p mh sh _ _ Hconf Hget) as Hview.
  change (master d) with false in Hview. cbv beta iota in Hview.
  split; [|split; [|split]].
  - rewrite Hview, mysql_status_run.
    repeat (destruct (ips_of _) as [?|?]); reflexivity.
  - intros Hm Hs. destruct (mysql_status_answers w1 u p mh sh Hm Hs) as [l Hstatus].
    by rewrite Hview, Hstatus.
  - intros e Hres Hne.
    by rewrite Hview, (mysql_status_master_Raise w1 u p mh sh e Hres Hne).
  - intros e Hm Hres Hne.
    by rewrite Hview, (mysql_status_slave_Raise w1 u p mh sh e Hm Hres Hne).
Qed.

(** X9. On a configured host, when the connection to the primary fails
    with an [OperationalError], the [POST] page is the write-error
    template with the diagnostic of the status code for the primary
    descriptor, whatever the form holds, a missing [value] field included;
    the failed [connect] is the only call made, so nothing is inserted. *)
Theorem page_post_connection_failure {St} `{!MySQLdb St} (fl : Flask) (w : World St)
    (u p mh sh : string) (code : Z) (msg : string) (s1 : St) :
  configured w u p mh sh ->
  connect (strip mh) (strip u) (strip p) (server w) = (Raise (OperationalError code msg), s1) ->
  prepare_page fl (page_post fl) w
  = (Return (Rendered WRITE_ERROR_TEMPLATE
               (<["error" := CtxStr (diagnostic (descriptor_of w u p mh true)
                                       (spec_classify code))]>
                  (page_ctx fl u p mh sh))),
     with_call (Connect (strip mh) (strip u) (strip p)) s1 (with_next_id (S (next_id w)) w)).
Proof.
  intros Hconf Hconn.
  rewrite (view_post fl w u p mh sh Hconf).
  set (d := descriptor_of w u p mh true).
  pose proof (get_cursor_connect_operational d (with_next_id (S (next_id w)) w)
                code msg s1 Hconn) as Hcur.
  by rewrite (insert_field_cursor_Raise _ _ _ _ _ Hcur).
Qed.

(** X10. On a configured host, when [get_values] returns for the replica
    descriptor, the [GET] view renders the connected template with exactly
    the values it returned. Rendering evaluates the status list of the form
    template, which builds six more descriptors and resolves the two host
    names: the response is the connected page when the resolver answers
    for both names with addresses or with a [gaierror], and the request
    ends with the exception of the resolver, and no page, when it raises a
    library exception of another class for one of them. In particular,
    when the replica accepts the connection and has no database yet ([USE
    ScalrTest] raises 1049) and the names resolve, the page is the
    connected template with no values, not an error page, after the two
    calls [connect] and [USE]. *)
Theorem page_get_shows_values {St} `{!MySQLdb St} (fl : Flask) (w : World St)
    (u p mh sh : string) :
  configured w u p mh sh ->
  (forall values w2,
      DBConnectionInformation.get_values (descriptor_of w u p sh false)
        (with_next_id (S (next_id w)) w) = (Return values, w2) ->
      (answers w (strip mh) -> answers w (strip sh) ->
       prepare_page fl page_get w
       = (Return (Rendered CONNECTED_TEMPLATE
                    (<["values" := CtxValues values]> (page_ctx fl u p mh sh))),
          with_next_id (7 + next_id w)%nat w2))
      /\ (forall e,
             gethostbyname_ex w (strip mh) = Raise e ->
             (forall errno strerror, e <> gaierror errno strerror) ->
             library_exception e ->
             prepare_page fl page_get w = (Raise e, with_next_id (3 + next_id w)%nat w2))
      /\ (forall e,
             answers w (strip mh) ->
             gethostbyname_ex w (strip sh) = Raise e ->
             (forall errno strerror, e <> gaierror errno strerror) ->
             library_exception e ->
             prepare_page fl page_get w = (Raise e, with_next_id (5 + next_id w)%nat w2)))
  /\ (forall conn s1 msg s2,
         connect (strip sh) (strip u) (strip p) (server w) = (Return conn, s1) ->
         execute (cursor conn) "USE ScalrTest" None s1
         = (Raise (OperationalError MYSQL_ERROR_CODE_UNKNOWN_DB msg), s2) ->
         answers w (strip mh) -> answers w (strip sh) ->
         exists w2,
           prepare_page fl page_get w
           = (Return (Rendered CONNECTED_TEMPLATE
                        (<["values" := CtxValues []]> (page_ctx fl u p mh sh))), w2)
           /\ log w2 = (log w ++ [Connect (strip sh) (strip u) (strip p);
                                  Execute (cursor conn) "USE ScalrTest" None])%list).
Proof.
  intros Hconf.
  set (d := descriptor_of w u p sh false).
  set (w1 := with_next_id (S (next_id w)) w).
  assert (Hshow : forall values w2,
             DBConnectionInformation.get_values d w1 = (Return values, w2) ->
             gethostbyname_ex w2 = gethostbyname_ex w
             /\ next_id w2 = S (next_id w)
             /\ match mysql_status (Some (CtxConnectionInfo (resolver_of u p mh sh))) w2 with
                | (Return _, w3) =>
                    prepare_page fl page_get w
                    = (Return (Rendered CONNECTED_TEMPLATE
                                 (<["values" := CtxValues values]> (page_ctx fl u p mh sh))),
                       w3)
                | (Raise e, w3) =>
                    library_exception e -> prepare_page fl page_get w = (Raise e, w3)
                end).
  { intros values w2 Hget.
    destruct (get_values_keeps_host d w1) as (_ & Hdns & Hid). rewrite Hget in Hdns, Hid.
    split; [exact Hdns|]. split; [exact Hid|].
    exact (view_get_values fl w u p mh sh values w2 Hconf Hget). }
  split.
  - intros values w2 Hget. destruct (Hshow values w2 Hget) as (Hdns & Hid & Hview).
    split; [|split].
    + intros Hm Hs.
      destruct (mysql_status_answers w2 u p mh sh) as [l Hstatus];
        [unfold answers; by rewrite Hdns..|].
      rewrite Hstatus, Hid in Hview. exact Hview.
    + intros e Hres Hne Hlib.
      rewrite (mysql_status_master_Raise w2 u p mh sh e) in Hview;
        [|by rewrite Hdns|exact Hne].
      rewrite Hid in Hview. by apply Hview.
    + intros e Hm Hres Hne Hlib.
      rewrite (mysql_status_slave_Raise w2 u p mh sh e) in Hview;
        [|unfold answers; by rewrite Hdns|by rewrite Hdns|exact Hne].
      rewrite Hid in Hview. by apply Hview.
  - intros conn s1 msg s2 Hconn Huse Hm Hs.
    assert (Hcur : DBConnectionInformation.get_cursor d w1
                   = (Raise (OperationalError MYSQL_ERROR_CODE_UNKNOWN_DB msg),
                      with_call (Execute (cursor conn) "USE ScalrTest" None) s2
                        (with_call (Connect (strip sh) (strip u) (strip p)) s1 w1))).
    { rewrite (get_cursor_connected d w1 conn s1 Hconn). change (master d) with false.
      cbn [setup_statements execute_all fst snd]. unfold bind.
      by rewrite (cursor_execute_Raise _ _ _
                    (with_call (Connect (hostname d) (username d) (password d)) s1 w1)
                    _ s2 Huse). }
    pose proof (get_values_cursor_Raise _ _ _ _ Hcur) as Hget. simpl in Hget.
    destruct (Hshow _ _ Hget) as (Hdns & Hid & Hview).
    destruct (mysql_status_answers
                (with_call (Execute (cursor conn) "USE ScalrTest" None) s2
                   (with_call (Connect (strip sh) (strip u) (strip p)) s1 w1))
                u p mh sh Hm Hs) as [l Hstatus].
    rewrite Hstatus in Hview. eexists. split; [exact Hview|].
    simpl. by rewrite <- app_assoc.
Qed.

(** X11. On a configured host, a [POST] whose form holds [value], when
    the primary accepts the connection and [insert] returns, is answered
    with a redirect to the [GET] page; the calls made are the [connect]
    followed by all the write statements of the primary role: the setup,
    the [INSERT] of the first 200 characters of [value], the [COMMIT]. *)
Theorem page_post_redirects {St} `{!MySQLdb St} (fl : Flask) (w : World St)
    (u p mh sh value : string) (conn : nat) (s1 : St) (w2 : World St) :
  configured w u p mh sh ->
  request_form fl !! "value" = Some value ->
  connect (strip mh) (strip u) (strip p) (server w) = (Return conn, s1) ->
  DBConnectionInformation.insert (descriptor_of w u p mh true) value
    (with_next_id (S (next_id w)) w) = (Return (), w2) ->
  prepare_page fl (page_post fl) w = (Return (Redirect (url_for fl "page_get")), w2)
  /\ log w2
     = (log w ++ Connect (strip mh) (strip u) (strip p)
          :: ((fun st => Execute (cursor conn) (fst st) (snd st))
                <$> write_statements true value))%list.
Proof.
  intros Hconf Hvalue Hconn Hins. split.
  - rewrite (view_post fl w u p mh sh Hconf), Hvalue.
    simpl. by rewrite Hins.
  - set (d := descriptor_of w u p mh true) in *.
    set (w1 := with_next_id (S (next_id w)) w) in *.
    rewrite (insert_connected d value w1 conn s1 Hconn) in Hins.
    destruct (execute_all_issued (cursor conn) (write_statements (master d) value)
                (with_call (Connect (hostname d) (username d) (password d)) s1 w1))
      as (issued & _ & _ & Hlog & Hall); [done|].
    rewrite Hins in Hlog, Hall. rewrite (Hall () eq_refl) in Hlog.
    simpl in Hlog. rewrite Hlog. by rewrite <- app_assoc.
Qed.

(** X12. On a configured host, a [POST] whose form has no [value] field,
    when the primary lets [get_cursor] return, ends with a [TypeError] that
    no [except] clause of [inner] catches: no page is rendered, and the
    error comes after the connection was opened and the schema set up, the
    world being the one [get_cursor] left. *)
Theorem page_post_missing_field {St} `{!MySQLdb St} (fl : Flask) (w : World St)
    (u p mh sh : string) (c : Cursor) (w2 : World St) :
  configured w u p mh sh ->
  request_form fl !! "value" = None ->
  DBConnectionInformation.get_cursor (descriptor_of w u p mh true)
    (with_next_id (S (next_id w)) w) = (Return c, w2) ->
  prepare_page fl (page_post fl) w
  = (Raise (OtherError "TypeError" 0 "'NoneType' object has no attribute '__getitem__'"),
     w2).
Proof.
  intros Hconf Hvalue Hcur.
  rewrite (view_post fl w u p mh sh Hconf), Hvalue.
  simpl. by rewrite (bind_Return _ _ _ _ _ Hcur).
Qed.

(** X13. On a configured host, an exception of the query of the [GET]
    page other than the unknown-database error and other than the
    program's own classes is rendered by no template: it leaves [inner] as
    it was raised (so an [OperationalError] with another code, or the
    missing table of a replica that has the database, is an unhandled
    error of the request). *)
Theorem page_get_unhandled_query_error {St} `{!MySQLdb St} (fl : Flask) (w : World St)
    (u p mh sh : string) (c : Cursor) (w2 : World St) (e : exn) (s3 : St) :
  configured w u p mh sh ->
  DBConnectionInformation.get_cursor (descriptor_of w u p sh false)
    (with_next_id (S (next_id w)) w) = (Return c, w2) ->
  execute c "SELECT val FROM ScalrValues" None (server w2) = (Raise e, s3) ->
  (forall msg, e <> OperationalError MYSQL_ERROR_CODE_UNKNOWN_DB msg) ->
  library_exception e ->
  prepare_page fl page_get w
  = (Raise e, with_call (Execute c "SELECT val FROM ScalrValues" None) s3 w2).
Proof.
  intros Hconf Hcur Hsel Hne Hlib.
  assert (Hget : DBConnectionInformation.get_values (descriptor_of w u p sh false)
                   (with_next_id (S (next_id w)) w)
                 = (Raise e, with_call (Execute c "SELECT val FROM ScalrValues" None) s3 w2)).
  { rewrite (get_values_select_Raise _ _ _ _ _ _ Hcur Hsel).
    destruct e; try done.
    destruct (Z.eqb_spec code MYSQL_ERROR_CODE_UNKNOWN_DB); [|done].
    subst. by destruct (Hne msg). }
  rewrite (view_get_Raise fl w u p mh sh _ _ Hconf Hget). by destruct e.
Qed.

(** X14. On a configured host and with a client that raises library
    exceptions only, each view renders templates of its own path only: the
    page of a [GET] is the connected template or the read-error template,
    never the write-error one, the resolver too raising library exceptions
    only (the status list of the connected page calls it inside the [try]
    block of [inner]); a [POST] is answered with the redirect or with the
    write-error template, never with the read-error or the connected one.
    Any other end is an exception that leaves [inner]. *)
Theorem views_render_their_own_templates {St} (client : MySQLdb St) (fl : Flask)
    (w : World St) (u p mh sh : string) :
  raises_library_exceptions client ->
  configured w u p mh sh ->
  (library_resolver w ->
   forall t, rendered_template (fst (prepare_page fl page_get w)) = Some t ->
             t = CONNECTED_TEMPLATE \/ t = READ_ERROR_TEMPLATE)
  /\ (forall r, fst (prepare_page fl page_get w) = Return r -> exists t ctx, r = Rendered t ctx)
  /\ (forall t, rendered_template (fst (prepare_page fl (page_post fl) w)) = Some t ->
                t = WRITE_ERROR_TEMPLATE)
  /\ (forall location, fst (prepare_page fl (page_post fl) w) = Return (Redirect location) ->
                       location = url_for fl "page_get").
Proof.
  intros Hlib Hconf.
  set (w1 := with_next_id (S (next_id w)) w).
  split; [|split; [intros r; by apply (view_get_Return fl w u p mh sh)|]].
  - intros Hresolver t.
    destruct (DBConnectionInformation.get_values (descriptor_of w u p sh false) w1)
      as [[values|eg] wg] eqn:Hget.
    + pose proof (view_get_values fl w u p mh sh values wg Hconf Hget) as Hview.
      destruct (mysql_status _ wg) as [[l|e] w3] eqn:Hstatus.
      * rewrite Hview. simpl. intros [= <-]. by left.
      * apply mysql_status_Raise in Hstatus as [host Hres].
        destruct (get_values_keeps_host (descriptor_of w u p sh false) w1) as (_ & Hdns & _).
        rewrite Hget in Hdns. simpl in Hdns. rewrite Hdns in Hres.
        rewrite Hview by exact (Hresolver host e Hres). discriminate.
    + rewrite (view_get_Raise fl w u p mh sh _ _ Hconf Hget).
      destruct eg; try discriminate.
      apply (proj1 (classified_is_own _ None _ _ _ _ Hlib)) in Hget. subst connection_info.
      change (master (descriptor_of w u p sh false)) with false. cbv beta iota.
      destruct (mysql_status _ wg) as [[l|e] w3]; [|discriminate].
      simpl. intros [= <-]. by right.
  - rewrite (view_post fl w u p mh sh Hconf). fold w1.
    destruct (insert_field (descriptor_of w u p mh true) (request_form fl !! "value") w1)
      as [[[]|ep] wp] eqn:Hpost.
    all: try (destruct ep; try (apply (proj2 (classified_is_own _ _ _ _ _ _ Hlib)) in Hpost;
                                 subst connection_info)).
    all: simpl; split; intros; simplify_eq; eauto.
Qed.

(** ** Writing, then reading, on the reference server *)

Section round_trip.
Import RefServer.
Implicit Types (w : World RefServer.t) (self : DBConnectionInformation_t)
  (i : instance) (s : RefServer.t) (ss : session) (c : Cursor).

Lemma ref_insert c s ss i db tables rows (x : string) :
  sessions s !! connection c = Some ss -> hosts s !! peer ss = Some i ->
  table_of i ss "ScalrValues" = inr (db, tables, rows) ->
  execute c "INSERT INTO ScalrValues (val) VALUES (%s)" (Some (PyStr x)) s
  = (Return (),
     set_databases (peer ss) i
       (<[db := <["ScalrValues" := (rows ++ [x])%list]> tables]> (databases i)) s).
Proof.
  intros Hss Hi Htable. change execute with ref_execute. unfold ref_execute.
  rewrite Hss, Hi. simpl. by rewrite Htable.
Qed.

Lemma ref_commit c s ss i :
  sessions s !! connection c = Some ss -> hosts s !! peer ss = Some i ->
  execute c "COMMIT" None s = (Return (), s).
Proof.
  intros Hss Hi. change execute with ref_execute. unfold ref_execute.
  by rewrite Hss, Hi.
Qed.

Lemma ref_select c s ss i db tables rows :
  sessions s !! connection c = Some ss -> hosts s !! peer ss = Some i ->
  table_of i ss "ScalrValues" = inr (db, tables, rows) ->
  execute c "SELECT val FROM ScalrValues" None s
  = (Return (),
     set_session c {| peer := peer ss; current_db := current_db ss;
                      result_set := (fun v => [v]) <$> rows |} s).
Proof.
  intros Hss Hi Htable. change execute with ref_execute. unfold ref_execute.
  rewrite Hss, Hi. simpl. by rewrite Htable.
Qed.

(** [get_cursor] of a replica descriptor on a server that accepts the
    connection and has the database: it returns, no server changes, and the
    session of the new connection has [ScalrTest] selected. *)
Lemma ref_get_cursor_replica self w i tables :
  master self = false ->
  hosts (server w) !! hostname self = Some i ->
  listening i = true ->
  (username self, password self) ∈ accounts i ->
  databases i !! "ScalrTest" = Some tables ->
  exists w',
    DBConnectionInformation.get_cursor self w
    = (Return (cursor (length (sessions (server w)))), w')
    /\ hosts (server w') = hosts (server w)
    /\ sessions (server w')
       = (sessions (server w)
          ++ [{| peer := hostname self; current_db := Some "ScalrTest";
                 result_set := [] |}])%list.
Proof.
  intros Hrole Hhost Hlisten Hacc Hdb.
  set (new := {| peer := hostname self; current_db := None; result_set := [] |}).
  set (s1 := {| hosts := hosts (server w); sessions := (sessions (server w) ++ [new])%list |}).
  assert (Hconn : connect (hostname self) (username self) (password self) (server w)
                  = (Return (length (sessions (server w))), s1)).
  { change connect with ref_connect. unfold ref_connect. rewrite Hhost, Hlisten. simpl.
    by rewrite bool_decide_eq_true_2. }
  rewrite (get_cursor_connected _ _ _ _ Hconn). rewrite Hrole.
  assert (Hss1 : sessions s1 !! connection (cursor (length (sessions (server w))))
                 = Some new)
    by (simpl; by apply list_lookup_middle).
  pose proof (ref_use _ s1 new i tables Hss1 Hhost Hdb) as Huse.
  pose proof (cursor_execute_Return _ _ None
                (with_call (Connect (hostname self) (username self) (password self)) s1 w)
                _ Huse) as Rule.
  cbn [setup_statements execute_all fst snd]. unfold bind. rewrite Rule.
  eexists. split; [reflexivity|]. simpl. split; [reflexivity|].
  rewrite insert_app_r_alt by lia. by rewrite Nat.sub_diag.
Qed.

(** The table of a provisioned server, for a session that has selected
    [ScalrTest]. *)
Lemma provision_table i ss :
  current_db ss = Some "ScalrTest" ->
  table_of (provision i) ss "ScalrValues"
  = inr ("ScalrTest",
         create_if_not_exists "ScalrValues" [] (default ∅ (databases i !! "ScalrTest")),
         default [] (databases i !! "ScalrTest" ≫= fun t => t !! "ScalrValues")).
Proof.
  intros Hdb. unfold table_of, provision. rewrite Hdb. simpl. rewrite lookup_insert_eq.
  rewrite create_if_not_exists_lookup.
  destruct (databases i !! "ScalrTest") as [t|]; simpl; [reflexivity|].
  by rewrite lookup_empty.
Qed.

(** X15. On the reference server, writing and then reading on one host:
    when the server of the host accepts both descriptors, [insert] on the
    primary descriptor returns and the table then holds the rows it held
    before (none if it did not exist) followed by the first 200 characters
    of the value; [get_values] on a replica descriptor for the same host,
    run next, returns exactly these values, in this order. *)
Theorem insert_then_get_values (writer reader : DBConnectionInformation_t)
    (value : string) w i :
  master writer = true -> master reader = false ->
  hostname reader = hostname writer ->
  hosts (server w) !! hostname writer = Some i ->
  listening i = true ->
  (username writer, password writer) ∈ accounts i ->
  (username reader, password reader) ∈ accounts i ->
  exists w1 w2,
    DBConnectionInformation.insert writer value w = (Return (), w1)
    /\ stored_values (hostname writer) (server w1)
       = Some (default [] (stored_values (hostname writer) (server w))
               ++ [slice_to VALUE_LENGTH value])%list
    /\ DBConnectionInformation.get_values reader w1
       = (Return (default [] (stored_values (hostname writer) (server w))
                  ++ [slice_to VALUE_LENGTH value])%list, w2).
Proof.
  intros Hw Hr Hhost Hi Hl Haw Har.
  assert (Hold : stored_values (hostname writer) (server w)
                 = databases i !! "ScalrTest" ≫= fun t => t !! "ScalrValues")
    by (unfold stored_values; by rewrite Hi).
  rewrite Hold. clear Hold.
  set (rows := default [] (databases i !! "ScalrTest" ≫= fun t => t !! "ScalrValues")).
  set (x := slice_to VALUE_LENGTH value).
  (* the write *)
  destruct (ref_get_cursor_master writer w i Hw Hi Hl Haw) as (w' & Hcur & Hhosts' & Hsess').
  set (c := cursor (length (sessions (server w)))) in *.
  set (new' := {| peer := hostname writer; current_db := Some "ScalrTest";
                  result_set := [] |}) in *.
  assert (Hss : sessions (server w') !! connection c = Some new')
    by (rewrite Hsess'; by apply list_lookup_middle).
  assert (Hpi : hosts (server w') !! peer new' = Some (provision i))
    by (rewrite Hhosts'; apply lookup_insert_eq).
  pose proof (ref_insert c (server w') new' (provision i) _ _ _ x Hss Hpi
                (provision_table i new' eq_refl)) as Hins.
  set (tables := <["ScalrValues" := (rows ++ [x])%list]>
                   (create_if_not_exists "ScalrValues" []
                      (default ∅ (databases i !! "ScalrTest")))) in Hins.
  set (i1 := {| listening := listening (provision i); accounts := accounts (provision i);
                databases := <["ScalrTest" := tables]> (databases (provision i)) |}).
  set (s1 := set_databases (peer new') (provision i)
               (<["ScalrTest" := tables]> (databases (provision i))) (server w')) in Hins.
  assert (Hi1 : hosts s1 !! hostname writer = Some i1) by apply lookup_insert_eq.
  pose proof (ref_commit c s1 new' i1 Hss Hi1) as Hcommit.
  set (wi := with_call (Execute c "INSERT INTO ScalrValues (val) VALUES (%s)"
                          (Some (PyStr x))) s1 w').
  set (w1 := with_call (Execute c "COMMIT" None) s1 wi).
  assert (Hinsert : DBConnectionInformation.insert writer value w = (Return (), w1)).
  { unfold DBConnectionInformation.insert. rewrite (bind_Return _ _ _ _ _ Hcur).
    rewrite (bind_Return _ _ _ _ _ (cursor_execute_Return c _ _ w' s1 Hins)).
    exact (cursor_execute_Return c "COMMIT" None wi s1 Hcommit). }
  assert (Hdb1 : databases i1 !! "ScalrTest" = Some tables) by apply lookup_insert_eq.
  (* the read *)
  rewrite <- Hhost in Hi1.
  destruct (ref_get_cursor_replica reader w1 i1 tables Hr Hi1 Hl Har Hdb1)
    as (w2' & Hcur2 & Hhosts2 & Hsess2).
  set (c2 := cursor (length (sessions (server w1)))) in *.
  set (newr := {| peer := hostname reader; current_db := Some "ScalrTest";
                  result_set := [] |}) in *.
  assert (Hss2 : sessions (server w2') !! connection c2 = Some newr)
    by (rewrite Hsess2; by apply list_lookup_middle).
  assert (Hi2 : hosts (server w2') !! peer newr = Some i1) by (by rewrite Hhosts2).
  assert (Htable2 : table_of i1 newr "ScalrValues"
                    = inr ("ScalrTest", tables, (rows ++ [x])%list)).
  { unfold table_of. simpl. rewrite lookup_insert_eq. unfold tables.
    by rewrite lookup_insert_eq. }
  pose proof (ref_select c2 (server w2') newr i1 _ _ _ Hss2 Hi2 Htable2) as Hsel.
  set (s3 := set_session c2 _ (server w2')) in Hsel.
  assert (Hfetch : fetchall c2 s3 = (fun v => [v]) <$> (rows ++ [x])%list).
  { change fetchall with ref_fetchall. unfold ref_fetchall, s3. simpl.
    rewrite list_lookup_insert_eq; [reflexivity|].
    rewrite Hsess2, length_app. simpl. lia. }
  exists w1. eexists. split; [exact Hinsert|]. split.
  - unfold stored_values. rewrite Hhost in Hi1.
    change (server w1) with s1. rewrite Hi1. simpl.
    rewrite lookup_insert_eq. simpl. unfold tables. by rewrite lookup_insert_eq.
  - rewrite (get_values_select_Return _ _ _ _ _ Hcur2 Hsel), Hfetch.
    apply list_comprehension_getitem0.
Qed.

End round_trip.

(** * The further theorems at concrete inputs *)

(** The reference server raises library exceptions only. *)
Lemma ref_client_library : raises_library_exceptions RefServer.ref_client.
Proof.
  split.
  - intros host user passwd s e s' Hconn.
    change connect with RefServer.ref_connect in Hconn.
    unfold RefServer.ref_connect in Hconn.
    repeat case_match; simplify_eq; exact I.
  - intros c query args s e s' Hexec.
    change execute with RefServer.ref_execute in Hexec.
    unfold RefServer.ref_execute, RefServer.table_of in Hexec.
    repeat case_match; simplify_eq; exact I.
Qed.

(** The configuration files of [Demo.config]. *)
Lemma demo_configured (master slave : string) :
  configured (Demo.world master slave)
    ("scalr" ++ Demo.newline) ("s3cret" ++ Demo.newline)
    (master ++ Demo.newline) (slave ++ Demo.newline).
Proof.
  split; [vm_compute; reflexivity|].
  split; [vm_compute; reflexivity|].
  split; vm_compute; reflexivity.
Qed.

(** The same files on the host whose resolver refuses the empty name. *)
Lemma hosts_configured (master slave : string) :
  configured (Demo.hosts_world master slave)
    ("scalr" ++ Demo.newline) ("s3cret" ++ Demo.newline)
    (master ++ Demo.newline) (slave ++ Demo.newline).
Proof.
  split; [vm_compute; reflexivity|].
  split; [vm_compute; reflexivity|].
  split; vm_compute; reflexivity.
Qed.

(** The resolver of [Demo.world] raises [gaierror] only. *)
Lemma demo_library_resolver (master slave : string) :
  library_resolver (Demo.world master slave).
Proof.
  intros host e Hres.
  change (gethostbyname_ex (Demo.world master slave) host) with (Demo.dns host) in Hres.
  unfold Demo.dns in Hres. repeat case_match; simplify_eq; exact I.
Qed.

(** X1 on a replica descriptor for a host that does not exist. *)
Lemma connection_failure_surfaces_witness :
  fst (DBConnectionInformation.get_values (Demo.descriptor "nowhere" false)
         (Demo.world "a" "b"))
  = Raise (NoConnectionEstablished (Demo.descriptor "nowhere" false)
             "The host [nowhere] does not exist.")
  /\ fst (DBConnectionInformation.insert (Demo.descriptor "nowhere" false) "v"
            (Demo.world "a" "b"))
     = Raise (NoConnectionEstablished (Demo.descriptor "nowhere" false)
                "The host [nowhere] does not exist.").
Proof.
  destruct (connection_failure_surfaces (Demo.descriptor "nowhere" false) "v"
              (Demo.world "a" "b") 2005 "Unknown MySQL server host 'nowhere'"
              Demo.deployment) as (Hget & Hins & _); [vm_compute; reflexivity|].
  rewrite Hget, Hins. split; reflexivity.
Defined.

(** X2 on the replica [s], whose table holds two values. *)
Lemma get_values_statements_witness :
  exists issued,
    issued = [("USE ScalrTest", None); ("SELECT val FROM ScalrValues", None)]
    /\ log (snd (DBConnectionInformation.get_values (Demo.descriptor "s" false)
                   (Demo.world "a" "s")))
       = (Connect "s" "scalr" "s3cret"
            :: ((fun st => Execute (cursor 0) (fst st) (snd st)) <$> issued))%list.
Proof.
  destruct (get_values_statements (Demo.descriptor "s" false) (Demo.world "a" "s") 0%nat
              (snd (connect "s" "scalr" "s3cret" (server (Demo.world "a" "s")))))
    as (issued & _ & _ & Hlog & _ & _ & Hall); [apply run_eq; vm_compute; reflexivity|].
  exists issued. split; [|exact Hlog].
  apply (Hall ["hello"; "world"]); [vm_compute; reflexivity|discriminate].
Defined.

(** X3 on a replica descriptor for the host [s]: the [INSERT] is sent. *)
Lemma insert_statements_witness :
  exists issued,
    issued = [("USE ScalrTest", None);
              ("INSERT INTO ScalrValues (val) VALUES (%s)", Some (PyStr "v"));
              ("COMMIT", None)]
    /\ log (snd (DBConnectionInformation.insert (Demo.descriptor "s" false) "v"
                   (Demo.world "a" "s")))
       = (Connect "s" "scalr" "s3cret"
            :: ((fun st => Execute (cursor 0) (fst st) (snd st)) <$> issued))%list.
Proof.
  destruct (insert_statements (Demo.descriptor "s" false) "v" (Demo.world "a" "s") 0%nat
              (snd (connect "s" "scalr" "s3cret" (server (Demo.world "a" "s")))))
    as (issued & _ & _ & Hlog & Hall & _); [apply run_eq; vm_compute; reflexivity|].
  exists issued. split; [|exact Hlog].
  apply Hall. vm_compute. reflexivity.
Defined.

(** X4 on the reference server and a read on the host [d], whose server
    is not running. *)
Lemma connection_error_carries_descriptor_witness :
  connect_failure (Demo.descriptor "d" false) (Demo.world "a" "d")
    (Demo.descriptor "d" false) "An error occured: Code 2003"
    (snd (DBConnectionInformation.get_values (Demo.descriptor "d" false)
            (Demo.world "a" "d"))).
Proof.
  apply (proj1 (proj2 (connection_error_carries_descriptor RefServer.ref_client
                         (Demo.descriptor "d" false) "v" (Demo.world "a" "d") _ _ _
                         ref_client_library))).
  apply run_eq. vm_compute. reflexivity.
Defined.

(** X5 on the primary host of the configuration files of [Demo.config]. *)
Lemma init_attributes_trimmed_witness :
  "_master" ∈ ["username"; "password"; "_master"; "_slave"]
  /\ starts_with_space "a" = false
  /\ ends_with_space "a" = false
  /\ strip "a" = "a".
Proof.
  apply (init_attributes_trimmed CONFIG_PATH (Demo.world "a" "b") _ _ "_master" "a"
           (demo_init "a" "b")).
  vm_compute. reflexivity.
Defined.

(** X6 on two accesses of [master] in a row. *)
Lemma descriptors_built_at_each_access_witness :
  exists d1 d2,
    self_id d2 = S (self_id d1)
    /\ hostname d1 = hostname d2
    /\ instancemethod_eq {| im_self := d1; im_func := "ips" |}
                         {| im_self := d2; im_func := "ips" |} = false.
Proof.
  destruct (descriptors_built_at_each_access CONFIG_PATH _ _ _ true true (Demo.world "a" "b")
              (demo_init "a" "b"))
    as (d1 & d2 & w1 & w2 & _ & _ & _ & Hid & _ & _ & _ & _ & _ & Hhost & Hne).
  exists d1, d2. split; [exact Hid|]. split; [by apply Hhost|exact Hne].
Defined.

(** X7 on a [GET] request where the file of the replica host is missing. *)
Lemma unconfigured_request_renders_base_witness :
  prepare_page DemoRequest.get page_get Demo.world_without_slave
  = (Return (Rendered BASE_TEMPLATE (initial_ctx DemoRequest.get)),
     Demo.world_without_slave).
Proof.
  apply (unconfigured_request_renders_base DemoRequest.get page_get
           Demo.world_without_slave).
  exists "mysql-slave", "_slave".
  split; [unfold ConnectionInfo.entries; repeat constructor | vm_compute; reflexivity].
Defined.

(** X8 on a [GET] request when the server of the replica [d] is not
    running: the read-error page when the primary is [a], and the
    [socket.herror] of the resolver when the file of the primary host holds
    an empty line. *)
Lemma page_get_connection_failure_witness :
  rendered_template (fst (prepare_page DemoRequest.get page_get (Demo.world "a" "d")))
  = Some READ_ERROR_TEMPLATE
  /\ rendered_ctx "error" (fst (prepare_page DemoRequest.get page_get (Demo.world "a" "d")))
     = Some (CtxStr "An error occured: Code 2003")
  /\ next_id (snd (prepare_page DemoRequest.get page_get (Demo.world "a" "d"))) = 7%nat
  /\ fst (prepare_page DemoRequest.get page_get (Demo.hosts_world EmptyString "d"))
     = Raise Demo.herror
  /\ log (snd (prepare_page DemoRequest.get page_get (Demo.hosts_world EmptyString "d")))
     = [Connect "d" "scalr" "s3cret"].
Proof.
  destruct (page_get_connection_failure DemoRequest.get (Demo.world "a" "d") _ _ _ _
              2003 "Can't connect to MySQL server on 'd'" Demo.deployment
              (demo_configured "a" "d")) as (_ & Hpage & _); [vm_compute; reflexivity|].
  destruct (page_get_connection_failure DemoRequest.get (Demo.hosts_world EmptyString "d")
              _ _ _ _ 2003 "Can't connect to MySQL server on 'd'" Demo.deployment
              (hosts_configured EmptyString "d")) as (Hlog & _ & Hraise & _);
    [vm_compute; reflexivity|].
  rewrite Hpage by (vm_compute; exact I).
  rewrite (Hraise Demo.herror) by (reflexivity || (intros; discriminate)).
  split; [reflexivity|].
  split; [cbv beta iota delta [rendered_ctx fst]; rewrite lookup_insert_eq;
          vm_compute; reflexivity|].
  split; [reflexivity|]. split; [reflexivity|].
  rewrite (Hraise Demo.herror) in Hlog by (reflexivity || (intros; discriminate)).
  exact Hlog.
Defined.

(** X9 on a [POST] request without a [value] field when the server of the
    primary [d] is not running. *)
Lemma page_post_connection_failure_witness :
  rendered_template
    (fst (prepare_page DemoRequest.get (page_post DemoRequest.get) (Demo.world "d" "a")))
  = Some WRITE_ERROR_TEMPLATE
  /\ rendered_ctx "error"
       (fst (prepare_page DemoRequest.get (page_post DemoRequest.get) (Demo.world "d" "a")))
     = Some (CtxStr "An error occured: Code 2003").
Proof.
  rewrite (page_post_connection_failure DemoRequest.get (Demo.world "d" "a") _ _ _ _
             2003 "Can't connect to MySQL server on 'd'" Demo.deployment
             (demo_configured "d" "a")); [|vm_compute; reflexivity].
  split; [reflexivity|].
  cbv beta iota delta [rendered_ctx fst]. rewrite lookup_insert_eq. vm_compute. reflexivity.
Defined.

(** X10 on a [GET] request served by the replica [s], which holds two
    values, by the replica [b], which has no database, and by [s] again
    when the file of the primary host holds an empty line. *)
Lemma page_get_shows_values_witness :
  rendered_ctx "values" (fst (prepare_page DemoRequest.get page_get (Demo.world "a" "s")))
  = Some (CtxValues ["hello"; "world"])
  /\ (exists w2,
         prepare_page DemoRequest.get page_get (Demo.world "a" "b")
         = (Return (Rendered CONNECTED_TEMPLATE
                      (<["values" := CtxValues []]>
                         (page_ctx DemoRequest.get ("scalr" ++ Demo.newline)
                            ("s3cret" ++ Demo.newline) ("a" ++ Demo.newline)
                            ("b" ++ Demo.newline)))), w2)
         /\ log w2 = [Connect "b" "scalr" "s3cret"; Execute (cursor 0) "USE ScalrTest" None])
  /\ fst (prepare_page DemoRequest.get page_get (Demo.hosts_world EmptyString "s"))
     = Raise Demo.herror.
Proof.
  split; [|split].
  - rewrite (proj1 (proj1 (page_get_shows_values DemoRequest.get (Demo.world "a" "s") _ _ _ _
                             (demo_configured "a" "s"))
                      ["hello"; "world"]
                      (snd (DBConnectionInformation.get_values
                              (descriptor_of (Demo.world "a" "s") ("scalr" ++ Demo.newline)
                                 ("s3cret" ++ Demo.newline) ("s" ++ Demo.newline) false)
                              (with_next_id 1 (Demo.world "a" "s"))))
                      ltac:(apply run_eq; vm_compute; reflexivity)));
      [|vm_compute; exact I..].
    cbv beta iota delta [rendered_ctx fst]. by rewrite lookup_insert_eq.
  - destruct (proj2 (page_get_shows_values DemoRequest.get (Demo.world "a" "b") _ _ _ _
                       (demo_configured "a" "b"))
                0%nat (snd (connect "b" "scalr" "s3cret" (server (Demo.world "a" "b"))))
                "Unknown database 'ScalrTest'"
                (snd (connect "b" "scalr" "s3cret" (server (Demo.world "a" "b")))))
      as (w2 & Hpage & Hlog).
    + apply run_eq. vm_compute. reflexivity.
    + vm_compute. reflexivity.
    + vm_compute. exact I.
    + vm_compute. exact I.
    + exists w2. split; [exact Hpage|exact Hlog].
  - rewrite (proj1 (proj2 (proj1 (page_get_shows_values DemoRequest.get
                                    (Demo.hosts_world EmptyString "s") _ _ _ _
                                    (hosts_configured EmptyString "s"))
                             ["hello"; "world"]
                             (snd (DBConnectionInformation.get_values
                                     (descriptor_of (Demo.hosts_world EmptyString "s")
                                        ("scalr" ++ Demo.newline) ("s3cret" ++ Demo.newline)
                                        ("s" ++ Demo.newline) false)
                                     (with_next_id 1 (Demo.hosts_world EmptyString "s"))))
                             ltac:(apply run_eq; vm_compute; reflexivity)))
               Demo.herror).
    + reflexivity.
    + reflexivity.
    + intros errno strerror. discriminate.
    + exact I.
Defined.

(** X11 on a [POST] request that submits the value of 500 characters. *)
Lemma page_post_redirects_witness :
  fst (prepare_page (DemoRequest.post Demo.long_value)
         (page_post (DemoRequest.post Demo.long_value)) (Demo.world "a" "b"))
  = Return (Redirect "/")
  /\ log (snd (prepare_page (DemoRequest.post Demo.long_value)
                 (page_post (DemoRequest.post Demo.long_value)) (Demo.world "a" "b")))
     = (Connect "a" "scalr" "s3cret"
          :: ((fun st => Execute (cursor 0) (fst st) (snd st))
                <$> write_statements true Demo.long_value))%list.
Proof.
  destruct (page_post_redirects (DemoRequest.post Demo.long_value) (Demo.world "a" "b")
              ("scalr" ++ Demo.newline) ("s3cret" ++ Demo.newline)
              ("a" ++ Demo.newline) ("b" ++ Demo.newline) Demo.long_value 0%nat
              (snd (connect "a" "scalr" "s3cret" (server (Demo.world "a" "b"))))
              (snd (DBConnectionInformation.insert
                      (descriptor_of (Demo.world "a" "b") ("scalr" ++ Demo.newline)
                         ("s3cret" ++ Demo.newline) ("a" ++ Demo.newline) true)
                      Demo.long_value (with_next_id 1 (Demo.world "a" "b"))))
              (demo_configured "a" "b")) as [Hpage Hlog].
  - vm_compute. reflexivity.
  - apply run_eq. vm_compute. reflexivity.
  - apply run_eq. vm_compute. reflexivity.
  - rewrite Hpage. split; [reflexivity|exact Hlog].
Defined.

(** X12 on a [POST] request whose form is empty. *)
Lemma page_post_missing_field_witness :
  fst (prepare_page DemoRequest.get (page_post DemoRequest.get) (Demo.world "a" "b"))
  = Raise (OtherError "TypeError" 0 "'NoneType' object has no attribute '__getitem__'")
  /\ RefServer.stored_values "a"
       (server (snd (prepare_page DemoRequest.get (page_post DemoRequest.get)
                       (Demo.world "a" "b"))))
     = Some [].
Proof.
  rewrite (page_post_missing_field DemoRequest.get (Demo.world "a" "b") _ _ _ _
             (cursor 0)
             (snd (DBConnectionInformation.get_cursor
                     (descriptor_of (Demo.world "a" "b") ("scalr" ++ Demo.newline)
                        ("s3cret" ++ Demo.newline) ("a" ++ Demo.newline) true)
                     (with_next_id 1 (Demo.world "a" "b"))))
             (demo_configured "a" "b")).
  - split; [reflexivity|vm_compute; reflexivity].
  - vm_compute. reflexivity.
  - apply run_eq. vm_compute. reflexivity.
Defined.

(** X13 on a [GET] request served by the replica [c], which has the
    database and not the table. *)
Lemma page_get_unhandled_query_error_witness :
  fst (prepare_page DemoRequest.get page_get (Demo.world "a" "c"))
  = Raise (OtherError "ProgrammingError" 1146 "Table 'ScalrValues' doesn't exist").
Proof.
  set (w2 := snd (DBConnectionInformation.get_cursor
                    (descriptor_of (Demo.world "a" "c") ("scalr" ++ Demo.newline)
                       ("s3cret" ++ Demo.newline) ("c" ++ Demo.newline) false)
                    (with_next_id 1 (Demo.world "a" "c")))).
  rewrite (page_get_unhandled_query_error DemoRequest.get (Demo.world "a" "c") _ _ _ _
             (cursor 0) w2
             (OtherError "ProgrammingError" 1146 "Table 'ScalrValues' doesn't exist")
             (snd (execute (cursor 0) "SELECT val FROM ScalrValues" None (server w2)))
             (demo_configured "a" "c")).
  - reflexivity.
  - apply run_eq. vm_compute. reflexivity.
  - apply run_eq. vm_compute. reflexivity.
  - intros msg. discriminate.
  - exact I.
Defined.

(** X14 on the reference server and the configuration that names [a] and
    [d]. *)
Lemma views_render_their_own_templates_witness :
  (forall t,
      rendered_template (fst (prepare_page DemoRequest.get page_get (Demo.world "a" "d")))
      = Some t ->
      t = CONNECTED_TEMPLATE \/ t = READ_ERROR_TEMPLATE)
  /\ (forall t,
         rendered_template
           (fst (prepare_page DemoRequest.get (page_post DemoRequest.get)
                   (Demo.world "a" "d")))
         = Some t ->
         t = WRITE_ERROR_TEMPLATE).
Proof.
  destruct (views_render_their_own_templates RefServer.ref_client DemoRequest.get
              (Demo.world "a" "d") _ _ _ _ ref_client_library (demo_configured "a" "d"))
    as (Hget & _ & Hpost & _).
  split; [exact (Hget (demo_library_resolver "a" "d"))|exact Hpost].
Defined.

(** X15 on the fresh server [a], written to with the value of 500
    characters and read from next. *)
Lemma insert_then_get_values_witness :
  exists w1 w2,
    DBConnectionInformation.insert (Demo.descriptor "a" true) Demo.long_value
      (Demo.world "a" "a") = (Return (), w1)
    /\ RefServer.stored_values "a" (server w1)
       = Some (default [] (RefServer.stored_values "a" (server (Demo.world "a" "a")))
               ++ [slice_to VALUE_LENGTH Demo.long_value])%list
    /\ DBConnectionInformation.get_values (Demo.descriptor "a" false) w1
       = (Return (default [] (RefServer.stored_values "a" (server (Demo.world "a" "a")))
                  ++ [slice_to VALUE_LENGTH Demo.long_value])%list, w2).
Proof.
  apply (insert_then_get_values (Demo.descriptor "a" true) (Demo.descriptor "a" false)
           Demo.long_value (Demo.world "a" "a") Demo.fresh_instance).
  - reflexivity.
  - reflexivity.
  - reflexivity.
  - vm_compute. reflexivity.
  - reflexivity.
  - by left.
  - by left.
Defined.
